(** * Admission pipeline: classification, extraction, decision, workflow

    A shallow embedding of the agents of [backend/agents] and of the
    workflow graph that sequences them, with the properties the
    specification states about them.

    Conventions of the embedding.
    - A Python [float] is the rational it denotes ([Q]); comparisons are
      the comparisons of Python, arithmetic is exact (no rounding, no NaN
      or infinity).  Equalities between computed confidences are
      therefore stated with [==].
    - A Python [dict] with string keys is a [gmap string _].
    - A function that can raise returns in the monad [M]: a result that is
      either a value or the exception raised, together with the log of the
      outbound calls made so far.
    - Time is left out: [created_at] and the timestamp of a log entry are
      not part of the state. *)

From Stdlib Require Import QArith Qminmax Lqa.
From stdpp Require Import gmap strings list fin_maps.

Local Open Scope string_scope.
Local Open Scope list_scope.
#[local] Set Warnings "-register-all".

(** ** Values decoded by [json.loads] *)

Inductive json : Type :=
  | JNull
  | JBool (b : bool)
  | JNum (q : Q)
  | JStr (s : string)
  | JArr (l : list json)
  | JObj (m : gmap string json).

(** [v is not None] *)
Definition is_not_None (v : json) : bool :=
  match v with JNull => false | _ => true end.

(** [x == 0] on numbers *)
Definition Qzerob (q : Q) : bool := Qeq_bool q 0.

(** [x > y] on floats *)
Definition Qgtb (x y : Q) : bool := negb (Qle_bool x y).

(** Python truth value of a decoded value: [None], [False], zero, the
    empty string, the empty list and the empty dict are false. *)
Definition truthy (v : json) : bool :=
  match v with
  | JNull => false
  | JBool b => b
  | JNum q => negb (Qzerob q)
  | JStr s => negb (String.eqb s "")
  | JArr l => match l with [] => false | _ => true end
  | JObj m => negb (bool_decide (m = ∅))
  end.

(** [min(a, b)] of Python: the first argument unless the second is
    strictly smaller. *)
Definition py_min (a b : Q) : Q := if Qgtb a b then b else a.

(** [n / d] on two Python ints (true division) *)
Definition true_div (n d : nat) : Q := inject_Z (Z.of_nat n) / inject_Z (Z.of_nat d).

(** ** Exceptions and results *)

Inductive exn : Type :=
  | JSONDecodeError
  | KeyError (key : string)
  | TypeError
  | AttributeError
  | ValidationError
  | ExternalError (msg : string)
  | GraphRecursionError.

Inductive result (A : Type) : Type :=
  | Ok (a : A)
  | Raise (e : exn).
Arguments Ok {A} a.
Arguments Raise {A} e.

(** [str(e)].  The text of a [KeyError] is the quoted key; the text of
    the other interpreter and library exceptions is stood for by their
    name. *)
Definition exn_str (e : exn) : string :=
  match e with
  | JSONDecodeError => "JSONDecodeError"
  | KeyError k => "'" +:+ k +:+ "'"
  | TypeError => "TypeError"
  | AttributeError => "AttributeError"
  | ValidationError => "ValidationError"
  | ExternalError msg => msg
  | GraphRecursionError => "GraphRecursionError"
  end.

(** [v[key]] on a decoded value: only a dict can be subscripted by a
    string. *)
Definition subscript (v : json) (key : string) : result json :=
  match v with
  | JObj m => match m !! key with Some x => Ok x | None => Raise (KeyError key) end
  | _ => Raise TypeError
  end.

(** ** state.py *)

Module DocumentFile.
Record t : Type := mk
  { file_id : string;
    filename : string;
    file_type : string;
    file_path : string;
    size_bytes : Z }.
End DocumentFile.

Module ClassifiedDocument.
Record t : Type := mk
  { file : DocumentFile.t;
    document_type : string;
    confidence : Q }.
End ClassifiedDocument.

Module ExtractedData.
Record t : Type := mk
  { document_type : string;
    data : gmap string json;
    confidence : Q;
    source_file : string }.
End ExtractedData.

(** The [Literal] of [AdmissionDecision.status]. *)
Inductive Status : Type := APPROVED | REJECTED | REVIEW_REQUIRED | MISSING_DOCS.

Module AdmissionDecision.
Record t : Type := mk
  { status : Status;
    confidence : Q;
    reasoning : string;
    applied_rules : list (gmap string json);
    missing_documents : list string;
    handbook_citations : list string }.
End AdmissionDecision.

(** An entry of [agent_logs].  The timestamp ([datetime.now()]) is left
    out; [details] is the dict literal of the call, in source order. *)
Module LogEntry.
Record t : Type := mk
  { agent : string;
    action : string;
    details : list (string * json) }.
End LogEntry.

(** [ApplicationState].  The dict that flows through the graph
    ([WorkflowState]) has exactly these keys and is built from, and
    converted back to, this model by copying each key, so the same record
    stands for both. *)
Module ApplicationState.
Record t : Type := mk
  { application_id : string;
    applicant_id : string;
    target_program : string;
    entity : string;
    uploaded_files : list DocumentFile.t;
    classified_documents : list ClassifiedDocument.t;
    extracted_data : list ExtractedData.t;
    admission_decision : option AdmissionDecision.t;
    current_stage : string;
    error_message : option string;
    agent_logs : list LogEntry.t }.

Definition set_classified_documents (v : list ClassifiedDocument.t) (s : t) : t :=
  mk s.(application_id) s.(applicant_id) s.(target_program) s.(entity)
     s.(uploaded_files) v s.(extracted_data) s.(admission_decision)
     s.(current_stage) s.(error_message) s.(agent_logs).

Definition set_extracted_data (v : list ExtractedData.t) (s : t) : t :=
  mk s.(application_id) s.(applicant_id) s.(target_program) s.(entity)
     s.(uploaded_files) s.(classified_documents) v s.(admission_decision)
     s.(current_stage) s.(error_message) s.(agent_logs).

Definition set_admission_decision (v : option AdmissionDecision.t) (s : t) : t :=
  mk s.(application_id) s.(applicant_id) s.(target_program) s.(entity)
     s.(uploaded_files) s.(classified_documents) s.(extracted_data) v
     s.(current_stage) s.(error_message) s.(agent_logs).

Definition set_current_stage (v : string) (s : t) : t :=
  mk s.(application_id) s.(applicant_id) s.(target_program) s.(entity)
     s.(uploaded_files) s.(classified_documents) s.(extracted_data)
     s.(admission_decision) v s.(error_message) s.(agent_logs).

Definition set_error_message (v : option string) (s : t) : t :=
  mk s.(application_id) s.(applicant_id) s.(target_program) s.(entity)
     s.(uploaded_files) s.(classified_documents) s.(extracted_data)
     s.(admission_decision) s.(current_stage) v s.(agent_logs).

Definition set_agent_logs (v : list LogEntry.t) (s : t) : t :=
  mk s.(application_id) s.(applicant_id) s.(target_program) s.(entity)
     s.(uploaded_files) s.(classified_documents) s.(extracted_data)
     s.(admission_decision) s.(current_stage) s.(error_message) v.

(** [add_log]: append one entry to [agent_logs]. *)
Definition add_log (agent action : string) (details : list (string * json)) (s : t) : t :=
  set_agent_logs (s.(agent_logs) ++ [LogEntry.mk agent action details]) s.

(** The state [process_admission_application] starts from: every field
    after [uploaded_files] at its default. *)
Definition initial (application_id applicant_id target_program entity : string)
    (uploaded_files : list DocumentFile.t) : t :=
  mk application_id applicant_id target_program entity uploaded_files
     [] [] None "created" None [].
End ApplicationState.

(** ** The applicant profile and the rule answers (admission_agent.py) *)

(** An entry of [profile["qualifications"]]: the ["type"] key is the
    tag, and only a secondary-education entry has a ["subtype"]. *)
Inductive Qualification : Type :=
  | university_degree (data : gmap string json) (confidence : Q)
  | secondary_education (subtype : string) (data : gmap string json) (confidence : Q).

Module Profile.
Record t : Type := mk
  { target_program : string;
    entity : string;
    qualifications : list Qualification;
    work_experience : list (gmap string json);
    personal_info : gmap string json }.
End Profile.

(** The dict [{"queries": ..., "results": ...}] returned by
    [_query_admission_rules]; a result is the dict returned by the
    retriever. *)
Module HandbookRules.
Record t : Type := mk
  { queries : list string;
    results : list (gmap string json) }.
End HandbookRules.

(** ** Outbound calls *)

(** What each call site sends to the language model: the values its
    prompt interpolates. *)
Inductive prompt : Type :=
  | ClassificationPrompt (document_types : list string) (filename content : string)
  | ExtractionPrompt (document_type text_content : string) (extraction_template : list string)
  | DecisionPrompt (profile : Profile.t) (handbook_rules : HandbookRules.t)
      (target_program entity : string).

Inductive call : Type :=
  | LLMCall (p : prompt)
  | RAGQuery (question : string).

(** The calls made so far, oldest first. *)
Definition World : Type := list call.

(** ** The monad of the agents: exceptions over a call log *)

Definition M (A : Type) : Type := World → result A * World.

Definition ret {A} (a : A) : M A := λ w, (Ok a, w).

Definition raise {A} (e : exn) : M A := λ w, (Raise e, w).

Definition bind {A B} (m : M A) (k : A → M B) : M B :=
  λ w, match m w with
       | (Ok a, w') => k a w'
       | (Raise e, w') => (Raise e, w')
       end.

Definition lift {A} (r : result A) : M A := λ w, (r, w).

(** [try: body except Exception as e: handler e] *)
Definition try_except {A} (body : M A) (handler : exn → M A) : M A :=
  λ w, match body w with
       | (Ok a, w') => (Ok a, w')
       | (Raise e, w') => handler e w'
       end.

(** [try: body except json.JSONDecodeError: handler]; any other
    exception passes through. *)
Definition try_except_JSONDecodeError {A} (body : M A) (handler : M A) : M A :=
  λ w, match body w with
       | (Raise JSONDecodeError, w') => handler w'
       | r => r
       end.

Declare Scope py_scope.
Delimit Scope py_scope with py.
Notation "x <- m ;; k" := (bind m (λ x, k))
  (at level 100, m at next level, right associativity) : py_scope.
Local Open Scope py_scope.

(** ** pydantic validation of decoded values (lax mode of pydantic 2) *)

Definition as_str (v : json) : result string :=
  match v with JStr s => Ok s | _ => Raise ValidationError end.

Definition as_status (v : json) : result Status :=
  match v with
  | JStr s =>
      if String.eqb s "APPROVED" then Ok APPROVED
      else if String.eqb s "REJECTED" then Ok REJECTED
      else if String.eqb s "REVIEW_REQUIRED" then Ok REVIEW_REQUIRED
      else if String.eqb s "MISSING_DOCS" then Ok MISSING_DOCS
      else Raise ValidationError
  | _ => Raise ValidationError
  end.

Definition as_dict (v : json) : result (gmap string json) :=
  match v with JObj m => Ok m | _ => Raise ValidationError end.

Fixpoint as_list {A} (elt : json → result A) (l : list json) : result (list A) :=
  match l with
  | [] => Ok []
  | v :: l' =>
      match elt v, as_list elt l' with
      | Ok a, Ok r => Ok (a :: r)
      | _, _ => Raise ValidationError
      end
  end.

Definition as_list_of {A} (elt : json → result A) (v : json) : result (list A) :=
  match v with JArr l => as_list elt l | _ => Raise ValidationError end.

Definition status_str (s : Status) : string :=
  match s with
  | APPROVED => "APPROVED"
  | REJECTED => "REJECTED"
  | REVIEW_REQUIRED => "REVIEW_REQUIRED"
  | MISSING_DOCS => "MISSING_DOCS"
  end.

(** [sep.join(l)] *)
Fixpoint join (sep : string) (l : list string) : string :=
  match l with
  | [] => ""
  | [x] => x
  | x :: l' => x +:+ sep +:+ join sep l'
  end.

(** ** The collaborators of the agents

    Everything the agents obtain from outside the repository.  The
    language model and the rule retriever may answer differently at each
    call: their answer is a function of the calls made before and of the
    request, and is either a value or an exception. *)
Record Env : Type := mkEnv
  { (** [client.messages.create(...).content[0].text] *)
    llm : World → prompt → result string;
    (** [rag_retriever.query_admission_rules(question)] *)
    rag : World → string → result (gmap string json);
    (** [json.loads]; [None] stands for [json.JSONDecodeError] *)
    json_loads : string → option json;
    (** [DocumentClassifierAgent._extract_text], which catches every
        exception of its own *)
    extract_text : DocumentFile.t → string;
    (** [DataExtractionAgent._get_document_text], which catches every
        exception of its own *)
    get_document_text : string → string;
    (** what pydantic makes of a value that is not a number when the
        field is a [float] (numeric strings, booleans) *)
    lax_float : json → option Q;
    (** whether the graph library hands the dict as an edge function left
        it on to the next node, or the dict as the node returned it *)
    edge_writes_kept : bool }.

Section Calls.
Variable env : Env.

Definition call_llm (p : prompt) : M string :=
  λ w, (llm env w p, w ++ [LLMCall p]).

Definition call_rag (question : string) : M (gmap string json) :=
  λ w, (rag env w question, w ++ [RAGQuery question]).

Definition loads (text : string) : M json :=
  match json_loads env text with
  | Some v => ret v
  | None => raise JSONDecodeError
  end.

Definition as_float (v : json) : result Q :=
  match v with
  | JNum q => Ok q
  | _ => match lax_float env v with Some q => Ok q | None => Raise ValidationError end
  end.
End Calls.

(** ** data_extractor.py *)

Module DataExtractionAgent.

(** The fields each template of [extraction_prompts] asks for. *)
Definition extraction_prompts : gmap string (list string) :=
  list_to_map
    [ ("transcript",
        ["institution_name"; "degree_type"; "field_of_study"; "graduation_date";
         "final_grade"; "gpa"; "grading_system"; "subjects"; "country";
         "language_of_instruction"]);
      ("a_levels",
        ["exam_board"; "examination_session"; "subjects"; "overall_grade";
         "centre_number"; "candidate_number"; "country"]);
      ("abitur",
        ["school_name"; "state"; "graduation_year"; "overall_grade"; "subjects";
         "advanced_courses"; "basic_courses"]);
      ("ib",
        ["school_name"; "country"; "graduation_year"; "total_points"; "subjects";
         "extended_essay_grade"; "tok_grade"; "cas_completed"]);
      ("work_certificate",
        ["company_name"; "position_title"; "start_date"; "end_date";
         "employment_type"; "responsibilities"; "industry"; "supervisor_name";
         "supervisor_contact"]);
      ("cv",
        ["personal_info"; "education"; "work_experience"; "skills"; "languages";
         "certifications"]);
      ("other",
        ["document_type"; "key_information"; "dates"; "institutions"]) ].

(** [extraction_prompts.get(doc_type, extraction_prompts["other"])] *)
Definition extraction_template (doc_type : string) : list string :=
  default (default [] (extraction_prompts !! "other")) (extraction_prompts !! doc_type).

(** The [critical_fields] table of [_calculate_extraction_confidence]. *)
Definition critical_fields : gmap string (list string) :=
  list_to_map
    [ ("transcript", ["institution_name"; "graduation_date"; "final_grade"]);
      ("a_levels", ["exam_board"; "subjects"]);
      ("abitur", ["school_name"; "overall_grade"; "graduation_year"]);
      ("ib", ["total_points"; "subjects"; "graduation_year"]) ].

(** [sum(1 for v in extracted_data.values() if v is not None)] *)
Definition non_null_fields (m : gmap string json) : nat :=
  length (List.filter (λ kv, is_not_None kv.2) (map_to_list m)).

(** [sum(1 for field in fields
         if field in extracted_data and extracted_data[field] is not None)] *)
Definition critical_present (m : gmap string json) (fields : list string) : nat :=
  length (List.filter (λ f, match m !! f with
                            | Some v => is_not_None v
                            | None => false
                            end) fields).

(** ["error" in extracted_data]: a key of a dict, an element of a list,
    a substring of a string; a [TypeError] on anything else. *)
Definition contains_error (v : json) : result bool :=
  match v with
  | JObj m => Ok (bool_decide (is_Some (m !! "error")))
  | JArr l => Ok (existsb (λ x, match x with JStr s => String.eqb s "error" | _ => false end) l)
  | JStr s => Ok (match String.index 0 "error" s with Some _ => true | None => false end)
  | _ => Raise TypeError
  end.

(** [_calculate_extraction_confidence] from "Count non-null fields" on,
    where [extracted_data] must have [.values()]. *)
Definition score (m : gmap string json) (doc_type : string) : Q :=
  let total_fields := size m in
  if Nat.eqb total_fields 0 then 0
  else
    let base_confidence := true_div (non_null_fields m) total_fields in
    match critical_fields !! doc_type with
    | Some fields =>
        let critical_ratio := true_div (critical_present m fields) (length fields) in
        py_min 1 (base_confidence * (1#2) + critical_ratio * (1#2))
    | None => base_confidence
    end.

Definition _calculate_extraction_confidence (extracted_data : json) (doc_type : string)
    : result Q :=
  if negb (truthy extracted_data) then Ok 0%Q
  else
    match contains_error extracted_data with
    | Raise e => Raise e
    | Ok true => Ok 0%Q
    | Ok false =>
        match extracted_data with
        | JObj m => Ok (score m doc_type)
        | _ => Raise AttributeError
        end
    end.

Section WithEnv.
Variable env : Env.

Definition _extract_from_document (classified_doc : ClassifiedDocument.t)
    : M ExtractedData.t :=
  let doc_type := classified_doc.(ClassifiedDocument.document_type) in
  let file := classified_doc.(ClassifiedDocument.file) in
  let text_content := get_document_text env file.(DocumentFile.file_path) in
  response <- call_llm env (ExtractionPrompt doc_type text_content (extraction_template doc_type)) ;;
  try_except_JSONDecodeError
    (extracted_json <- loads env response ;;
     confidence <- lift (_calculate_extraction_confidence extracted_json doc_type) ;;
     data <- lift (as_dict extracted_json) ;;
     ret (ExtractedData.mk doc_type data confidence file.(DocumentFile.filename)))
    (ret (ExtractedData.mk doc_type
            {[ "error" := JStr "Failed to parse extracted data" ]} 0
            file.(DocumentFile.filename))).

(** The body of the [for] loop of [process], from the documents still
    to visit, the state and the list [extracted_data] built so far. *)
Fixpoint extract_loop (docs : list ClassifiedDocument.t)
    (state : ApplicationState.t) (extracted_data : list ExtractedData.t)
    : M (ApplicationState.t * list ExtractedData.t) :=
  match docs with
  | [] => ret (state, extracted_data)
  | classified_doc :: rest =>
      let filename := classified_doc.(ClassifiedDocument.file).(DocumentFile.filename) in
      r <- try_except
             (extraction <- _extract_from_document classified_doc ;;
              ret (ApplicationState.add_log "DataExtractor" "extract_data"
                     [ ("document", JStr filename);
                       ("type", JStr classified_doc.(ClassifiedDocument.document_type));
                       ("fields_extracted",
                         JNum (inject_Z (Z.of_nat (size extraction.(ExtractedData.data)))));
                       ("confidence", JNum extraction.(ExtractedData.confidence)) ]
                     state,
                   extracted_data ++ [extraction]))
             (λ e,
              ret (ApplicationState.add_log "DataExtractor" "extraction_error"
                     [ ("document", JStr filename); ("error", JStr (exn_str e)) ]
                     state,
                   extracted_data)) ;;
      extract_loop rest r.1 r.2
  end.

Definition process (state : ApplicationState.t) : M ApplicationState.t :=
  let state := ApplicationState.set_current_stage "extracting_data" state in
  r <- extract_loop state.(ApplicationState.classified_documents) state [] ;;
  let state := ApplicationState.set_extracted_data r.2 r.1 in
  ret (ApplicationState.set_current_stage "data_extracted" state).
End WithEnv.

End DataExtractionAgent.

(** ** document_classifier.py *)

Module DocumentClassifierAgent.

Definition document_types : list string :=
  [ "transcript"; "a_levels"; "abitur"; "ib"; "passport"; "cv";
    "work_certificate"; "apprenticeship"; "other" ].

Section WithEnv.
Variable env : Env.

Definition _classify_single_document (file : DocumentFile.t) : M ClassifiedDocument.t :=
  let text_content := extract_text env file in
  response <- call_llm env
                (ClassificationPrompt document_types file.(DocumentFile.filename)
                   (String.substring 0 1000 text_content)) ;;
  try_except
    (result <- loads env response ;;
     document_type <- lift (subscript result "document_type") ;;
     confidence <- lift (subscript result "confidence") ;;
     document_type <- lift (as_str document_type) ;;
     confidence <- lift (as_float env confidence) ;;
     ret (ClassifiedDocument.mk file document_type confidence))
    (λ _, ret (ClassifiedDocument.mk file "other" (1#10))).

(** The body of the [for] loop of [process]. *)
Fixpoint classify_loop (files : list DocumentFile.t)
    (state : ApplicationState.t) (classified_docs : list ClassifiedDocument.t)
    : M (ApplicationState.t * list ClassifiedDocument.t) :=
  match files with
  | [] => ret (state, classified_docs)
  | file :: rest =>
      r <- try_except
             (classification <- _classify_single_document file ;;
              ret (ApplicationState.add_log "DocumentClassifier" "classify_document"
                     [ ("file", JStr file.(DocumentFile.filename));
                       ("classified_as",
                         JStr classification.(ClassifiedDocument.document_type));
                       ("confidence", JNum classification.(ClassifiedDocument.confidence)) ]
                     state,
                   classified_docs ++ [classification]))
             (λ e,
              ret (ApplicationState.add_log "DocumentClassifier" "classification_error"
                     [ ("file", JStr file.(DocumentFile.filename));
                       ("error", JStr (exn_str e)) ]
                     state,
                   classified_docs)) ;;
      classify_loop rest r.1 r.2
  end.

Definition process (state : ApplicationState.t) : M ApplicationState.t :=
  let state := ApplicationState.set_current_stage "classifying_documents" state in
  r <- classify_loop state.(ApplicationState.uploaded_files) state [] ;;
  let state := ApplicationState.set_classified_documents r.2 r.1 in
  ret (ApplicationState.set_current_stage "documents_classified" state).
End WithEnv.

End DocumentClassifierAgent.

(** ** admission_agent.py *)

Module AdmissionDecisionAgent.

(** [self.required_docs] *)
Definition required_docs : gmap string (list string) :=
  list_to_map
    [ ("DE", ["transcript"; "abitur"]);
      ("UK", ["transcript"; "a_levels"]);
      ("CA", ["transcript"]) ].

Definition provided_types (state : ApplicationState.t) : list string :=
  map ClassifiedDocument.document_type state.(ApplicationState.classified_documents).

Definition _check_document_completeness (state : ApplicationState.t) : list string :=
  let required := default [] (required_docs !! state.(ApplicationState.entity)) in
  List.filter (λ doc_type, negb (bool_decide (doc_type ∈ provided_types state))) required.

(** One turn of the [for] loop of [_build_applicant_profile]. *)
Definition add_extraction (profile : Profile.t) (extraction : ExtractedData.t) : Profile.t :=
  let doc_type := extraction.(ExtractedData.document_type) in
  let data := extraction.(ExtractedData.data) in
  let confidence := extraction.(ExtractedData.confidence) in
  let '(Profile.mk target_program entity qualifications work_experience personal_info) :=
    profile in
  if String.eqb doc_type "transcript" then
    Profile.mk target_program entity
      (qualifications ++ [university_degree data confidence])
      work_experience personal_info
  else if bool_decide (doc_type ∈ ["a_levels"; "abitur"; "ib"]) then
    Profile.mk target_program entity
      (qualifications ++ [secondary_education doc_type data confidence])
      work_experience personal_info
  else if String.eqb doc_type "work_certificate" then
    Profile.mk target_program entity qualifications (work_experience ++ [data]) personal_info
  else if String.eqb doc_type "cv" then
    Profile.mk target_program entity qualifications work_experience data
  else profile.

Definition _build_applicant_profile (state : ApplicationState.t) : Profile.t :=
  fold_left add_extraction state.(ApplicationState.extracted_data)
    (Profile.mk state.(ApplicationState.target_program) state.(ApplicationState.entity)
       [] [] ∅).

(** The questions one qualification contributes. *)
Definition qualification_queries (target_program : string) (qual : Qualification)
    : list string :=
  match qual with
  | university_degree _ _ => []
  | secondary_education subtype data _ =>
      ("How is " +:+ subtype +:+ " recognized for admission to " +:+ target_program +:+ "?")
      :: (if bool_decide (is_Some (data !! "overall_grade")) then
            [ "What is the minimum grade requirement for " +:+ target_program
                +:+ " with " +:+ subtype +:+ "?" ]
          else [])
  end.

Definition build_queries (target_program : string) (profile : Profile.t) : list string :=
  [ "What are the admission requirements for " +:+ target_program +:+ "?" ]
  ++ concat (map (qualification_queries target_program) profile.(Profile.qualifications))
  ++ (match profile.(Profile.work_experience) with
      | [] => []
      | _ => [ "Can work experience substitute for academic qualifications in "
                 +:+ target_program +:+ "?" ]
      end).

Section WithEnv.
Variable env : Env.

(** "Execute queries and aggregate results": a query that raises is
    skipped. *)
Fixpoint run_queries (queries : list string) (all_rules : list (gmap string json))
    : M (list (gmap string json)) :=
  match queries with
  | [] => ret all_rules
  | query :: rest =>
      all_rules <- try_except
                     (result <- call_rag env query ;; ret (all_rules ++ [result]))
                     (λ _, ret all_rules) ;;
      run_queries rest all_rules
  end.

Definition _query_admission_rules (target_program : string) (profile : Profile.t)
    : M HandbookRules.t :=
  let queries := build_queries target_program profile in
  all_rules <- run_queries queries [] ;;
  ret (HandbookRules.mk queries all_rules).

(** [decision_data.get(key, [])] *)
Definition get_or_empty (decision_data : json) (key : string) : result json :=
  match decision_data with
  | JObj m => Ok (default (JArr []) (m !! key))
  | _ => Raise AttributeError
  end.

Definition _apply_decision_logic (profile : Profile.t) (handbook_rules : HandbookRules.t)
    (state : ApplicationState.t) : M AdmissionDecision.t :=
  response <- call_llm env
                (DecisionPrompt profile handbook_rules
                   state.(ApplicationState.target_program)
                   state.(ApplicationState.entity)) ;;
  try_except_JSONDecodeError
    (decision_data <- loads env response ;;
     status <- lift (subscript decision_data "status") ;;
     confidence <- lift (subscript decision_data "confidence") ;;
     reasoning <- lift (subscript decision_data "reasoning") ;;
     applied_rules <- lift (get_or_empty decision_data "applied_rules") ;;
     missing_documents <- lift (get_or_empty decision_data "missing_documents") ;;
     handbook_citations <- lift (get_or_empty decision_data "handbook_citations") ;;
     status <- lift (as_status status) ;;
     confidence <- lift (as_float env confidence) ;;
     reasoning <- lift (as_str reasoning) ;;
     applied_rules <- lift (as_list_of as_dict applied_rules) ;;
     missing_documents <- lift (as_list_of as_str missing_documents) ;;
     handbook_citations <- lift (as_list_of as_str handbook_citations) ;;
     ret (AdmissionDecision.mk status confidence reasoning applied_rules
            missing_documents handbook_citations))
    (ret (AdmissionDecision.mk REVIEW_REQUIRED 0
            "Decision parsing failed - requires manual review" [] [] [])).

Definition _evaluate_admission (state : ApplicationState.t) : M AdmissionDecision.t :=
  let applicant_profile := _build_applicant_profile state in
  handbook_rules <- _query_admission_rules state.(ApplicationState.target_program)
                      applicant_profile ;;
  _apply_decision_logic applicant_profile handbook_rules state.

Definition process (state : ApplicationState.t) : M ApplicationState.t :=
  let state := ApplicationState.set_current_stage "making_decision" state in
  try_except
    (let missing_docs := _check_document_completeness state in
     decision <- match missing_docs with
                 | _ :: _ =>
                     ret (AdmissionDecision.mk MISSING_DOCS 1
                            ("Missing required documents: " +:+ join ", " missing_docs)
                            [] missing_docs [])
                 | [] => _evaluate_admission state
                 end ;;
     let state := ApplicationState.set_admission_decision (Some decision) state in
     let state := ApplicationState.set_current_stage "decision_made" state in
     ret (ApplicationState.add_log "AdmissionDecision" "make_decision"
            [ ("status", JStr (status_str decision.(AdmissionDecision.status)));
              ("confidence", JNum decision.(AdmissionDecision.confidence));
              ("rules_applied",
                JNum (inject_Z (Z.of_nat
                        (length decision.(AdmissionDecision.applied_rules))))) ]
            state))
    (λ e,
     let state := ApplicationState.set_error_message (Some (exn_str e)) state in
     let state := ApplicationState.set_current_stage "error" state in
     ret (ApplicationState.add_log "AdmissionDecision" "decision_error"
            [ ("error", JStr (exn_str e)) ] state)).
End WithEnv.

End AdmissionDecisionAgent.

(** ** workflow.py *)

Module AdmissionWorkflow.

Inductive node : Type := classify_documents | extract_data | make_decision | handle_error.

Inductive target : Type := To (n : node) | END.

(** What an edge function returns. *)
Inductive route : Type := continue | error.

(** Truth value of [state.get("error_message")]. *)
Definition has_error_message (state : ApplicationState.t) : bool :=
  match state.(ApplicationState.error_message) with
  | Some msg => negb (String.eqb msg "")
  | None => false
  end.

(** The edge functions return their verdict and leave their message in
    the dict they were given. *)
Definition _should_continue_after_classification (state : ApplicationState.t)
    : route * ApplicationState.t :=
  if has_error_message state then (error, state)
  else
    match state.(ApplicationState.classified_documents) with
    | [] =>
        (error,
         ApplicationState.set_error_message
           (Some "No documents were successfully classified") state)
    | docs =>
        let confident_docs :=
          List.filter (λ doc, Qgtb doc.(ClassifiedDocument.confidence) (1#2)) docs in
        match confident_docs with
        | [] =>
            (error,
             ApplicationState.set_error_message
               (Some "No documents classified with sufficient confidence") state)
        | _ => (continue, state)
        end
    end.

Definition _should_continue_after_extraction (state : ApplicationState.t)
    : route * ApplicationState.t :=
  if has_error_message state then (error, state)
  else
    match state.(ApplicationState.extracted_data) with
    | [] =>
        (error,
         ApplicationState.set_error_message (Some "No data was successfully extracted") state)
    | extractions =>
        let confident_extractions :=
          List.filter (λ extraction, Qgtb extraction.(ExtractedData.confidence) (1#10))
            extractions in
        match confident_extractions with
        | [] =>
            (error,
             ApplicationState.set_error_message
               (Some "No data extracted with sufficient confidence") state)
        | _ => (continue, state)
        end
    end.

Definition _handle_error_node (state : ApplicationState.t) : ApplicationState.t :=
  let state := ApplicationState.set_current_stage "error_handled" state in
  ApplicationState.set_agent_logs
    (state.(ApplicationState.agent_logs)
     ++ [ LogEntry.mk "Workflow" "handle_error"
            [ ("error",
               match state.(ApplicationState.error_message) with
               | Some msg => JStr msg
               | None => JNull
               end) ] ])
    state.

Section WithEnv.
Variable env : Env.

Definition _classify_documents_node (state : ApplicationState.t) : M ApplicationState.t :=
  result <- DocumentClassifierAgent.process env state ;;
  let state := ApplicationState.set_classified_documents
                 result.(ApplicationState.classified_documents) state in
  let state := ApplicationState.set_current_stage
                 result.(ApplicationState.current_stage) state in
  let state := ApplicationState.set_error_message
                 result.(ApplicationState.error_message) state in
  ret (ApplicationState.set_agent_logs result.(ApplicationState.agent_logs) state).

Definition _extract_data_node (state : ApplicationState.t) : M ApplicationState.t :=
  result <- DataExtractionAgent.process env state ;;
  let state := ApplicationState.set_extracted_data
                 result.(ApplicationState.extracted_data) state in
  let state := ApplicationState.set_current_stage
                 result.(ApplicationState.current_stage) state in
  let state := ApplicationState.set_error_message
                 result.(ApplicationState.error_message) state in
  ret (ApplicationState.set_agent_logs result.(ApplicationState.agent_logs) state).

Definition _make_decision_node (state : ApplicationState.t) : M ApplicationState.t :=
  result <- AdmissionDecisionAgent.process env state ;;
  let state := ApplicationState.set_admission_decision
                 result.(ApplicationState.admission_decision) state in
  let state := ApplicationState.set_current_stage
                 result.(ApplicationState.current_stage) state in
  let state := ApplicationState.set_error_message
                 result.(ApplicationState.error_message) state in
  ret (ApplicationState.set_agent_logs result.(ApplicationState.agent_logs) state).

(** The graph of [_build_workflow]: [add_node], [set_entry_point],
    [add_conditional_edges] and [add_edge]. *)
Definition node_function (n : node) (state : ApplicationState.t) : M ApplicationState.t :=
  match n with
  | classify_documents => _classify_documents_node state
  | extract_data => _extract_data_node state
  | make_decision => _make_decision_node state
  | handle_error => ret (_handle_error_node state)
  end.

Definition entry_point : node := classify_documents.

Definition edge (n : node) (state : ApplicationState.t) : target * ApplicationState.t :=
  match n with
  | classify_documents =>
      let '(r, state') := _should_continue_after_classification state in
      (match r with continue => To extract_data | error => To handle_error end, state')
  | extract_data =>
      let '(r, state') := _should_continue_after_extraction state in
      (match r with continue => To make_decision | error => To handle_error end, state')
  | make_decision => (END, state)
  | handle_error => (END, state)
  end.

(** The default bound of the graph library on the steps of one run. *)
Definition recursion_limit : nat := 25.

(** [workflow.invoke]: run the node, follow its edge, until [END]. *)
Fixpoint run (steps : nat) (n : node) (state : ApplicationState.t) : M ApplicationState.t :=
  match steps with
  | O => raise GraphRecursionError
  | S steps' =>
      state <- node_function n state ;;
      let '(t, state') := edge n state in
      let state := if edge_writes_kept env then state' else state in
      match t with
      | END => ret state
      | To n' => run steps' n' state
      end
  end.

Definition invoke (state : ApplicationState.t) : M ApplicationState.t :=
  run recursion_limit entry_point state.

Definition process_application (state : ApplicationState.t) : M ApplicationState.t :=
  try_except
    (invoke state)
    (λ e,
     let state := ApplicationState.set_error_message (Some (exn_str e)) state in
     ret (ApplicationState.set_current_stage "workflow_error" state)).

Definition process_admission_application
    (application_id applicant_id target_program entity : string)
    (uploaded_files : list DocumentFile.t) : M ApplicationState.t :=
  process_application
    (ApplicationState.initial application_id applicant_id target_program entity
       uploaded_files).
End WithEnv.

End AdmissionWorkflow.

(** ** rag/handbook_loader.py *)

(** A Python int as a decoded number. *)
Definition JInt (n : nat) : json := JNum (inject_Z (Z.of_nat n)).

(** [langchain_core.documents.Document] *)
Module Document.
Record t : Type := mk
  { page_content : string;
    metadata : gmap string json }.
End Document.

Module HandbookLoader.
Section WithPdf.
(** [str(self.pdf_path)] *)
Variable pdf_path : string.
(** [self.text_splitter.split_text] *)
Variable split_text : string → list string.
(** [str.strip] *)
Variable strip : string → string.

(** The document made of page [page_num] of a PDF of [total_pages]
    pages. *)
Definition page_document (total_pages page_num : nat) (text : string) : Document.t :=
Document.mk text
  (<["source" := JStr pdf_path]>
     (<["page" := JInt page_num]>
        (<["total_pages" := JInt total_pages]> ∅))).

(** The loop of [load_pdf] over [enumerate(pdf_reader.pages, start=...)]:
    a page whose text is blank makes no document. *)
Fixpoint pages_from (total_pages page_num : nat) (pages : list string) : list Document.t :=
match pages with
| [] => []
| text :: rest =>
    (if String.eqb (strip text) "" then []
     else [page_document total_pages page_num text])
    ++ pages_from total_pages (S page_num) rest
end.

(** [load_pdf].  The PDF is [None] when the path does not exist, and
    otherwise the texts of its pages or the exception raised while
    reading it, which [load_pdf] logs and raises again. *)
Definition load_pdf (pdf : option (result (list string))) : result (list Document.t) :=
match pdf with
| None => Raise (ExternalError ("Handbook not found at " +:+ pdf_path))
| Some (Raise e) => Raise e
| Some (Ok pages) => Ok (pages_from (length pages) 1 pages)
end.

(** [{**doc.metadata, "chunk_index": i, "chunk_total": len(split_docs)}] *)
Definition chunk_document (doc : Document.t) (chunk_total i : nat) (chunk_text : string)
    : Document.t :=
Document.mk chunk_text
  (<["chunk_total" := JInt chunk_total]>
     (<["chunk_index" := JInt i]> doc.(Document.metadata))).

Definition chunks_of (doc : Document.t) : list Document.t :=
let split_docs := split_text doc.(Document.page_content) in
imap (chunk_document doc (length split_docs)) split_docs.

Definition chunk_documents (documents : list Document.t) : list Document.t :=
concat (map chunks_of documents).

Definition process_handbook (pdf : option (result (list string)))
    : result (list Document.t) :=
match load_pdf pdf with
| Ok documents => Ok (chunk_documents documents)
| Raise e => Raise e
end.
End WithPdf.
End HandbookLoader.

(** ** rag/vector_store.py and rag/retriever.py *)

Module Rag.

(** What the store and the retriever do outside of themselves. *)
Inductive event : Type :=
  | BuildIndex (documents : list Document.t)
  | PersistIndex
  | LoadIndex
  | Search (query : string) (k : nat)
  | ReadHandbook
  | Synthesize (context question : string).

Section WithIndex.
(** The Chroma store. *)
Variable Index : Type.

(** The library and the files behind the store and the retriever. *)
Record Backend : Type := mkBackend
  { (** [Chroma.from_documents(documents, embedding, persist_directory)] *)
    from_documents : list Document.t → result Index;
    (** [vector_store.persist()] *)
    persist : Index → result unit;
    (** [os.path.exists(self.persist_directory)] *)
    path_exists : bool;
    (** [Chroma(persist_directory, embedding_function)] *)
    load : result Index;
    (** [vector_store.similarity_search(query, k)], with the [filter]
        when one is given *)
    similarity_search : Index → string → nat → option (gmap string json)
                        → result (list Document.t);
    (** [HandbookLoader().process_handbook()] *)
    read_handbook : result (list Document.t);
    (** the truth value of a store object *)
    index_truthy : Index → bool;
    (** the answer of the model to the retriever's prompt: the text of
        [client.messages.create(...).content[0]] *)
    synthesize : string → string → result string;
    (** [str] of a metadata value, as an f-string formats it *)
    py_str : json → string }.

Variable backend : Backend.

(** The outcome of a method: what it returns or raises, the
    [self.vector_store] it leaves, and what it did. *)
Definition outcome (A : Type) : Type := result A * option Index * list event.

(** [self.vector_store = Chroma.from_documents(...)] followed by
    [self.vector_store.persist()]. *)
Definition build (documents : list Document.t) (vector_store : option Index)
    : outcome Index :=
match from_documents backend documents with
| Raise e => (Raise e, vector_store, [BuildIndex documents])
| Ok index =>
    match persist backend index with
    | Raise e => (Raise e, Some index, [BuildIndex documents; PersistIndex])
    | Ok _ => (Ok index, Some index, [BuildIndex documents; PersistIndex])
    end
end.

(** "Load and process handbook", then build. *)
Definition rebuild (vector_store : option Index) : outcome Index :=
match read_handbook backend with
| Raise e => (Raise e, vector_store, [ReadHandbook])
| Ok chunks =>
    let '(r, vector_store', events) := build chunks vector_store in
    (r, vector_store', ReadHandbook :: events)
end.

(** [HandbookVectorStore.create_or_load_index] *)
Definition create_or_load_index (documents : option (list Document.t))
    (vector_store : option Index) : outcome Index :=
match documents with
| Some (d :: ds) => build (d :: ds) vector_store
| _ =>
    if path_exists backend then
      match load backend with
      | Raise _ =>
          let '(r, vector_store', events) := rebuild vector_store in
          (r, vector_store', LoadIndex :: events)
      | Ok index =>
          match similarity_search backend index "test" 1 None with
          | Ok _ => (Ok index, Some index, [LoadIndex; Search "test" 1])
          | Raise _ =>
              let '(r, vector_store', events) := rebuild (Some index) in
              (r, vector_store', LoadIndex :: Search "test" 1 :: events)
          end
      end
    else rebuild vector_store
end.

(** Truth value of [self.vector_store]. *)
Definition initialized (vector_store : option Index) : option Index :=
match vector_store with
| Some index => if index_truthy backend index then Some index else None
| None => None
end.

(** [HandbookVectorStore.search] *)
Definition search (query : string) (k : nat) (filter_dict : option (gmap string json))
    (vector_store : option Index) : outcome (list Document.t) :=
match initialized vector_store with
| None =>
    (Raise (ExternalError "Vector store not initialized. Call create_or_load_index first."),
     vector_store, [])
| Some index =>
    let filter :=
      match filter_dict with
      | Some f => if bool_decide (f = ∅) then None else Some f
      | None => None
      end in
    (similarity_search backend index query k filter, vector_store, [Search query k])
end.

(** [AdmissionRulesRetriever.initialize] *)
Definition initialize (force_reload : bool) (vector_store : option Index) : outcome Index :=
if force_reload then
  match read_handbook backend with
  | Raise e => (Raise e, vector_store, [ReadHandbook])
  | Ok chunks =>
      let '(r, vector_store', events) := create_or_load_index (Some chunks) vector_store in
      (r, vector_store', ReadHandbook :: events)
  end
else create_or_load_index None vector_store.

(** The line feed. *)
Definition newline : string := String (Ascii.ascii_of_nat 10) "".

(** [doc.metadata.get(key)], [None] without the key *)
Definition metadata_get (doc : Document.t) (key : string) : json :=
default JNull (doc.(Document.metadata) !! key).

(** [f"Page {doc.metadata.get('page', '?')}: {doc.page_content}"] *)
Definition context_entry (doc : Document.t) : string :=
"Page "
+:+ match doc.(Document.metadata) !! "page" with
    | Some page => py_str backend page
    | None => "?"
    end
+:+ ": " +:+ doc.(Document.page_content).

Definition context_of (docs : list Document.t) : string :=
join (newline +:+ newline) (map context_entry docs).

(** One entry of ["sources"]. *)
Definition source_of (doc : Document.t) : json :=
JObj (<["page" := metadata_get doc "page"]>
        (<["excerpt" := JStr (String.substring 0 200 doc.(Document.page_content) +:+ "...")]>
           (<["chunk_index" := metadata_get doc "chunk_index"]> ∅))).

(** [AdmissionRulesRetriever.query_admission_rules] *)
Definition query_admission_rules (question : string) (vector_store : option Index)
    : outcome (gmap string json) :=
match initialized vector_store with
| None =>
    (Raise (ExternalError "RAG system not initialized. Call initialize() first."),
     vector_store, [])
| Some _ =>
    match search question 5 None vector_store with
    | (Raise e, vector_store', events) => (Raise e, vector_store', events)
    | (Ok docs, vector_store', events) =>
        let context := context_of docs in
        match synthesize backend context question with
        | Raise e => (Raise e, vector_store', events ++ [Synthesize context question])
        | Ok answer =>
            (Ok (<["answer" := JStr answer]>
                   (<["sources" := JArr (map source_of docs)]>
                      (<["question" := JStr question]> ∅))),
             vector_store', events ++ [Synthesize context question])
        end
    end
end.

(** The retriever as the decision agent calls it, on a given store. *)
Definition rag_of (vector_store : option Index) (w : World) (question : string)
    : result (gmap string json) :=
(query_admission_rules question vector_store).1.1.

(** [AdmissionRulesRetriever()]: [HandbookVectorStore.__init__] sets
    [self.vector_store = None]. *)
Definition new_store : option Index := None.
End WithIndex.
End Rag.

(** ** The confidence score as the specification words it *)

#[local] Instance json_null_dec (v : json) : Decision (v = JNull).
Proof. destruct v; first [ left; reflexivity | right; discriminate ]. Defined.

Module ConfidenceSpec.

(** The fields of a record that hold a value. *)
Definition filled (m : gmap string json) : gmap string json :=
  filter (λ kv : string * json, kv.2 ≠ JNull) m.

(** base = (#non-null fields) / (#total fields) *)
Definition base (m : gmap string json) : Q :=
  true_div (size (filled m)) (size m).

(** The categories with a critical-fields subset. *)
Definition scored_categories : list string := ["transcript"; "a_levels"; "abitur"; "ib"].

Definition critical (category : string) : list string :=
  if decide (category = "transcript") then
    ["institution_name"; "graduation_date"; "final_grade"]
  else if decide (category = "a_levels") then ["exam_board"; "subjects"]
  else if decide (category = "abitur") then
    ["school_name"; "overall_grade"; "graduation_year"]
  else if decide (category = "ib") then ["total_points"; "subjects"; "graduation_year"]
  else [].

(** critical_ratio = (#critical fields present and non-null) / (#critical fields) *)
Definition critical_ratio (m : gmap string json) (category : string) : Q :=
  true_div (length (filter (λ f, f ∈ dom (filled m)) (critical category)))
           (length (critical category)).

Definition confidence (m : gmap string json) (category : string) : Q :=
  if decide (category ∈ scored_categories) then
    py_min 1 (base m * (1#2) + critical_ratio m category * (1#2))
  else base m.

End ConfidenceSpec.

(** ** The fallback of decision synthesis *)

(** The decision a response that is not JSON falls back to. *)
Definition fallback_decision : AdmissionDecision.t :=
  AdmissionDecision.mk REVIEW_REQUIRED 0
    "Decision parsing failed - requires manual review" [] [] [].

(** ** What one document contributes to a batch *)

(** What the loop adds to the log and to the extracted list for one
    document, given the outcome of its extraction. *)
Definition extraction_log (classified_doc : ClassifiedDocument.t)
    (r : result ExtractedData.t) : LogEntry.t :=
  let filename := classified_doc.(ClassifiedDocument.file).(DocumentFile.filename) in
  match r with
  | Ok extraction =>
      LogEntry.mk "DataExtractor" "extract_data"
        [ ("document", JStr filename);
          ("type", JStr classified_doc.(ClassifiedDocument.document_type));
          ("fields_extracted",
            JNum (inject_Z (Z.of_nat (size extraction.(ExtractedData.data)))));
          ("confidence", JNum extraction.(ExtractedData.confidence)) ]
  | Raise e =>
      LogEntry.mk "DataExtractor" "extraction_error"
        [ ("document", JStr filename); ("error", JStr (exn_str e)) ]
  end.

Definition extracted_of (r : result ExtractedData.t) : list ExtractedData.t :=
  match r with Ok extraction => [extraction] | Raise _ => [] end.

(** ** Where a run of the workflow can stop *)

Module AdmissionWorkflowSpec.
Import AdmissionWorkflow.

(** Where the pipeline can stop. *)
Definition stops_at (n : node) (s : ApplicationState.t) : Prop :=
  match n with
  | make_decision =>
      (s.(ApplicationState.current_stage) = "decision_made"
       ∧ is_Some s.(ApplicationState.admission_decision))
      ∨ (s.(ApplicationState.current_stage) = "error"
         ∧ is_Some s.(ApplicationState.error_message))
  | handle_error => s.(ApplicationState.current_stage) = "error_handled"
  | _ => True
  end.

End AdmissionWorkflowSpec.

(** ** The requests of the call sites *)

(** What [_classify_single_document] sends for a file. *)
Definition classification_prompt (env : Env) (file : DocumentFile.t) : prompt :=
ClassificationPrompt DocumentClassifierAgent.document_types file.(DocumentFile.filename)
  (String.substring 0 1000 (extract_text env file)).

(** What [_extract_from_document] sends for a classified document. *)
Definition extraction_prompt (env : Env) (classified_doc : ClassifiedDocument.t) : prompt :=
ExtractionPrompt classified_doc.(ClassifiedDocument.document_type)
  (get_document_text env
     classified_doc.(ClassifiedDocument.file).(DocumentFile.file_path))
  (DataExtractionAgent.extraction_template classified_doc.(ClassifiedDocument.document_type)).

(** The record [_extract_from_document] returns when the answer is not
    JSON. *)
Definition extraction_sentinel (classified_doc : ClassifiedDocument.t) : ExtractedData.t :=
ExtractedData.mk classified_doc.(ClassifiedDocument.document_type)
  {[ "error" := JStr "Failed to parse extracted data" ]} 0
  classified_doc.(ClassifiedDocument.file).(DocumentFile.filename).

(** What the classification loop adds to the log for one file, given the
    outcome of its classification. *)
Definition classification_log (file : DocumentFile.t)
    (r : result ClassifiedDocument.t) : LogEntry.t :=
match r with
| Ok classification =>
    LogEntry.mk "DocumentClassifier" "classify_document"
      [ ("file", JStr file.(DocumentFile.filename));
        ("classified_as", JStr classification.(ClassifiedDocument.document_type));
        ("confidence", JNum classification.(ClassifiedDocument.confidence)) ]
| Raise e =>
    LogEntry.mk "DocumentClassifier" "classification_error"
      [ ("file", JStr file.(DocumentFile.filename)); ("error", JStr (exn_str e)) ]
end.

Definition classified_of (r : result ClassifiedDocument.t) : list ClassifiedDocument.t :=
match r with Ok classification => [classification] | Raise _ => [] end.

(** The category and the file name a record is about. *)
Definition record_origin (x : ExtractedData.t) : string * string :=
(x.(ExtractedData.document_type), x.(ExtractedData.source_file)).

Definition document_origin (d : ClassifiedDocument.t) : string * string :=
(d.(ClassifiedDocument.document_type),
 d.(ClassifiedDocument.file).(DocumentFile.filename)).

(** ** The applicant profile as a grouping of the extracted records *)

Module ProfileSpec.

(** The qualification a record contributes: a university degree for a
    transcript, a secondary education tagged by its subtype for A-levels,
    Abitur and IB, none otherwise. *)
Definition qualification_of (x : ExtractedData.t) : list Qualification :=
if decide (x.(ExtractedData.document_type) = "transcript") then
  [university_degree x.(ExtractedData.data) x.(ExtractedData.confidence)]
else if decide (x.(ExtractedData.document_type) ∈ ["a_levels"; "abitur"; "ib"]) then
  [secondary_education x.(ExtractedData.document_type) x.(ExtractedData.data)
     x.(ExtractedData.confidence)]
else [].

Definition work_of (x : ExtractedData.t) : list (gmap string json) :=
if decide (x.(ExtractedData.document_type) = "work_certificate")
then [x.(ExtractedData.data)] else [].

Definition cv_of (x : ExtractedData.t) : list (gmap string json) :=
if decide (x.(ExtractedData.document_type) = "cv")
then [x.(ExtractedData.data)] else [].

Definition profile (state : ApplicationState.t) : Profile.t :=
let xs := state.(ApplicationState.extracted_data) in
Profile.mk state.(ApplicationState.target_program) state.(ApplicationState.entity)
  (concat (map qualification_of xs))
  (concat (map work_of xs))
  (default ∅ (last (concat (map cv_of xs)))).

End ProfileSpec.

(** What the decision stage sends to the model for a state, given the
    rule answers. *)
Definition decision_prompt (state : ApplicationState.t) (results : list (gmap string json))
    : prompt :=
let profile := AdmissionDecisionAgent._build_applicant_profile state in
DecisionPrompt profile
  (HandbookRules.mk
     (AdmissionDecisionAgent.build_queries state.(ApplicationState.target_program) profile)
     results)
  state.(ApplicationState.target_program) state.(ApplicationState.entity).

(** A computation that makes no outbound call. *)
Definition silent {A} (m : M A) : Prop := ∀ w, (m w).2 = w.

(** ** Relating the state before and after a run *)

(** [s] is a later state of the application [s0]: the identifiers, the
    program, the entity and the uploaded files are the same, and the log
    of [s0] is a prefix of the log of [s]. *)
Definition later_state_of (s0 s : ApplicationState.t) : Prop :=
s.(ApplicationState.application_id) = s0.(ApplicationState.application_id)
∧ s.(ApplicationState.applicant_id) = s0.(ApplicationState.applicant_id)
∧ s.(ApplicationState.target_program) = s0.(ApplicationState.target_program)
∧ s.(ApplicationState.entity) = s0.(ApplicationState.entity)
∧ s.(ApplicationState.uploaded_files) = s0.(ApplicationState.uploaded_files)
∧ s0.(ApplicationState.agent_logs) `prefix_of` s.(ApplicationState.agent_logs).

(** The number of model calls and of retriever questions in a call log. *)
Definition llm_calls (w : World) : nat :=
length (List.filter (λ c, match c with LLMCall _ => true | RAGQuery _ => false end) w).

Definition rag_calls (w : World) : nat :=
length (List.filter (λ c, match c with LLMCall _ => false | RAGQuery _ => true end) w).

(** ** Concrete applications *)

Module Examples.

Definition transcript_pdf : DocumentFile.t :=
  DocumentFile.mk "DOC-1a2b3c" "transcript.pdf" "pdf" "./uploads/APP-1/transcript.pdf" 20480.

Definition abitur_pdf : DocumentFile.t :=
  DocumentFile.mk "DOC-4d5e6f" "abitur.pdf" "pdf" "./uploads/APP-1/abitur.pdf" 10240.

(** A model that gives one answer per call site, and a decoder that
    knows these answers: each call site is given the decoded content of
    its answer, or [None] for a text that is not JSON. *)
Definition scripted_llm (w : World) (p : prompt) : result string :=
  match p with
  | ClassificationPrompt _ _ _ => Ok "classification answer"
  | ExtractionPrompt _ _ _ => Ok "extraction answer"
  | DecisionPrompt _ _ _ _ => Ok "decision answer"
  end.

Definition scripted_decoder (classification extraction decision : option json)
    (text : string) : option json :=
  if String.eqb text "classification answer" then classification
  else if String.eqb text "extraction answer" then extraction
  else if String.eqb text "decision answer" then decision
  else None.

Definition scripted_rag (w : World) (question : string) : result (gmap string json) :=
  Ok (list_to_map
        [ ("answer", JStr "See page 42.");
          ("sources", JArr []);
          ("question", JStr question) ]).

Definition scripted_env_with (kept : bool)
    (classification extraction decision : option json) : Env :=
  mkEnv scripted_llm scripted_rag
    (scripted_decoder classification extraction decision)
    (λ file, "Transcript of records") (λ path, "Transcript of records")
    (λ _, None) kept.

Definition scripted_env : option json → option json → option json → Env :=
  scripted_env_with true.

Definition obj (fields : list (string * json)) : json := JObj (list_to_map fields).

(** Well-formed answers. *)
Definition transcript_classification : json :=
  obj [ ("document_type", JStr "transcript"); ("confidence", JNum (9#10));
        ("reasoning", JStr "grades and credits") ].

Definition transcript_extraction : json :=
  obj [ ("institution_name", JStr "IU"); ("final_grade", JStr "1.7");
        ("graduation_date", JNull) ].

(** An approval the model is only half sure of. *)
Definition hesitant_approval : json :=
  obj [ ("status", JStr "APPROVED"); ("confidence", JNum (1#2));
        ("reasoning", JStr "probably qualified") ].

(** A model that proposes MISSING_DOCS itself. *)
Definition model_missing_docs : json :=
  obj [ ("status", JStr "MISSING_DOCS"); ("confidence", JNum (9#10));
        ("reasoning", JStr "no school certificate") ].

(** A syntactically valid answer without the requested keys. *)
Definition empty_object : json := obj [].

(** A classification outside the category list, with a confidence
    outside [0,1]. *)
Definition diploma_classification : json :=
  obj [ ("document_type", JStr "diploma"); ("confidence", JNum 7) ].

Definition application (entity : string) (files : list DocumentFile.t)
    : ApplicationState.t :=
  ApplicationState.initial "APP-1" "applicant-1" "BSc Computer Science" entity files.

(** The state the decision stage receives for a Canadian application
    with one classified and extracted transcript. *)
Definition classified_transcript : ClassifiedDocument.t :=
  ClassifiedDocument.mk transcript_pdf "transcript" (9#10).

Definition with_transcript (entity : string) : ApplicationState.t :=
  ApplicationState.set_classified_documents [classified_transcript]
    (application entity [transcript_pdf]).

(** Two A-level records over the same fields. *)
Definition a_levels_sparse : gmap string json :=
  list_to_map [ ("exam_board", JStr "AQA"); ("subjects", JNull); ("country", JNull) ].

Definition a_levels_fuller : gmap string json :=
  list_to_map [ ("exam_board", JStr "AQA"); ("subjects", JArr []); ("country", JNull) ].

Definition all_null (fields : list string) : gmap string json :=
  list_to_map (map (λ f, (f, JNull)) fields).

Definition all_filled (fields : list string) : gmap string json :=
  list_to_map (map (λ f, (f, JStr "x")) fields).

End Examples.

(** ** Further concrete data *)

Module MoreExamples.
Import Examples.

(** A record extracted from the transcript. *)
Definition transcript_record : ExtractedData.t :=
ExtractedData.mk "transcript"
  (list_to_map [ ("institution_name", JStr "IU"); ("final_grade", JStr "1.7") ])
  (2#3) "transcript.pdf".

Definition with_record : ApplicationState.t :=
ApplicationState.set_extracted_data [transcript_record] (with_transcript "CA").

(** A state in which an error message is already set. *)
Definition with_message : ApplicationState.t :=
ApplicationState.set_error_message (Some "upstream failure") (with_transcript "CA").

(** A handbook of one chunk and a store that numbers its indexes: 0 is
    the persisted index, which cannot be loaded, 1 the rebuilt one. *)
Definition handbook_chunk : Document.t :=
Document.mk "Admission requires a transcript."
  (list_to_map [ ("page", JInt 12); ("chunk_index", JInt 0) ]).

Definition broken_store : Rag.Backend nat :=
Rag.mkBackend nat
  (λ documents, Ok 1%nat) (λ index, Ok ()) true
  (Raise (ExternalError "corrupt index"))
  (λ index query k filter, Ok [handbook_chunk])
  (Ok [handbook_chunk])
  (λ index, true)
  (λ context question, Ok "See page 12.")
  (λ v, "12").

(** The environment of a decision agent whose retriever was never
    initialized. *)
Definition unwired_env : Env :=
mkEnv scripted_llm (Rag.rag_of nat broken_store (Rag.new_store nat))
  (scripted_decoder None None (Some hesitant_approval))
  (λ file, "Transcript of records") (λ path, "Transcript of records")
  (λ _, None) true.

End MoreExamples.

(** * Properties *)

(** ** Arithmetic of the score *)

Section Arithmetic.
Local Open Scope Q_scope.

Lemma Qgtb_true (x y : Q) : Qgtb x y = true ↔ y < x.
Proof.
  unfold Qgtb. rewrite negb_true_iff. split.
  - intros H. apply Qnot_le_lt. intros Hle. apply Qle_bool_iff in Hle. congruence.
  - intros H. destruct (Qle_bool x y) eqn:E; [|reflexivity].
    apply Qle_bool_iff in E. lra.
Qed.

Lemma Qgtb_false (x y : Q) : Qgtb x y = false ↔ x <= y.
Proof.
  unfold Qgtb. rewrite negb_false_iff. apply Qle_bool_iff.
Qed.

Ltac qgtb :=
  repeat match goal with
         | H : Qgtb _ _ = true |- _ => apply Qgtb_true in H
         | H : Qgtb _ _ = false |- _ => apply Qgtb_false in H
         end.

Lemma py_min_mono (x y : Q) : x <= y → py_min 1 x <= py_min 1 y.
Proof.
  intros Hxy. unfold py_min.
  destruct (Qgtb 1 x) eqn:Ex, (Qgtb 1 y) eqn:Ey; qgtb; lra.
Qed.

Lemma py_min_le_1 (x : Q) : py_min 1 x <= 1.
Proof.
  unfold py_min. destruct (Qgtb 1 x) eqn:Ex; qgtb; lra.
Qed.

Lemma py_min_eq (x : Q) : x <= 1 → py_min 1 x == x.
Proof.
  intros Hx. unfold py_min. destruct (Qgtb 1 x) eqn:Ex; qgtb; lra.
Qed.

Lemma true_div_nonneg (n d : nat) : 0 <= true_div n d.
Proof.
  unfold true_div, Qdiv. apply Qmult_le_0_compat.
  - change 0 with (inject_Z 0). rewrite <- Zle_Qle. lia.
  - apply Qinv_le_0_compat. change 0 with (inject_Z 0). rewrite <- Zle_Qle. lia.
Qed.

Lemma true_div_le (a b d : nat) : (a ≤ b)%nat → true_div a d <= true_div b d.
Proof.
  intros Hab. unfold true_div, Qdiv. apply Qmult_le_compat_r.
  - rewrite <- Zle_Qle. lia.
  - apply Qinv_le_0_compat. change 0 with (inject_Z 0). rewrite <- Zle_Qle. lia.
Qed.

Lemma true_div_self (n : nat) : n ≠ 0%nat → true_div n n == 1.
Proof.
  intros Hn. unfold true_div, Qdiv. apply Qmult_inv_r.
  change 0 with (inject_Z 0). rewrite inject_Z_injective. lia.
Qed.

Lemma true_div_zero (d : nat) : true_div 0 d == 0.
Proof. unfold true_div, Qdiv. simpl. apply Qmult_0_l. Qed.

Lemma true_div_le_1 (a d : nat) : (a ≤ d)%nat → true_div a d <= 1.
Proof.
  intros Had. destruct (Nat.eq_dec d 0%nat) as [->|Hd].
  - assert (a = 0%nat) as -> by lia. rewrite true_div_zero. lra.
  - rewrite <- (true_div_self d Hd). by apply true_div_le.
Qed.
End Arithmetic.

(** ** Counting fields *)

Section Counting.
Import DataExtractionAgent.

Lemma length_filter_bool {A} (f : A → bool) (l : list A) :
  length (List.filter f l) = length (filter (λ x, f x = true) l).
Proof.
  induction l as [|x l IH]; [reflexivity|].
  rewrite filter_cons. simpl. destruct (f x) eqn:E.
  - rewrite decide_True by done. simpl. by rewrite IH.
  - rewrite decide_False by congruence. done.
Qed.

Lemma is_not_None_true (v : json) : is_not_None v = true ↔ v ≠ JNull.
Proof. destruct v; simpl; split; intros; congruence. Qed.

Lemma size_filter_map_to_list (P : string * json → Prop) `{!∀ x, Decision (P x)}
    (m : gmap string json) :
  length (filter P (map_to_list m)) = size (filter P m).
Proof.
  induction m as [|i x m Hi IH] using map_ind.
  - by rewrite map_to_list_empty, map_filter_empty, map_size_empty.
  - rewrite map_to_list_insert by done. rewrite filter_cons.
    destruct (decide (P (i, x))) as [HP|HP].
    + rewrite map_filter_insert_True by done.
      rewrite map_size_insert_None by (apply map_lookup_filter_None; auto).
      simpl. by rewrite IH.
    + rewrite map_filter_insert_not' by (done || naive_solver).
      done.
Qed.

Lemma non_null_fields_filled (m : gmap string json) :
  non_null_fields m = size (ConfidenceSpec.filled m).
Proof.
  unfold non_null_fields, ConfidenceSpec.filled.
  rewrite length_filter_bool, size_filter_map_to_list.
  f_equal. apply map_filter_ext. intros i x _. simpl. apply is_not_None_true.
Qed.

Lemma elem_of_dom_filled (m : gmap string json) (f : string) :
  f ∈ dom (ConfidenceSpec.filled m) ↔ ∃ v, m !! f = Some v ∧ v ≠ JNull.
Proof.
  unfold ConfidenceSpec.filled. rewrite elem_of_dom. unfold is_Some.
  setoid_rewrite map_lookup_filter_Some. naive_solver.
Qed.

Lemma critical_present_filled (m : gmap string json) (fields : list string) :
  critical_present m fields
  = length (filter (λ f, f ∈ dom (ConfidenceSpec.filled m)) fields).
Proof.
  unfold critical_present. rewrite length_filter_bool. f_equal.
  apply list_filter_iff. intros f. rewrite elem_of_dom_filled.
  destruct (m !! f) as [v|] eqn:E.
  - rewrite is_not_None_true. split.
    + intros Hv. by exists v.
    + intros (v' & Hv' & Hnn). by simplify_eq.
  - split; [done|]. intros (v' & Hv' & _). discriminate.
Qed.

Lemma critical_present_le (m : gmap string json) (fields : list string) :
  (critical_present m fields ≤ length fields)%nat.
Proof. unfold critical_present. apply List.filter_length_le. Qed.

Lemma non_null_fields_le (m : gmap string json) : (non_null_fields m ≤ size m)%nat.
Proof. rewrite non_null_fields_filled. apply map_size_filter. Qed.
End Counting.

(** ** The confidence score (data_extractor.py) *)

Section Confidence.
Import DataExtractionAgent.
Local Open Scope Q_scope.

Lemma critical_fields_lookup (category : string) :
  critical_fields !! category
  = if decide (category ∈ ConfidenceSpec.scored_categories)
    then Some (ConfidenceSpec.critical category) else None.
Proof.
  unfold critical_fields, ConfidenceSpec.critical, ConfidenceSpec.scored_categories.
  simpl list_to_map.
  destruct (decide (category = "transcript")) as [->|H1]; [reflexivity|].
  rewrite lookup_insert_ne by done.
  destruct (decide (category = "a_levels")) as [->|H2]; [reflexivity|].
  rewrite lookup_insert_ne by done.
  destruct (decide (category = "abitur")) as [->|H3]; [reflexivity|].
  rewrite lookup_insert_ne by done.
  destruct (decide (category = "ib")) as [->|H4]; [reflexivity|].
  rewrite lookup_insert_ne by done. rewrite lookup_empty.
  rewrite decide_False; [reflexivity|].
  rewrite !elem_of_cons, elem_of_nil. tauto.
Qed.

(** On a dict that is not empty and has no ["error"] key the guards of
    [_calculate_extraction_confidence] fall through to the score. *)
Lemma confidence_of_dict (m : gmap string json) (category : string) :
  m ≠ ∅ → m !! "error" = None →
  _calculate_extraction_confidence (JObj m) category = Ok (score m category).
Proof.
  intros Hne Herr. unfold _calculate_extraction_confidence. simpl.
  rewrite bool_decide_eq_false_2 by done. simpl.
  rewrite bool_decide_eq_false_2; [reflexivity|].
  rewrite Herr. by intros [? ?].
Qed.

(** On any dict the function returns, with 0 when a guard fires. *)
Lemma confidence_of_any_dict (m : gmap string json) (category : string) :
  _calculate_extraction_confidence (JObj m) category
  = Ok (if bool_decide (m = ∅) || bool_decide (is_Some (m !! "error"))
        then 0 else score m category).
Proof.
  unfold _calculate_extraction_confidence. simpl.
  destruct (bool_decide (m = ∅)); simpl; [reflexivity|].
  by destruct (bool_decide (is_Some (m !! "error"))).
Qed.

Lemma score_spec (m : gmap string json) (category : string) :
  m ≠ ∅ → score m category = ConfidenceSpec.confidence m category.
Proof.
  intros Hne. unfold score, ConfidenceSpec.confidence.
  assert (size m ≠ 0%nat) as Hsz by (by rewrite map_size_empty_iff).
  apply Nat.eqb_neq in Hsz. rewrite Hsz.
  rewrite critical_fields_lookup.
  unfold ConfidenceSpec.base, ConfidenceSpec.critical_ratio.
  rewrite non_null_fields_filled.
  destruct (decide (category ∈ ConfidenceSpec.scored_categories)); [|reflexivity].
  by rewrite critical_present_filled.
Qed.

(** C3.  For a non-empty mapping of extracted fields without the
    ["error"] sentinel, [_calculate_extraction_confidence] returns the
    confidence of the specification: base = non-null fields / total
    fields; for transcript, a_levels, abitur and ib
    min(1.0, base*0.5 + critical_ratio*0.5) with critical_ratio = critical
    fields present and non-null / critical fields of the category; base
    for every other category. *)
Theorem extraction_confidence_formula (m : gmap string json) (category : string) :
  m ≠ ∅ → "error" ∉ dom m →
  _calculate_extraction_confidence (JObj m) category
  = Ok (ConfidenceSpec.confidence m category).
Proof.
  intros Hne Herr. apply not_elem_of_dom in Herr.
  rewrite confidence_of_dict by done. by rewrite score_spec.
Qed.
End Confidence.

(** ** Monotonicity and extremes of the confidence score *)

Section ConfidenceOrder.
Import DataExtractionAgent.
Local Open Scope Q_scope.

(** The score grows with the number of non-null fields and with the
    number of critical fields present, the number of fields being the
    same. *)
Lemma score_mono (m1 m2 : gmap string json) (category : string) :
  size m1 = size m2 →
  (non_null_fields m1 ≤ non_null_fields m2)%nat →
  (∀ fields, (critical_present m1 fields ≤ critical_present m2 fields)%nat) →
  score m1 category <= score m2 category.
Proof.
  intros Hsz Hnn Hcrit. unfold score. rewrite <- Hsz.
  destruct (size m1 =? 0)%nat; [lra|].
  pose proof (true_div_le _ _ (size m1) Hnn) as Hbase.
  destruct (critical_fields !! category) as [fields|]; [|exact Hbase].
  pose proof (true_div_le _ _ (length fields) (Hcrit fields)) as Hratio.
  apply py_min_mono. lra.
Qed.

Lemma score_zero (m : gmap string json) (category : string) :
  non_null_fields m = 0%nat →
  (∀ fields, critical_present m fields = 0%nat) →
  score m category == 0.
Proof.
  intros Hnn Hcrit. unfold score.
  destruct (size m =? 0)%nat; [reflexivity|].
  rewrite Hnn. pose proof (true_div_zero (size m)) as Hbase.
  destruct (critical_fields !! category) as [fields|]; [|exact Hbase].
  rewrite Hcrit. pose proof (true_div_zero (length fields)) as Hratio.
  rewrite py_min_eq; lra.
Qed.

Lemma score_one (m : gmap string json) (category : string) :
  m ≠ ∅ →
  non_null_fields m = size m →
  (∀ fields, critical_fields !! category = Some fields →
             fields ≠ [] ∧ critical_present m fields = length fields) →
  score m category == 1.
Proof.
  intros Hne Hnn Hcrit. unfold score.
  assert (size m ≠ 0%nat) as Hsz by (by rewrite map_size_empty_iff).
  rewrite (proj2 (Nat.eqb_neq _ _) Hsz). rewrite Hnn.
  pose proof (true_div_self _ Hsz) as Hbase.
  destruct (critical_fields !! category) as [fields|]; [|exact Hbase].
  destruct (Hcrit fields eq_refl) as [Hfields ->].
  assert (length fields ≠ 0%nat) as Hlen by (by destruct fields).
  pose proof (true_div_self _ Hlen) as Hratio.
  rewrite py_min_eq; lra.
Qed.

Lemma critical_present_mono (m1 m2 : gmap string json) (fields : list string) :
  dom (ConfidenceSpec.filled m1) ⊆ dom (ConfidenceSpec.filled m2) →
  (critical_present m1 fields ≤ critical_present m2 fields)%nat.
Proof.
  intros Hsub. rewrite !critical_present_filled.
  induction fields as [|f fields IH]; [done|].
  rewrite !filter_cons.
  destruct (decide (f ∈ dom (ConfidenceSpec.filled m1))) as [H1|H1].
  - rewrite decide_True by (by apply Hsub). simpl. lia.
  - destruct (decide (f ∈ dom (ConfidenceSpec.filled m2))); simpl; lia.
Qed.

Lemma non_null_fields_mono (m1 m2 : gmap string json) :
  dom (ConfidenceSpec.filled m1) ⊆ dom (ConfidenceSpec.filled m2) →
  (non_null_fields m1 ≤ non_null_fields m2)%nat.
Proof.
  intros Hsub. rewrite !non_null_fields_filled.
  rewrite <- !(size_dom (D:=gset string)). by apply subseteq_size.
Qed.

Lemma filled_all_null (m : gmap string json) :
  map_Forall (λ _ v, v = JNull) m → ConfidenceSpec.filled m = ∅.
Proof.
  intros Hall. apply map_empty. intros i. unfold ConfidenceSpec.filled.
  apply map_lookup_filter_None. right. intros x Hx Hnn.
  apply Hnn. exact (Hall i x Hx).
Qed.

Lemma filled_none_null (m : gmap string json) :
  map_Forall (λ _ v, v ≠ JNull) m → ConfidenceSpec.filled m = m.
Proof. intros Hall. apply map_filter_id. intros i x Hx. exact (Hall i x Hx). Qed.

Lemma critical_present_all (m : gmap string json) (fields : list string) :
  map_Forall (λ _ v, v ≠ JNull) m →
  (∀ f, f ∈ fields → f ∈ dom m) →
  critical_present m fields = length fields.
Proof.
  intros Hall Hin. rewrite critical_present_filled, filled_none_null by done.
  induction fields as [|f fields IH]; [done|].
  rewrite filter_cons, decide_True by (apply Hin; left).
  simpl. rewrite IH; [done|]. intros g Hg. apply Hin. by right.
Qed.
End ConfidenceOrder.

(** ** The extraction schemas *)

(** Decide a closed proposition by evaluation. *)
Ltac by_evaluation :=
  match goal with
  | |- ?P => apply (bool_decide_unpack P); vm_compute; exact I
  end.

Section Schemas.
Import DataExtractionAgent.

(** No schema is empty and none has an ["error"] field. *)
Lemma extraction_template_shape (category : string) :
  extraction_template category ≠ [] ∧ "error" ∉ extraction_template category.
Proof.
  unfold extraction_template.
  destruct (extraction_prompts !! category) as [fields|] eqn:E; simpl.
  - apply elem_of_list_to_map_2 in E.
    repeat (apply elem_of_cons in E as [E|E];
            [injection E as -> ->; split; [done | by_evaluation]|]).
    by apply elem_of_nil in E.
  - split; [done | by_evaluation].
Qed.

(** The critical fields of a category are fields of its schema. *)
Lemma critical_in_template (category : string) (fields : list string) :
  critical_fields !! category = Some fields →
  fields ≠ [] ∧ ∀ f, f ∈ fields → f ∈ extraction_template category.
Proof.
  intros E. apply elem_of_list_to_map_2 in E.
  repeat (apply elem_of_cons in E as [E|E];
          [injection E as -> ->; split; [done|];
           apply Forall_forall; by_evaluation|]).
  by apply elem_of_nil in E.
Qed.
End Schemas.

Section ConfidenceClaims.
Import DataExtractionAgent.
Local Open Scope Q_scope.

(** C7.  For every document category: (1) of two records with the same
    fields, the one in which at least the same fields are non-null has
    the greater or equal confidence; (2) a record with no field filled
    has confidence 0.0; (3) a record with every field of the category's
    schema filled, critical fields included, has confidence 1.0. *)
Theorem extraction_confidence_monotone (category : string) :
  (∀ m1 m2 : gmap string json,
     dom m1 = dom m2 →
     dom (ConfidenceSpec.filled m1) ⊆ dom (ConfidenceSpec.filled m2) →
     ∃ c1 c2,
       _calculate_extraction_confidence (JObj m1) category = Ok c1
       ∧ _calculate_extraction_confidence (JObj m2) category = Ok c2
       ∧ c1 <= c2)
  ∧ (∀ m : gmap string json,
       map_Forall (λ _ v, v = JNull) m →
       ∃ c, _calculate_extraction_confidence (JObj m) category = Ok c ∧ c == 0)
  ∧ (∀ m : gmap string json,
       dom m = list_to_set (extraction_template category) →
       map_Forall (λ _ v, v ≠ JNull) m →
       ∃ c, _calculate_extraction_confidence (JObj m) category = Ok c ∧ c == 1).
Proof.
  split; [|split].
  - intros m1 m2 Hdom Hsub. do 2 eexists.
    split; [apply confidence_of_any_dict|]. split; [apply confidence_of_any_dict|].
    assert (bool_decide (m1 = ∅) = bool_decide (m2 = ∅)) as ->.
    { apply bool_decide_ext. by rewrite <- !(dom_empty_iff_L (D:=gset string)), Hdom. }
    assert (bool_decide (is_Some (m1 !! "error")) = bool_decide (is_Some (m2 !! "error")))
      as ->.
    { apply bool_decide_ext. by rewrite <- !(elem_of_dom (D:=gset string)), Hdom. }
    destruct (bool_decide (m2 = ∅) || bool_decide (is_Some (m2 !! "error"))); [lra|].
    apply score_mono.
    + by rewrite <- !(size_dom (D:=gset string)), Hdom.
    + by apply non_null_fields_mono.
    + intros fields. by apply critical_present_mono.
  - intros m Hnull. eexists. split; [apply confidence_of_any_dict|].
    destruct (bool_decide (m = ∅) || bool_decide (is_Some (m !! "error")));
      [reflexivity|].
    apply score_zero.
    + by rewrite non_null_fields_filled, filled_all_null, map_size_empty.
    + intros fields. rewrite critical_present_filled, filled_all_null by done.
      rewrite dom_empty_L. induction fields as [|f fields IH]; [done|].
      rewrite filter_cons, decide_False by set_solver. exact IH.
  - intros m Hdom Hfull.
    destruct (extraction_template_shape category) as [Hne Herr].
    assert (m ≠ ∅) as Hm.
    { intros ->. rewrite dom_empty_L in Hdom.
      destruct (extraction_template category) as [|f fields]; [done|].
      set_solver. }
    assert (m !! "error" = None) as Hnoerr.
    { apply (not_elem_of_dom (D:=gset string)). rewrite Hdom.
      by rewrite elem_of_list_to_set. }
    eexists. split; [by apply confidence_of_dict|].
    apply score_one; [done| |].
    + by rewrite non_null_fields_filled, filled_none_null.
    + intros fields Hfields.
      destruct (critical_in_template _ _ Hfields) as [Hfne Hin].
      split; [done|]. apply critical_present_all; [done|].
      intros f Hf. rewrite Hdom, elem_of_list_to_set. by apply Hin.
Qed.
End ConfidenceClaims.

(** ** The document-completeness check (admission_agent.py) *)

Section Completeness.
Import AdmissionDecisionAgent.

Lemma elem_of_check_document_completeness (state : ApplicationState.t) (d : string) :
  d ∈ _check_document_completeness state
  ↔ d ∈ default [] (required_docs !! state.(ApplicationState.entity))
    ∧ d ∉ provided_types state.
Proof.
  unfold _check_document_completeness. rewrite list_elem_of_In, filter_In.
  rewrite <- list_elem_of_In, negb_true_iff, bool_decide_eq_false. done.
Qed.

(** The check reads the entity and the classified documents only. *)
Lemma check_document_completeness_stage (stage : string) (state : ApplicationState.t) :
  _check_document_completeness (ApplicationState.set_current_stage stage state)
  = _check_document_completeness state.
Proof. reflexivity. Qed.

(** C2.  When the entity has an entry in the required-documents table
    and a required category is not the category of any classified
    document, the decision stage returns the state with a decision of
    status MISSING_DOCS and confidence 1.0 whose missing_documents are
    the required categories, in the order of the table, that are not
    the category of a classified document, and the log of outbound calls
    is unchanged: no retrieval or language-model call is made. *)
Theorem missing_documents_short_circuit (env : Env) (state : ApplicationState.t)
    (w : World) (required : list string) :
  required_docs !! state.(ApplicationState.entity) = Some required →
  (∃ d, d ∈ required
        ∧ ∀ doc, doc ∈ state.(ApplicationState.classified_documents) →
                 doc.(ClassifiedDocument.document_type) ≠ d) →
  ∃ state' decision,
    process env state w = (Ok state', w)
    ∧ state'.(ApplicationState.current_stage) = "decision_made"
    ∧ state'.(ApplicationState.admission_decision) = Some decision
    ∧ decision.(AdmissionDecision.status) = MISSING_DOCS
    ∧ decision.(AdmissionDecision.confidence) = 1%Q
    ∧ decision.(AdmissionDecision.missing_documents)
      = List.filter
          (λ d, negb (bool_decide
                        (d ∈ map ClassifiedDocument.document_type
                               state.(ApplicationState.classified_documents))))
          required
    ∧ ∀ d, d ∈ decision.(AdmissionDecision.missing_documents)
           ↔ d ∈ required
             ∧ ∀ doc, doc ∈ state.(ApplicationState.classified_documents) →
                      doc.(ClassifiedDocument.document_type) ≠ d.
Proof.
  intros Hreq (d & Hd & Hmiss).
  assert (∀ x, x ∉ provided_types state
               ↔ ∀ doc, doc ∈ state.(ApplicationState.classified_documents) →
                        doc.(ClassifiedDocument.document_type) ≠ x) as Hprovided.
  { intros x. unfold provided_types. rewrite list_elem_of_fmap. split.
    - intros Hx doc Hdoc Heq. apply Hx. by exists doc.
    - intros Hx (doc & Heq & Hdoc). by apply (Hx doc). }
  assert (d ∈ _check_document_completeness state) as Hin.
  { apply elem_of_check_document_completeness. rewrite Hreq.
    split; [exact Hd|]. by apply Hprovided. }
  unfold process, try_except, bind.
  rewrite check_document_completeness_stage.
  destruct (_check_document_completeness state) as [|d0 missing] eqn:E.
  { by apply elem_of_nil in Hin. }
  unfold ret. do 2 eexists.
  do 5 (split; [reflexivity|]). simpl. split.
  - rewrite <- E. unfold _check_document_completeness, provided_types.
    by rewrite Hreq.
  - intros x. rewrite <- E, elem_of_check_document_completeness, Hreq.
    simpl. by rewrite Hprovided.
Qed.
End Completeness.

(** ** Decision synthesis (admission_agent.py) *)

Section Decision.
Import AdmissionDecisionAgent.
Variable env : Env.

(** A failed query is skipped: the queries always complete. *)
Lemma run_queries_returns (queries : list string) (all_rules : list (gmap string json))
    (w : World) :
  ∃ rules w', run_queries env queries all_rules w = (Ok rules, w').
Proof.
  revert all_rules w. induction queries as [|query rest IH]; intros all_rules w.
  - by do 2 eexists.
  - simpl. unfold bind, try_except, call_rag, ret.
    destruct (rag env w query) as [result|e]; apply IH.
Qed.

Lemma query_admission_rules_returns (target_program : string) (profile : Profile.t)
    (w : World) :
  ∃ rules w', _query_admission_rules env target_program profile w = (Ok rules, w').
Proof.
  unfold _query_admission_rules, bind.
  destruct (run_queries_returns (build_queries target_program profile) [] w)
    as (rules & w' & ->).
  by do 2 eexists.
Qed.

Lemma apply_decision_logic_parse_failure (profile : Profile.t)
    (handbook_rules : HandbookRules.t) (state : ApplicationState.t) (w : World)
    (text : string) :
  let p := DecisionPrompt profile handbook_rules
             state.(ApplicationState.target_program) state.(ApplicationState.entity) in
  llm env w p = Ok text →
  json_loads env text = None →
  _apply_decision_logic env profile handbook_rules state w
  = (Ok fallback_decision, w ++ [LLMCall p]).
Proof.
  intros p Hllm Hjson. unfold _apply_decision_logic, bind, call_llm.
  fold p. rewrite Hllm. unfold try_except_JSONDecodeError, bind, loads.
  by rewrite Hjson.
Qed.

(** The decision stage catches what the evaluation raises. *)
Lemma process_evaluates (state : ApplicationState.t) (w : World) :
  _check_document_completeness state = [] →
  let state1 := ApplicationState.set_current_stage "making_decision" state in
  process env state w
  = match _evaluate_admission env state1 w with
    | (Ok decision, w') =>
        (Ok (ApplicationState.add_log "AdmissionDecision" "make_decision"
               [ ("status", JStr (status_str decision.(AdmissionDecision.status)));
                 ("confidence", JNum decision.(AdmissionDecision.confidence));
                 ("rules_applied",
                   JNum (inject_Z (Z.of_nat
                           (length decision.(AdmissionDecision.applied_rules))))) ]
               (ApplicationState.set_current_stage "decision_made"
                  (ApplicationState.set_admission_decision (Some decision) state1))),
         w')
    | (Raise e, w') =>
        (Ok (ApplicationState.add_log "AdmissionDecision" "decision_error"
               [ ("error", JStr (exn_str e)) ]
               (ApplicationState.set_current_stage "error"
                  (ApplicationState.set_error_message (Some (exn_str e)) state1))),
         w')
    end.
Proof.
  intros Hcheck state1. unfold process, try_except, bind.
  rewrite check_document_completeness_stage, Hcheck. fold state1.
  by destruct (_evaluate_admission env state1 w) as [[decision|e] w'].
Qed.

(** C4.  When the completeness check passes and the response of the
    model at the decision-synthesis call is not valid JSON,
    [_apply_decision_logic] returns the fallback decision (status
    REVIEW_REQUIRED, confidence 0.0, the parsing-failure reasoning, no
    applied rules, no citations) instead of raising, and the decision
    stage returns with that decision and stage decision_made. *)
Theorem decision_parse_failure_fallback (state : ApplicationState.t) (w w1 : World)
    (handbook_rules : HandbookRules.t) (text : string) :
  let state1 := ApplicationState.set_current_stage "making_decision" state in
  let profile := _build_applicant_profile state1 in
  let p := DecisionPrompt profile handbook_rules
             state.(ApplicationState.target_program) state.(ApplicationState.entity) in
  _check_document_completeness state = [] →
  _query_admission_rules env state.(ApplicationState.target_program) profile w
  = (Ok handbook_rules, w1) →
  llm env w1 p = Ok text →
  json_loads env text = None →
  _apply_decision_logic env profile handbook_rules state1 w1
  = (Ok (AdmissionDecision.mk REVIEW_REQUIRED 0
           "Decision parsing failed - requires manual review" [] [] []),
     w1 ++ [LLMCall p])
  ∧ ∃ state',
      process env state w = (Ok state', w1 ++ [LLMCall p])
      ∧ state'.(ApplicationState.admission_decision)
        = Some (AdmissionDecision.mk REVIEW_REQUIRED 0
                  "Decision parsing failed - requires manual review" [] [] [])
      ∧ state'.(ApplicationState.current_stage) = "decision_made"
      ∧ state'.(ApplicationState.error_message) = state.(ApplicationState.error_message).
Proof.
  intros state1 profile p Hcheck Hrules Hllm Hjson.
  pose proof (apply_decision_logic_parse_failure profile handbook_rules state1 w1 text
                Hllm Hjson) as Happly.
  split; [exact Happly|].
  rewrite process_evaluates by done. fold state1.
  unfold _evaluate_admission, bind. fold profile.
  change (ApplicationState.target_program state1)
    with (ApplicationState.target_program state).
  rewrite Hrules, Happly. eexists. by repeat split.
Qed.
End Decision.

Section DecisionStatus.
Import AdmissionDecisionAgent.
Variable env : Env.

Lemma as_status_inv (v : json) (s : Status) :
  as_status v = Ok s → v = JStr (status_str s).
Proof.
  destruct v as [| | |str| |]; simpl; try discriminate.
  destruct (String.eqb str "APPROVED") eqn:E1.
  { apply String.eqb_eq in E1. intros [= <-]. by subst. }
  destruct (String.eqb str "REJECTED") eqn:E2.
  { apply String.eqb_eq in E2. intros [= <-]. by subst. }
  destruct (String.eqb str "REVIEW_REQUIRED") eqn:E3.
  { apply String.eqb_eq in E3. intros [= <-]. by subst. }
  destruct (String.eqb str "MISSING_DOCS") eqn:E4.
  { apply String.eqb_eq in E4. intros [= <-]. by subst. }
  discriminate.
Qed.

(** Only [json.loads] raises [json.JSONDecodeError]. *)
Lemma subscript_not_decode (v : json) (key : string) :
  subscript v key ≠ Raise JSONDecodeError.
Proof. destruct v as [| | | | |m]; simpl; try done. by destruct (m !! key). Qed.

Lemma get_or_empty_not_decode (v : json) (key : string) :
  get_or_empty v key ≠ Raise JSONDecodeError.
Proof. by destruct v. Qed.

Lemma as_status_not_decode (v : json) : as_status v ≠ Raise JSONDecodeError.
Proof.
  destruct v as [| | |str| |]; simpl; try done.
  by repeat match goal with |- context [String.eqb ?a ?b] => destruct (String.eqb a b) end.
Qed.

Lemma as_float_not_decode (v : json) : as_float env v ≠ Raise JSONDecodeError.
Proof. destruct v; simpl; try done; by destruct (lax_float env _). Qed.

Lemma as_str_not_decode (v : json) : as_str v ≠ Raise JSONDecodeError.
Proof. by destruct v. Qed.

Lemma as_list_of_not_decode {A} (elt : json → result A) (v : json) :
  as_list_of elt v ≠ Raise JSONDecodeError.
Proof.
  destruct v as [| | | |l|]; simpl; try done.
  destruct l as [|x l]; simpl; [done|].
  by destruct (elt x), (as_list elt l).
Qed.

Ltac other_exception E :=
  match type of E with
  | _ = Raise ?e =>
      destruct e; try discriminate; exfalso; revert E;
      first [ apply subscript_not_decode | apply get_or_empty_not_decode
            | apply as_status_not_decode | apply as_float_not_decode
            | apply as_str_not_decode | apply as_list_of_not_decode ]
  end.

(** A decision returned by [_apply_decision_logic] is the fallback, or
    carries the status and the confidence of the model's response. *)
Lemma apply_decision_logic_inv (profile : Profile.t) (handbook_rules : HandbookRules.t)
    (state : ApplicationState.t) (w w' : World) (decision : AdmissionDecision.t) :
  let p := DecisionPrompt profile handbook_rules
             state.(ApplicationState.target_program) state.(ApplicationState.entity) in
  _apply_decision_logic env profile handbook_rules state w = (Ok decision, w') →
  w' = w ++ [LLMCall p]
  ∧ ∃ text,
      llm env w p = Ok text
      ∧ ((json_loads env text = None ∧ decision = fallback_decision)
         ∨ ∃ data status confidence,
             json_loads env text = Some data
             ∧ subscript data "status" = Ok status
             ∧ as_status status = Ok decision.(AdmissionDecision.status)
             ∧ subscript data "confidence" = Ok confidence
             ∧ as_float env confidence = Ok decision.(AdmissionDecision.confidence)).
Proof.
  intros p. unfold _apply_decision_logic, bind, call_llm. fold p.
  destruct (llm env w p) as [text|e]; [|discriminate].
  unfold try_except_JSONDecodeError, bind, loads, lift, ret, raise.
  destruct (json_loads env text) as [data|] eqn:Hjson.
  2:{ intros [= <- <-]. split; [done|]. exists text. split; [done|]. by left. }
  destruct (subscript data "status") as [status|e] eqn:Hs; [|other_exception Hs].
  destruct (subscript data "confidence") as [confidence|e] eqn:Hc; [|other_exception Hc].
  destruct (subscript data "reasoning") as [reasoning|e] eqn:Hr; [|other_exception Hr].
  destruct (get_or_empty data "applied_rules") as [rules|e] eqn:H1;
    [|other_exception H1].
  destruct (get_or_empty data "missing_documents") as [missing|e] eqn:H2;
    [|other_exception H2].
  destruct (get_or_empty data "handbook_citations") as [citations|e] eqn:H3;
    [|other_exception H3].
  destruct (as_status status) as [st|e] eqn:Hst; [|other_exception Hst].
  destruct (as_float env confidence) as [c|e] eqn:Hfl; [|other_exception Hfl].
  destruct (as_str reasoning) as [r|e] eqn:H4; [|other_exception H4].
  destruct (as_list_of as_dict rules) as [rs|e] eqn:H5; [|other_exception H5].
  destruct (as_list_of as_str missing) as [ms|e] eqn:H6; [|other_exception H6].
  destruct (as_list_of as_str citations) as [cs|e] eqn:H7; [|other_exception H7].
  intros [= <- <-]. split; [done|]. exists text. split; [done|]. right.
  exists data, status, confidence. by repeat split.
Qed.
End DecisionStatus.

Section DecisionClaims.
Import AdmissionDecisionAgent Examples.
Local Open Scope Q_scope.

(** C1.  The decision stage on a Canadian application with its
    transcript, when the model answers APPROVED with confidence 0.5:
    the decision returned has status APPROVED and confidence 0.5, below
    0.8.  The status of the model is passed through unchanged. *)
Theorem low_confidence_approval_kept :
  ∃ state' w' decision,
    process (scripted_env None None (Some hesitant_approval)) (with_transcript "CA") []
    = (Ok state', w')
    ∧ state'.(ApplicationState.current_stage) = "decision_made"
    ∧ state'.(ApplicationState.admission_decision) = Some decision
    ∧ decision.(AdmissionDecision.status) = APPROVED
    ∧ decision.(AdmissionDecision.confidence) < 8#10.
Proof.
  eexists _, _, _. split; [vm_compute; reflexivity|].
  repeat split.
Qed.
End DecisionClaims.

Section OutsideTable.
Import AdmissionDecisionAgent Examples.
Local Open Scope Q_scope.

Lemma required_docs_outside_table (entity : string) :
  entity ∉ ["DE"; "UK"; "CA"] → required_docs !! entity = None.
Proof.
  rewrite !elem_of_cons, elem_of_nil. intros Hne.
  unfold required_docs. simpl list_to_map.
  rewrite !lookup_insert_ne by (intros <-; tauto). apply lookup_empty.
Qed.

(** The decision stage on a French application (entity FR) with its
    transcript, when the model itself answers MISSING_DOCS. *)
Lemma missing_docs_proposal_run :
  ∃ state' w' decision,
    process (scripted_env None None (Some model_missing_docs)) (with_transcript "FR") []
    = (Ok state', w')
    ∧ state'.(ApplicationState.current_stage) = "decision_made"
    ∧ state'.(ApplicationState.admission_decision) = Some decision
    ∧ decision.(AdmissionDecision.status) = MISSING_DOCS.
Proof.
  eexists _, _, _. split; [vm_compute; reflexivity|]. by repeat split.
Qed.

(** C10, as stated, fails: a French application (entity FR) for which
    the model itself answers MISSING_DOCS gets a decision of status
    MISSING_DOCS from the decision stage. *)
Lemma model_proposed_missing_docs :
  ("FR" ∉ ["DE"; "UK"; "CA"])
  ∧ ∃ state' w' decision,
      process (scripted_env None None (Some model_missing_docs)) (with_transcript "FR") []
      = (Ok state', w')
      ∧ state'.(ApplicationState.admission_decision) = Some decision
      ∧ decision.(AdmissionDecision.status) = MISSING_DOCS.
Proof.
  split; [by_evaluation|].
  eexists _, _, _. split; [vm_compute; reflexivity|]. by split.
Qed.

End OutsideTable.

(** ** Classification (document_classifier.py) *)

Section Classification.
Import DocumentClassifierAgent Examples.
Local Open Scope Q_scope.

(** A well-formed answer is passed through: the classified document
    carries the string the answer has under ["document_type"] and the
    number its ["confidence"] validates to, whatever they are. *)
Lemma classify_single_document_passes_through (env : Env) (file : DocumentFile.t)
    (w : World) (text : string) (data confidence : json) (document_type : string)
    (q : Q) :
  llm env w (ClassificationPrompt document_types file.(DocumentFile.filename)
               (String.substring 0 1000 (extract_text env file)))
  = Ok text →
  json_loads env text = Some data →
  subscript data "document_type" = Ok (JStr document_type) →
  subscript data "confidence" = Ok confidence →
  as_float env confidence = Ok q →
  _classify_single_document env file w
  = (Ok (ClassifiedDocument.mk file document_type q),
     w ++ [LLMCall (ClassificationPrompt document_types file.(DocumentFile.filename)
                      (String.substring 0 1000 (extract_text env file)))]).
Proof.
  intros Hllm Hjson Hdt Hc Hq.
  unfold _classify_single_document, bind, call_llm. rewrite Hllm.
  unfold try_except, bind, loads, lift, ret, raise.
  by rewrite Hjson, Hdt, Hc, Hq.
Qed.

(** C9.  The classifier on an uploaded transcript when the model
    answers with the category "diploma" and the confidence 7: the
    answer is passed through, and the classified document has a category
    outside the category list and a confidence above 1. *)
Theorem classification_outside_categories :
  _classify_single_document (scripted_env (Some diploma_classification) None None)
    transcript_pdf []
  = (Ok (ClassifiedDocument.mk transcript_pdf "diploma" 7),
     [LLMCall (ClassificationPrompt document_types "transcript.pdf"
                 "Transcript of records")])
  ∧ ("diploma" ∉ document_types)
  ∧ ¬ (0 <= 7 <= 1).
Proof.
  split; [|split].
  - apply (classify_single_document_passes_through
             (scripted_env (Some diploma_classification) None None) transcript_pdf []
             "classification answer" diploma_classification (JNum 7));
      reflexivity.
  - by_evaluation.
  - intros [_ H]. revert H. by vm_compute.
Qed.
End Classification.

(** ** The gate after classification (workflow.py) *)

Section ClassificationGate.
Import AdmissionWorkflow Examples.
Local Open Scope Q_scope.

Lemma filter_nonempty {A} (f : A → bool) (l : list A) :
  List.filter f l ≠ [] ↔ ∃ x, x ∈ l ∧ f x = true.
Proof.
  split.
  - destruct (List.filter f l) as [|x l'] eqn:E; [done|]. intros _.
    assert (In x (List.filter f l)) as Hin by (rewrite E; by left).
    apply filter_In in Hin as [Hin Hf]. exists x. by rewrite list_elem_of_In.
  - intros (x & Hin & Hf) E.
    assert (In x (List.filter f l)) as Hx.
    { apply filter_In. by rewrite <- list_elem_of_In. }
    by rewrite E in Hx.
Qed.


End ClassificationGate.

(** ** Extraction of a batch (data_extractor.py) *)

Section Batch.
Import DataExtractionAgent.
Variable env : Env.

Lemma set_agent_logs_app (state : ApplicationState.t) (l1 l2 : list LogEntry.t) :
  ApplicationState.set_agent_logs
    (ApplicationState.agent_logs
       (ApplicationState.set_agent_logs (state.(ApplicationState.agent_logs) ++ l1) state)
     ++ l2)
    (ApplicationState.set_agent_logs (state.(ApplicationState.agent_logs) ++ l1) state)
  = ApplicationState.set_agent_logs (state.(ApplicationState.agent_logs) ++ l1 ++ l2) state.
Proof. destruct state. simpl. unfold ApplicationState.set_agent_logs. simpl.
       by rewrite <- app_assoc. Qed.

Lemma set_agent_logs_nil (state : ApplicationState.t) :
  ApplicationState.set_agent_logs (state.(ApplicationState.agent_logs) ++ []) state = state.
Proof. destruct state. unfold ApplicationState.set_agent_logs. simpl.
       by rewrite app_nil_r. Qed.

(** One turn of the loop never raises: it logs and goes on. *)
Lemma extract_loop_cons (classified_doc : ClassifiedDocument.t)
    (rest : list ClassifiedDocument.t) (state : ApplicationState.t)
    (extracted_data : list ExtractedData.t) (w : World) :
  extract_loop env (classified_doc :: rest) state extracted_data w
  = let '(r, w1) := _extract_from_document env classified_doc w in
    extract_loop env rest
      (ApplicationState.set_agent_logs
         (state.(ApplicationState.agent_logs) ++ [extraction_log classified_doc r]) state)
      (extracted_data ++ extracted_of r) w1.
Proof.
  simpl. unfold bind at 1. unfold try_except, bind, ret.
  destruct (_extract_from_document env classified_doc w) as [[extraction|e] w1]; simpl.
  - reflexivity.
  - by rewrite app_nil_r.
Qed.

(** The loop returns, and what it appends to the log and to the
    extracted list depends on the documents and the call log only. *)
Lemma extract_loop_frame (docs : list ClassifiedDocument.t) (w : World) :
  ∃ logs xs w',
    ∀ state extracted_data,
      extract_loop env docs state extracted_data w
      = (Ok (ApplicationState.set_agent_logs
               (state.(ApplicationState.agent_logs) ++ logs) state,
             extracted_data ++ xs),
         w').
Proof.
  revert w. induction docs as [|d rest IH]; intros w.
  - exists [], [], w. intros state acc. simpl. unfold ret.
    by rewrite set_agent_logs_nil, app_nil_r.
  - destruct (_extract_from_document env d w) as [r w1] eqn:Hd.
    destruct (IH w1) as (logs & xs & w' & Hrest).
    exists (extraction_log d r :: logs), (extracted_of r ++ xs), w'.
    intros state acc. rewrite extract_loop_cons, Hd, Hrest.
    rewrite set_agent_logs_app. by rewrite <- app_assoc.
Qed.

Lemma extract_loop_app (pre post : list ClassifiedDocument.t)
    (state : ApplicationState.t) (extracted_data : list ExtractedData.t) (w : World) :
  extract_loop env (pre ++ post) state extracted_data w
  = match extract_loop env pre state extracted_data w with
    | (Ok r, w1) => extract_loop env post r.1 r.2 w1
    | (Raise e, w1) => (Raise e, w1)
    end.
Proof.
  revert state extracted_data w. induction pre as [|d pre IH]; intros state acc w.
  - reflexivity.
  - rewrite <- app_comm_cons, !extract_loop_cons.
    destruct (_extract_from_document env d w) as [r w1]. apply IH.
Qed.
End Batch.

Section BatchClaim.
Import DataExtractionAgent.
Variable env : Env.

(** C8.  The extraction stage on a batch [pre ++ d :: post] returns
    normally with stage data_extracted and the error message it was
    given; its extracted set is what the stage extracts from [pre],
    then the record of [d] if the extraction of [d] returns and
    nothing if it raises, then what the stage extracts from [post]
    afterwards; when the extraction of [d] raises, an extraction_error
    entry for [d] is in the log. *)
Theorem extraction_isolates_failures (state : ApplicationState.t) (w : World)
    (pre post : list ClassifiedDocument.t) (d : ClassifiedDocument.t) :
  ∃ s_pre w1 r w2 s_post w3 s_all,
    process env (ApplicationState.set_classified_documents pre state) w = (Ok s_pre, w1)
    ∧ _extract_from_document env d w1 = (r, w2)
    ∧ process env (ApplicationState.set_classified_documents post state) w2
      = (Ok s_post, w3)
    ∧ process env (ApplicationState.set_classified_documents (pre ++ d :: post) state) w
      = (Ok s_all, w3)
    ∧ s_all.(ApplicationState.current_stage) = "data_extracted"
    ∧ s_all.(ApplicationState.error_message) = state.(ApplicationState.error_message)
    ∧ s_all.(ApplicationState.extracted_data)
      = s_pre.(ApplicationState.extracted_data)
        ++ match r with Ok extraction => [extraction] | Raise _ => [] end
        ++ s_post.(ApplicationState.extracted_data)
    ∧ ∀ e, r = Raise e →
           LogEntry.mk "DataExtractor" "extraction_error"
             [ ("document",
                 JStr d.(ClassifiedDocument.file).(DocumentFile.filename));
               ("error", JStr (exn_str e)) ]
           ∈ s_all.(ApplicationState.agent_logs).
Proof.
  destruct (extract_loop_frame env pre w) as (logs1 & xs1 & w1 & Hpre).
  destruct (_extract_from_document env d w1) as [r w2] eqn:Hd.
  destruct (extract_loop_frame env post w2) as (logs3 & xs3 & w3 & Hpost).
  eexists _, w1, r, w2, _, w3, _.
  split. { unfold process, bind. simpl. rewrite Hpre. reflexivity. }
  split; [exact Hd|].
  split. { unfold process, bind. simpl. rewrite Hpost. reflexivity. }
  split.
  { unfold process, bind. simpl.
    rewrite extract_loop_app, Hpre. cbn [fst snd].
    rewrite extract_loop_cons, Hd, Hpost. reflexivity. }
  simpl. split; [reflexivity|]. split; [reflexivity|]. split.
  { rewrite <- app_assoc. by destruct r. }
  intros e ->. simpl. rewrite !elem_of_app. left. right.
  by apply list_elem_of_singleton.
Qed.
End BatchClaim.

(** ** The workflow graph (workflow.py) *)

Section Stages.
Variable env : Env.

Lemma classify_loop_returns (files : list DocumentFile.t) (state : ApplicationState.t)
    (classified_docs : list ClassifiedDocument.t) (w : World) :
  ∃ r w', DocumentClassifierAgent.classify_loop env files state classified_docs w
          = (Ok r, w').
Proof.
  revert state classified_docs w.
  induction files as [|file rest IH]; intros state acc w.
  - by eexists _, _.
  - simpl. unfold bind at 1. unfold try_except, bind, ret.
    destruct (DocumentClassifierAgent._classify_single_document env file w)
      as [[classification|e] w1]; apply IH.
Qed.

Lemma classifier_returns (state : ApplicationState.t) (w : World) :
  ∃ result w', DocumentClassifierAgent.process env state w = (Ok result, w').
Proof.
  unfold DocumentClassifierAgent.process, bind.
  destruct (classify_loop_returns
              (ApplicationState.uploaded_files
                 (ApplicationState.set_current_stage "classifying_documents" state))
              (ApplicationState.set_current_stage "classifying_documents" state) [] w)
    as (r & w' & ->).
  by eexists _, _.
Qed.

Lemma extractor_returns (state : ApplicationState.t) (w : World) :
  ∃ result w', DataExtractionAgent.process env state w = (Ok result, w').
Proof.
  unfold DataExtractionAgent.process, bind.
  destruct (extract_loop_frame env
              (ApplicationState.classified_documents
                 (ApplicationState.set_current_stage "extracting_data" state)) w)
    as (logs & xs & w' & ->).
  by eexists _, _.
Qed.

(** The decision stage returns, either with a decision and the stage
    decision_made, or with an error message and the stage error. *)
Lemma decision_stage_returns (state : ApplicationState.t) (w : World) :
  ∃ result w',
    AdmissionDecisionAgent.process env state w = (Ok result, w')
    ∧ ((result.(ApplicationState.current_stage) = "decision_made"
        ∧ is_Some result.(ApplicationState.admission_decision))
       ∨ (result.(ApplicationState.current_stage) = "error"
          ∧ is_Some result.(ApplicationState.error_message))).
Proof.
  unfold AdmissionDecisionAgent.process, try_except, bind.
  destruct (AdmissionDecisionAgent._check_document_completeness _) as [|d missing].
  - destruct (AdmissionDecisionAgent._evaluate_admission env _ w) as [[decision|e] w'].
    + eexists _, _. split; [reflexivity|]. left. by split.
    + eexists _, _. split; [reflexivity|]. right. by split.
  - eexists _, _. split; [reflexivity|]. left. by split.
Qed.
End Stages.

Section Pipeline.
Import AdmissionWorkflow.
Variable env : Env.

Lemma run_step (steps : nat) (n : node) (state : ApplicationState.t) (w : World) :
  run env (S steps) n state w
  = match node_function env n state w with
    | (Ok s, w') =>
        match (edge n s).1 with
        | END => (Ok (if edge_writes_kept env then (edge n s).2 else s), w')
        | To n' =>
            run env steps n' (if edge_writes_kept env then (edge n s).2 else s) w'
        end
    | (Raise e, w') => (Raise e, w')
    end.
Proof.
  simpl. unfold bind.
  destruct (node_function env n state w) as [[s|e] w']; [|reflexivity].
  destruct (edge n s) as [t s']. simpl. by destruct t.
Qed.

Lemma node_returns (n : node) (state : ApplicationState.t) (w : World) :
  ∃ s w', node_function env n state w = (Ok s, w') ∧ AdmissionWorkflowSpec.stops_at n s.
Proof.
  destruct n; simpl.
  - unfold _classify_documents_node, bind.
    destruct (classifier_returns env state w) as (r & w' & ->). by eexists _, _.
  - unfold _extract_data_node, bind.
    destruct (extractor_returns env state w) as (r & w' & ->). by eexists _, _.
  - unfold _make_decision_node, bind.
    destruct (decision_stage_returns env state w) as (r & w' & -> & Hr).
    eexists _, _. split; [reflexivity|]. exact Hr.
  - by eexists _, _.
Qed.

Lemma edge_end (n : node) (s : ApplicationState.t) :
  match n with
  | classify_documents =>
      (edge n s).1 = To extract_data ∨ (edge n s).1 = To handle_error
  | extract_data =>
      (edge n s).1 = To make_decision ∨ (edge n s).1 = To handle_error
  | make_decision | handle_error => edge n s = (END, s)
  end.
Proof.
  destruct n; simpl; try reflexivity.
  - destruct (_should_continue_after_classification s) as [[|] s']; simpl; tauto.
  - destruct (_should_continue_after_extraction s) as [[|] s']; simpl; tauto.
Qed.

Lemma run_last (steps : nat) (n : node) (state : ApplicationState.t) (w : World) :
  n = make_decision ∨ n = handle_error →
  ∃ s w', run env (S steps) n state w = (Ok s, w') ∧ AdmissionWorkflowSpec.stops_at n s.
Proof.
  intros Hn. rewrite run_step.
  destruct (node_returns n state w) as (s & w' & -> & Hs).
  pose proof (edge_end n s) as Hedge.
  destruct Hn as [-> | ->]; rewrite Hedge; simpl;
    exists s, w'; (split; [by destruct (edge_writes_kept env)|exact Hs]).
Qed.

(** Every run of the workflow returns a state, whose stage marker is
    decision_made with a decision, error_handled, or error with an
    error message. *)
Lemma process_application_returns (state : ApplicationState.t) (w : World) :
  ∃ s w',
    process_application env state w = (Ok s, w')
    ∧ ((s.(ApplicationState.current_stage) = "decision_made"
        ∧ is_Some s.(ApplicationState.admission_decision))
       ∨ s.(ApplicationState.current_stage) = "error_handled"
       ∨ (s.(ApplicationState.current_stage) = "error"
          ∧ is_Some s.(ApplicationState.error_message))).
Proof.
  assert (∀ steps n st w0, n = make_decision ∨ n = handle_error →
            ∃ s w', run env (S steps) n st w0 = (Ok s, w')
                    ∧ ((s.(ApplicationState.current_stage) = "decision_made"
                        ∧ is_Some s.(ApplicationState.admission_decision))
                       ∨ s.(ApplicationState.current_stage) = "error_handled"
                       ∨ (s.(ApplicationState.current_stage) = "error"
                          ∧ is_Some s.(ApplicationState.error_message)))) as Hlast.
  { intros steps n st w0 Hn.
    destruct (run_last steps n st w0 Hn) as (s & w' & Hrun & Hs).
    exists s, w'. split; [exact Hrun|].
    destruct Hn as [-> | ->]; simpl in Hs; tauto. }
  unfold process_application, try_except, invoke, recursion_limit, entry_point.
  rewrite run_step.
  destruct (node_returns classify_documents state w) as (s1 & w1 & -> & _).
  destruct (edge_end classify_documents s1) as [-> | ->].
  - rewrite run_step.
    match goal with
    | |- context [node_function env extract_data ?st w1] =>
        destruct (node_returns extract_data st w1) as (s2 & w2 & -> & _);
        destruct (edge_end extract_data s2) as [-> | ->]
    end.
    + match goal with
      | |- context [run env ?k make_decision ?st w2] =>
          destruct (Hlast 22%nat make_decision st w2) as (s & w' & -> & Hs);
            [by left|]
      end.
      by exists s, w'.
    + match goal with
      | |- context [run env ?k handle_error ?st w2] =>
          destruct (Hlast 22%nat handle_error st w2) as (s & w' & -> & Hs);
            [by right|]
      end.
      by exists s, w'.
  - match goal with
    | |- context [run env ?k handle_error ?st w1] =>
        destruct (Hlast 23%nat handle_error st w1) as (s & w' & -> & Hs);
          [by right|]
    end.
    by exists s, w'.
Qed.
End Pipeline.

Section PipelineClaim.
Import AdmissionWorkflow Examples.

(** C5.  A Canadian application with one transcript that is classified
    and extracted, for which the model answers the decision call with
    an object that has no ["status"]: the run returns with the stage
    marker error, the message of the exception and no decision.  The
    stage is none of decision_made, error_handled and workflow_error,
    and the error-handling node has not run: its log entry is absent. *)
Theorem decision_error_not_handled (kept : bool) :
  ∃ s w',
    process_admission_application
      (scripted_env_with kept (Some transcript_classification)
         (Some transcript_extraction) (Some empty_object))
      "APP-1" "applicant-1" "BSc Computer Science" "CA" [transcript_pdf] []
    = (Ok s, w')
    ∧ s.(ApplicationState.current_stage) = "error"
    ∧ s.(ApplicationState.error_message) = Some "'status'"
    ∧ s.(ApplicationState.admission_decision) = None
    ∧ (s.(ApplicationState.current_stage)
       ∉ ["decision_made"; "error_handled"; "workflow_error"])
    ∧ Forall (λ entry, entry.(LogEntry.action) ≠ "handle_error")
        s.(ApplicationState.agent_logs).
Proof.
  destruct kept.
  - eexists _, _. split; [vm_compute; reflexivity|].
    do 3 (split; [reflexivity|]). split; by_evaluation.
  - eexists _, _. split; [vm_compute; reflexivity|].
    do 3 (split; [reflexivity|]). split; by_evaluation.
Qed.
End PipelineClaim.

(** ** The theorems at concrete applications *)

Section Instances.
Import Examples.
Local Open Scope Q_scope.

(** An A-level record with one field of three filled, the critical
    field exam_board among them. *)
Lemma extraction_confidence_formula_witness :
  a_levels_sparse ≠ ∅
  ∧ ("error" ∉ dom a_levels_sparse)
  ∧ DataExtractionAgent._calculate_extraction_confidence (JObj a_levels_sparse) "a_levels"
    = Ok (ConfidenceSpec.confidence a_levels_sparse "a_levels").
Proof.
  split; [by_evaluation|]. split; [by_evaluation|].
  apply extraction_confidence_formula; by_evaluation.
Defined.

Lemma extraction_confidence_monotone_witness :
  (∃ c1 c2,
     DataExtractionAgent._calculate_extraction_confidence (JObj a_levels_sparse) "a_levels"
     = Ok c1
     ∧ DataExtractionAgent._calculate_extraction_confidence (JObj a_levels_fuller)
         "a_levels"
       = Ok c2
     ∧ c1 <= c2)
  ∧ (∃ c,
       DataExtractionAgent._calculate_extraction_confidence
         (JObj (all_null (DataExtractionAgent.extraction_template "a_levels"))) "a_levels"
       = Ok c
       ∧ c == 0)
  ∧ (∃ c,
       DataExtractionAgent._calculate_extraction_confidence
         (JObj (all_filled (DataExtractionAgent.extraction_template "a_levels")))
         "a_levels"
       = Ok c
       ∧ c == 1).
Proof.
  destruct (extraction_confidence_monotone "a_levels") as (Hmono & Hzero & Hone).
  split; [|split].
  - apply Hmono; by_evaluation.
  - apply Hzero. by_evaluation.
  - apply Hone; by_evaluation.
Defined.

(** The scenario of the specification: entity DE with a transcript
    only. *)
Lemma missing_documents_short_circuit_witness :
  ∃ state' decision,
    AdmissionDecisionAgent.process (scripted_env None None None) (with_transcript "DE") []
    = (Ok state', [])
    ∧ state'.(ApplicationState.current_stage) = "decision_made"
    ∧ state'.(ApplicationState.admission_decision) = Some decision
    ∧ decision.(AdmissionDecision.status) = MISSING_DOCS
    ∧ decision.(AdmissionDecision.confidence) = 1
    ∧ decision.(AdmissionDecision.missing_documents) = ["abitur"].
Proof.
  destruct (missing_documents_short_circuit (scripted_env None None None)
              (with_transcript "DE") [] ["transcript"; "abitur"])
    as (state' & decision & Hp & Hstage & Hd & Hstatus & Hconf & Hmissing & _).
  - reflexivity.
  - exists "abitur". split; [by_evaluation|].
    intros doc Hdoc. apply list_elem_of_singleton in Hdoc. by subst doc.
  - exists state', decision. repeat (split; [assumption|]). exact Hmissing.
Defined.

(** A decision answer that is not JSON, for a Canadian application with
    its transcript. *)
Lemma decision_parse_failure_fallback_witness :
  ∃ state' w',
    AdmissionDecisionAgent.process (scripted_env None None None) (with_transcript "CA") []
    = (Ok state', w')
    ∧ state'.(ApplicationState.admission_decision) = Some fallback_decision
    ∧ state'.(ApplicationState.current_stage) = "decision_made".
Proof.
  destruct (query_admission_rules_returns (scripted_env None None None)
              (with_transcript "CA").(ApplicationState.target_program)
              (AdmissionDecisionAgent._build_applicant_profile
                 (ApplicationState.set_current_stage "making_decision"
                    (with_transcript "CA")))
              []) as (rules & w1 & Hrules).
  destruct (decision_parse_failure_fallback (scripted_env None None None)
              (with_transcript "CA") [] w1 rules "decision answer")
    as (_ & state' & Hp & Hd & Hstage & _).
  - reflexivity.
  - exact Hrules.
  - reflexivity.
  - reflexivity.
  - exists state'. eexists. split; [exact Hp|]. by split.
Defined.

End Instances.

(** * Further properties of the agents *)

(** ** The confidence score on every decoded value *)

Section ScoreRange.
Import DataExtractionAgent.
Local Open Scope Q_scope.

Lemma py_min_nonneg (x : Q) : 0 <= x → 0 <= py_min 1 x.
Proof.
  intros Hx. unfold py_min. destruct (Qgtb 1 x) eqn:E; [exact Hx | lra].
Qed.

Lemma score_range (m : gmap string json) (category : string) :
  0 <= score m category <= 1.
Proof.
  unfold score. destruct (size m =? 0)%nat; [lra|].
  pose proof (true_div_nonneg (non_null_fields m) (size m)) as Hb0.
  pose proof (true_div_le_1 _ _ (non_null_fields_le m)) as Hb1.
  destruct (critical_fields !! category) as [fields|]; [|lra].
  pose proof (true_div_nonneg (critical_present m fields) (length fields)) as Hc0.
  split; [apply py_min_nonneg; lra | apply py_min_le_1].
Qed.

Lemma calculate_outcome (v : json) (category : string) :
  match _calculate_extraction_confidence v category with
  | Ok c => 0 <= c <= 1
  | Raise e => (∀ m, v ≠ JObj m) ∧ (e = TypeError ∨ e = AttributeError)
  end.
Proof.
  unfold _calculate_extraction_confidence.
  destruct (truthy v) eqn:Ht; simpl; [|lra].
  destruct v as [|b|q|s|l|m]; simpl.
  - discriminate.
  - split; [discriminate | by left].
  - split; [discriminate | by left].
  - destruct (String.index 0 "error" s); [lra|]. split; [discriminate | by right].
  - destruct (existsb _ l); [lra|]. split; [discriminate | by right].
  - destruct (bool_decide (is_Some (m !! "error"))); [lra|]. apply score_range.
Qed.

(** X1.  [_calculate_extraction_confidence] returns on every JSON
    object, and whenever it returns the confidence lies in [0,1]; it
    raises only on a value that is not an object, and then a TypeError or
    an AttributeError. *)
Theorem extraction_confidence_range (v : json) (category : string) :
  match _calculate_extraction_confidence v category with
  | Ok c => 0 <= c <= 1
  | Raise e => (∀ m, v ≠ JObj m) ∧ (e = TypeError ∨ e = AttributeError)
  end.
Proof. apply calculate_outcome. Qed.
End ScoreRange.

(** ** One document through the extractor *)

Section OneExtraction.
Import DataExtractionAgent.
Local Open Scope Q_scope.
Variable env : Env.

Lemma calculate_not_decode (v : json) (category : string) :
  _calculate_extraction_confidence v category ≠ Raise JSONDecodeError.
Proof.
  pose proof (calculate_outcome v category) as H.
  destruct (_calculate_extraction_confidence v category) as [c|e]; [done|].
  destruct H as [_ [-> | ->]]; discriminate.
Qed.

Lemma extract_outcome (classified_doc : ClassifiedDocument.t) (w : World) :
  match _extract_from_document env classified_doc w with
  | (Ok extraction, w') =>
      w' = w ++ [LLMCall (extraction_prompt env classified_doc)]
      ∧ extraction.(ExtractedData.document_type)
        = classified_doc.(ClassifiedDocument.document_type)
      ∧ extraction.(ExtractedData.source_file)
        = classified_doc.(ClassifiedDocument.file).(DocumentFile.filename)
      ∧ 0 <= extraction.(ExtractedData.confidence) <= 1
  | (Raise e, w') =>
      w' = w ++ [LLMCall (extraction_prompt env classified_doc)]
      ∧ (llm env w (extraction_prompt env classified_doc) = Raise e
         ∨ e = TypeError ∨ e = AttributeError ∨ e = ValidationError)
  end.
Proof.
  unfold _extract_from_document, bind, call_llm. fold (extraction_prompt env classified_doc).
  destruct (llm env w (extraction_prompt env classified_doc)) as [text|e] eqn:Hllm.
  2:{ split; [done | by left]. }
  unfold try_except_JSONDecodeError, bind, loads, lift, ret, raise.
  destruct (json_loads env text) as [v|].
  2:{ simpl. split; [done|]. split; [done|]. split; [done|]. lra. }
  pose proof (calculate_outcome v (ClassifiedDocument.document_type classified_doc))
    as Hrange.
  destruct (_calculate_extraction_confidence v _) as [c|e] eqn:Hc.
  - destruct v as [| | | | |m]; simpl; split; done || tauto.
  - destruct Hrange as [_ [-> | ->]]; (split; [done | tauto]).
Qed.

(** X2.  Whatever the model answers, [_extract_from_document] makes
    exactly one model call.  A record it returns carries the category
    and the file name of the classified document and a confidence in
    [0,1], and it is either the sentinel record of an answer that is not
    JSON, or the object the answer decodes to with the confidence the
    score gives to that object.  An exception it raises is the one of
    the model call, or a TypeError, an AttributeError or a
    ValidationError, and then the answer decodes to a value that is not
    an object: an answer that is an object never makes it raise. *)
Theorem extract_from_document_outcome (classified_doc : ClassifiedDocument.t) (w : World) :
  match _extract_from_document env classified_doc w with
  | (Ok extraction, w') =>
      w' = w ++ [LLMCall (extraction_prompt env classified_doc)]
      ∧ extraction.(ExtractedData.document_type)
        = classified_doc.(ClassifiedDocument.document_type)
      ∧ extraction.(ExtractedData.source_file)
        = classified_doc.(ClassifiedDocument.file).(DocumentFile.filename)
      ∧ 0 <= extraction.(ExtractedData.confidence) <= 1
      ∧ ∃ text,
          llm env w (extraction_prompt env classified_doc) = Ok text
          ∧ ((json_loads env text = None
              ∧ extraction = extraction_sentinel classified_doc)
             ∨ (json_loads env text = Some (JObj extraction.(ExtractedData.data))
                ∧ _calculate_extraction_confidence
                    (JObj extraction.(ExtractedData.data))
                    classified_doc.(ClassifiedDocument.document_type)
                  = Ok extraction.(ExtractedData.confidence)))
  | (Raise e, w') =>
      w' = w ++ [LLMCall (extraction_prompt env classified_doc)]
      ∧ (llm env w (extraction_prompt env classified_doc) = Raise e
         ∨ ∃ text v,
             llm env w (extraction_prompt env classified_doc) = Ok text
             ∧ json_loads env text = Some v
             ∧ (∀ m, v ≠ JObj m)
             ∧ (e = TypeError ∨ e = AttributeError ∨ e = ValidationError))
  end.
Proof.
  unfold _extract_from_document, bind, call_llm. fold (extraction_prompt env classified_doc).
  destruct (llm env w (extraction_prompt env classified_doc)) as [text|e] eqn:Hllm.
  2:{ split; [done | by left]. }
  unfold try_except_JSONDecodeError, bind, loads, lift, ret, raise.
  destruct (json_loads env text) as [v|] eqn:Hjson.
  2:{ simpl. do 3 (split; [done|]). split; [lra|]. exists text. split; [done|].
      left. by split. }
  pose proof (calculate_outcome v (ClassifiedDocument.document_type classified_doc))
    as Hrange.
  destruct (_calculate_extraction_confidence v _) as [c|e] eqn:Hc.
  - destruct v as [| | | | |m]; simpl;
      try (split; [done|]; right; exists text; eexists; split; [done|];
           split; [done|]; split; [done | tauto]).
    do 3 (split; [done|]). split; [exact Hrange|]. exists text. split; [done|].
    right. by split.
  - destruct Hrange as [Hobj [-> | ->]]; simpl; (split; [done|]); right;
      exists text, v; (do 3 (split; [done|])); tauto.
Qed.
End OneExtraction.

Section ExtractionAnswers.
Import DataExtractionAgent.
Local Open Scope Q_scope.
Variable env : Env.

(** X3.  When the answer of the model is not JSON, the extractor returns
    the sentinel record for the document: the data [{"error": ...}] with
    confidence 0.0, which is also the confidence the score gives to that
    data. *)
Theorem extraction_parse_failure (classified_doc : ClassifiedDocument.t) (w : World)
    (text : string) :
  llm env w (extraction_prompt env classified_doc) = Ok text →
  json_loads env text = None →
  _extract_from_document env classified_doc w
  = (Ok (extraction_sentinel classified_doc),
     w ++ [LLMCall (extraction_prompt env classified_doc)])
  ∧ _calculate_extraction_confidence
      (JObj (extraction_sentinel classified_doc).(ExtractedData.data))
      classified_doc.(ClassifiedDocument.document_type)
    = Ok (extraction_sentinel classified_doc).(ExtractedData.confidence).
Proof.
  intros Hllm Hjson. split.
  - unfold _extract_from_document, bind, call_llm.
    fold (extraction_prompt env classified_doc). rewrite Hllm.
    unfold try_except_JSONDecodeError, bind, loads. by rewrite Hjson.
  - reflexivity.
Qed.

(** X4.  When the answer of the model is JSON but not an object (a
    list, a string, a number, a boolean or null), the extractor raises: no
    record is made for the document. *)
Theorem extraction_non_object_raises (classified_doc : ClassifiedDocument.t) (w : World)
    (text : string) (v : json) :
  llm env w (extraction_prompt env classified_doc) = Ok text →
  json_loads env text = Some v →
  (∀ m, v ≠ JObj m) →
  ∃ e,
    _extract_from_document env classified_doc w
    = (Raise e, w ++ [LLMCall (extraction_prompt env classified_doc)])
    ∧ (e = TypeError ∨ e = AttributeError ∨ e = ValidationError).
Proof.
  intros Hllm Hjson Hobj.
  unfold _extract_from_document, bind, call_llm.
  fold (extraction_prompt env classified_doc). rewrite Hllm.
  unfold try_except_JSONDecodeError, bind, loads, lift, ret. rewrite Hjson.
  pose proof (calculate_outcome v (ClassifiedDocument.document_type classified_doc))
    as Hrange.
  destruct (_calculate_extraction_confidence v _) as [c|e].
  - destruct v as [| | | | |m]; simpl; try (eexists; split; [reflexivity | tauto]).
    by destruct (Hobj m).
  - destruct Hrange as [_ [-> | ->]]; eexists; (split; [reflexivity | tauto]).
Qed.
End ExtractionAnswers.

(** ** The extraction stage on a batch *)

Section ExtractionStage.
Import DataExtractionAgent.
Local Open Scope Q_scope.
Variable env : Env.

Lemma extract_loop_detail (docs : list ClassifiedDocument.t) (w : World) :
  ∃ logs xs,
    (∀ state extracted_data,
       extract_loop env docs state extracted_data w
       = (Ok (ApplicationState.set_agent_logs
                (state.(ApplicationState.agent_logs) ++ logs) state,
              extracted_data ++ xs),
          w ++ map (λ d, LLMCall (extraction_prompt env d)) docs))
    ∧ length logs = length docs
    ∧ Forall (λ entry, entry.(LogEntry.agent) = "DataExtractor") logs
    ∧ map record_origin xs `sublist_of` map document_origin docs
    ∧ Forall (λ x, 0 <= x.(ExtractedData.confidence) <= 1) xs.
Proof.
  revert w. induction docs as [|d rest IH]; intros w.
  - exists [], []. split; [|by repeat split].
    intros state acc. simpl. unfold ret.
    by rewrite set_agent_logs_nil, !app_nil_r.
  - pose proof (extract_outcome env d w) as Hd.
    destruct (_extract_from_document env d w) as [r w1] eqn:Hrun.
    destruct (IH w1) as (logs & xs & Hrest & Hlen & Hagent & Hsub & Hconf).
    exists (extraction_log d r :: logs), (extracted_of r ++ xs).
    assert (w1 = w ++ [LLMCall (extraction_prompt env d)]) as Hw.
    { destruct r; tauto. }
    split; [|split; [|split; [|split]]].
    + intros state acc. rewrite extract_loop_cons, Hrun, Hrest.
      rewrite set_agent_logs_app, <- app_assoc. subst w1.
      by rewrite <- app_assoc.
    + simpl. by rewrite Hlen.
    + constructor; [by destruct r | exact Hagent].
    + destruct r as [x|e]; simpl.
      * destruct Hd as (_ & Ht & Hs & _).
        unfold record_origin at 1. unfold document_origin at 1. rewrite Ht, Hs.
        by apply sublist_skip.
      * by apply sublist_cons.
    + destruct r as [x|e]; simpl; [|exact Hconf].
      constructor; [tauto | exact Hconf].
Qed.

Lemma extractor_effect (state : ApplicationState.t) (w : World) :
  ∃ logs xs,
    process env state w
    = (Ok (ApplicationState.mk
             state.(ApplicationState.application_id)
             state.(ApplicationState.applicant_id)
             state.(ApplicationState.target_program)
             state.(ApplicationState.entity)
             state.(ApplicationState.uploaded_files)
             state.(ApplicationState.classified_documents)
             xs
             state.(ApplicationState.admission_decision)
             "data_extracted"
             state.(ApplicationState.error_message)
             (state.(ApplicationState.agent_logs) ++ logs)),
       w ++ map (λ d, LLMCall (extraction_prompt env d))
              state.(ApplicationState.classified_documents))
    ∧ length logs = length state.(ApplicationState.classified_documents)
    ∧ map record_origin xs
      `sublist_of` map document_origin state.(ApplicationState.classified_documents)
    ∧ Forall (λ x, 0 <= x.(ExtractedData.confidence) <= 1) xs.
Proof.
  destruct (extract_loop_detail state.(ApplicationState.classified_documents) w)
    as (logs & xs & Hloop & Hlen & _ & Hsub & Hconf).
  exists logs, xs. split; [|by repeat split].
  unfold process, bind. simpl. by rewrite Hloop.
Qed.

(** X5.  The extraction stage returns for every batch.  It makes
    exactly one model call per classified document, in order; it appends
    exactly one log entry per document and keeps the entries it was
    given; the extracted set replaces the one it was given, its records
    are about documents of the batch, in batch order, with confidences in
    [0,1]; the stage is data_extracted and every other field is the one
    it was given. *)
Theorem extraction_stage_bookkeeping (state : ApplicationState.t) (w : World) :
  ∃ logs xs,
    process env state w
    = (Ok (ApplicationState.mk
             state.(ApplicationState.application_id)
             state.(ApplicationState.applicant_id)
             state.(ApplicationState.target_program)
             state.(ApplicationState.entity)
             state.(ApplicationState.uploaded_files)
             state.(ApplicationState.classified_documents)
             xs
             state.(ApplicationState.admission_decision)
             "data_extracted"
             state.(ApplicationState.error_message)
             (state.(ApplicationState.agent_logs) ++ logs)),
       w ++ map (λ d, LLMCall (extraction_prompt env d))
              state.(ApplicationState.classified_documents))
    ∧ length logs = length state.(ApplicationState.classified_documents)
    ∧ map record_origin xs
      `sublist_of` map document_origin state.(ApplicationState.classified_documents)
    ∧ Forall (λ x, 0 <= x.(ExtractedData.confidence) <= 1) xs.
Proof. apply extractor_effect. Qed.
End ExtractionStage.

(** ** The classification stage on a batch *)

Section ClassificationStage.
Import DocumentClassifierAgent.
Local Open Scope Q_scope.
Variable env : Env.

(** The classifier raises only when the model call raises. *)
Lemma classify_outcome (file : DocumentFile.t) (w : World) :
  match _classify_single_document env file w with
  | (Ok doc, w') =>
      w' = w ++ [LLMCall (classification_prompt env file)]
      ∧ doc.(ClassifiedDocument.file) = file
      ∧ ∃ text, llm env w (classification_prompt env file) = Ok text
  | (Raise e, w') =>
      w' = w ++ [LLMCall (classification_prompt env file)]
      ∧ llm env w (classification_prompt env file) = Raise e
  end.
Proof.
  unfold _classify_single_document, bind, call_llm.
  fold (classification_prompt env file).
  destruct (llm env w (classification_prompt env file)) as [text|e]; [|by split].
  unfold try_except, bind, loads, lift, ret, raise.
  destruct (json_loads env text) as [data|]; [|by eauto].
  destruct (subscript data "document_type") as [dt|e]; [|by eauto].
  destruct (subscript data "confidence") as [c|e]; [|by eauto].
  destruct (as_str dt) as [s|e]; [|by eauto].
  destruct (as_float env c) as [q|e]; by eauto.
Qed.

Lemma classify_loop_cons (file : DocumentFile.t) (rest : list DocumentFile.t)
    (state : ApplicationState.t) (classified_docs : list ClassifiedDocument.t) (w : World) :
  classify_loop env (file :: rest) state classified_docs w
  = let '(r, w1) := _classify_single_document env file w in
    classify_loop env rest
      (ApplicationState.set_agent_logs
         (state.(ApplicationState.agent_logs) ++ [classification_log file r]) state)
      (classified_docs ++ classified_of r) w1.
Proof.
  simpl. unfold bind at 1. unfold try_except, bind, ret.
  destruct (_classify_single_document env file w) as [[classification|e] w1]; simpl.
  - reflexivity.
  - by rewrite app_nil_r.
Qed.

Lemma classify_loop_detail (P : ClassifiedDocument.t → Prop) (files : list DocumentFile.t)
    (w : World) :
  (∀ file w0 doc w', _classify_single_document env file w0 = (Ok doc, w') → P doc) →
  ∃ logs docs,
    (∀ state classified_docs,
       classify_loop env files state classified_docs w
       = (Ok (ApplicationState.set_agent_logs
                (state.(ApplicationState.agent_logs) ++ logs) state,
              classified_docs ++ docs),
          w ++ map (λ f, LLMCall (classification_prompt env f)) files))
    ∧ length logs = length files
    ∧ map ClassifiedDocument.file docs `sublist_of` files
    ∧ Forall P docs
    ∧ ((∀ w0 f, ∃ text, llm env w0 (classification_prompt env f) = Ok text) →
       map ClassifiedDocument.file docs = files).
Proof.
  intros HP. revert w. induction files as [|file rest IH]; intros w.
  - exists [], []. split; [|by repeat split].
    intros state acc. simpl. unfold ret.
    by rewrite set_agent_logs_nil, !app_nil_r.
  - pose proof (classify_outcome file w) as Hd.
    pose proof (HP file w) as HPd.
    destruct (_classify_single_document env file w) as [r w1] eqn:Hrun.
    destruct (IH w1) as (logs & docs & Hrest & Hlen & Hsub & Hall & Hfull).
    exists (classification_log file r :: logs), (classified_of r ++ docs).
    assert (w1 = w ++ [LLMCall (classification_prompt env file)]) as Hw.
    { destruct r; tauto. }
    split; [|split; [|split; [|split]]].
    + intros state acc. rewrite classify_loop_cons, Hrun, Hrest.
      rewrite set_agent_logs_app, <- app_assoc. subst w1.
      by rewrite <- app_assoc.
    + simpl. by rewrite Hlen.
    + destruct r as [doc|e]; simpl.
      * destruct Hd as (_ & -> & _). by apply sublist_skip.
      * by apply sublist_cons.
    + destruct r as [doc|e]; simpl; [|exact Hall].
      constructor; [by eapply HPd | exact Hall].
    + intros Hllm. destruct r as [doc|e]; simpl.
      * destruct Hd as (_ & -> & _). by rewrite Hfull.
      * destruct Hd as [_ Hraise]. destruct (Hllm w file) as [text Htext].
        congruence.
Qed.

Lemma classifier_effect (P : ClassifiedDocument.t → Prop) (state : ApplicationState.t)
    (w : World) :
  (∀ file w0 doc w', _classify_single_document env file w0 = (Ok doc, w') → P doc) →
  ∃ logs docs,
    process env state w
    = (Ok (ApplicationState.mk
             state.(ApplicationState.application_id)
             state.(ApplicationState.applicant_id)
             state.(ApplicationState.target_program)
             state.(ApplicationState.entity)
             state.(ApplicationState.uploaded_files)
             docs
             state.(ApplicationState.extracted_data)
             state.(ApplicationState.admission_decision)
             "documents_classified"
             state.(ApplicationState.error_message)
             (state.(ApplicationState.agent_logs) ++ logs)),
       w ++ map (λ f, LLMCall (classification_prompt env f))
              state.(ApplicationState.uploaded_files))
    ∧ length logs = length state.(ApplicationState.uploaded_files)
    ∧ map ClassifiedDocument.file docs `sublist_of` state.(ApplicationState.uploaded_files)
    ∧ Forall P docs
    ∧ ((∀ w0 f, ∃ text, llm env w0 (classification_prompt env f) = Ok text) →
       map ClassifiedDocument.file docs = state.(ApplicationState.uploaded_files)).
Proof.
  intros HP.
  destruct (classify_loop_detail P state.(ApplicationState.uploaded_files) w HP)
    as (logs & docs & Hloop & Hrest).
  exists logs, docs. split; [|exact Hrest].
  unfold process, bind. simpl. by rewrite Hloop.
Qed.

(** X6.  The classification stage returns for every application.  It
    makes exactly one model call per uploaded file, in order; it appends
    exactly one log entry per file and keeps the entries it was given;
    the classified documents replace the ones it was given and are about
    uploaded files, in upload order, at most one per file; the stage is
    documents_classified and every other field, the error message
    included, is the one it was given. *)
Theorem classification_stage_bookkeeping (state : ApplicationState.t) (w : World) :
  ∃ logs docs,
    process env state w
    = (Ok (ApplicationState.mk
             state.(ApplicationState.application_id)
             state.(ApplicationState.applicant_id)
             state.(ApplicationState.target_program)
             state.(ApplicationState.entity)
             state.(ApplicationState.uploaded_files)
             docs
             state.(ApplicationState.extracted_data)
             state.(ApplicationState.admission_decision)
             "documents_classified"
             state.(ApplicationState.error_message)
             (state.(ApplicationState.agent_logs) ++ logs)),
       w ++ map (λ f, LLMCall (classification_prompt env f))
              state.(ApplicationState.uploaded_files))
    ∧ length logs = length state.(ApplicationState.uploaded_files)
    ∧ map ClassifiedDocument.file docs `sublist_of` state.(ApplicationState.uploaded_files).
Proof.
  destruct (classifier_effect (λ _, True) state w) as (logs & docs & H1 & H2 & H3 & _);
    [done|].
  by exists logs, docs.
Qed.

(** X7.  When the model call returns for every file, whatever it
    answers, the classification stage produces exactly one classified
    document per uploaded file, in upload order. *)
Theorem classification_covers_every_file (state : ApplicationState.t) (w : World) :
  (∀ w0 f, ∃ text, llm env w0 (classification_prompt env f) = Ok text) →
  ∃ s w',
    process env state w = (Ok s, w')
    ∧ map ClassifiedDocument.file s.(ApplicationState.classified_documents)
      = state.(ApplicationState.uploaded_files).
Proof.
  intros Hllm.
  destruct (classifier_effect (λ _, True) state w) as (logs & docs & H1 & _ & _ & _ & H5);
    [done|].
  eexists _, _. split; [exact H1|]. simpl. by apply H5.
Qed.
End ClassificationStage.

(** ** The completeness check and the profile (admission_agent.py) *)

Section ProfileAndCheck.
Import AdmissionDecisionAgent.

Lemma filter_sublist {A} (f : A → bool) (l : list A) : List.filter f l `sublist_of` l.
Proof.
  induction l as [|x l IH]; simpl; [constructor|].
  destruct (f x); by constructor.
Qed.

Lemma elem_of_provided_types (state : ApplicationState.t) (d : string) :
  d ∈ provided_types state
  ↔ ∃ doc, doc ∈ state.(ApplicationState.classified_documents)
           ∧ doc.(ClassifiedDocument.document_type) = d.
Proof.
  unfold provided_types. rewrite list_elem_of_fmap. split.
  - intros (doc & -> & Hdoc). by exists doc.
  - intros (doc & Hdoc & <-). by exists doc.
Qed.

(** X8.  The completeness check returns the empty list exactly when
    every required category of the entity is the category of some
    classified document; what it returns is a sub-list of the required
    categories, in their order, made of those that are the category of
    no classified document; and classifying more documents for the same
    entity never adds a missing category. *)
Theorem check_document_completeness_complete (state : ApplicationState.t) :
  (_check_document_completeness state = []
   ↔ ∀ d, d ∈ default [] (required_docs !! state.(ApplicationState.entity)) →
          ∃ doc, doc ∈ state.(ApplicationState.classified_documents)
                 ∧ doc.(ClassifiedDocument.document_type) = d)
  ∧ (_check_document_completeness state
     `sublist_of` default [] (required_docs !! state.(ApplicationState.entity)))
  ∧ (∀ d, d ∈ _check_document_completeness state
          ↔ d ∈ default [] (required_docs !! state.(ApplicationState.entity))
            ∧ ¬ ∃ doc, doc ∈ state.(ApplicationState.classified_documents)
                       ∧ doc.(ClassifiedDocument.document_type) = d)
  ∧ ∀ state2,
      state2.(ApplicationState.entity) = state.(ApplicationState.entity) →
      (∀ doc, doc ∈ state.(ApplicationState.classified_documents) →
         ∃ doc2, doc2 ∈ state2.(ApplicationState.classified_documents)
                 ∧ doc2.(ClassifiedDocument.document_type)
                   = doc.(ClassifiedDocument.document_type)) →
      ∀ d, d ∈ _check_document_completeness state2 →
           d ∈ _check_document_completeness state.
Proof.
  split; [|split; [|split]].
  - setoid_rewrite <- elem_of_provided_types. split.
    + intros Hnil d Hd. destruct (decide (d ∈ provided_types state)) as [|Hn]; [done|].
      assert (d ∈ _check_document_completeness state) as Hin
        by (by apply elem_of_check_document_completeness).
      rewrite Hnil in Hin. by apply elem_of_nil in Hin.
    + intros Hall. destruct (_check_document_completeness state) as [|d l] eqn:E; [done|].
      assert (d ∈ _check_document_completeness state) as Hin by (rewrite E; left).
      apply elem_of_check_document_completeness in Hin as [Hreq Hn].
      by destruct Hn; apply Hall.
  - apply filter_sublist.
  - intros d. by rewrite elem_of_check_document_completeness, elem_of_provided_types.
  - intros state2 Hentity Hmore d.
    rewrite !elem_of_check_document_completeness, Hentity.
    intros [Hreq Hn]. split; [done|]. intros Hp. apply Hn.
    apply elem_of_provided_types in Hp as (doc & Hdoc & <-).
    apply elem_of_provided_types. destruct (Hmore doc Hdoc) as (doc2 & Hdoc2 & Heq).
    by exists doc2.
Qed.

Lemma add_extraction_spec (target_program entity : string) (q : list Qualification)
    (we : list (gmap string json)) (pi : gmap string json) (x : ExtractedData.t) :
  add_extraction (Profile.mk target_program entity q we pi) x
  = Profile.mk target_program entity
      (q ++ ProfileSpec.qualification_of x)
      (we ++ ProfileSpec.work_of x)
      (default pi (last (ProfileSpec.cv_of x))).
Proof.
  unfold add_extraction, ProfileSpec.qualification_of, ProfileSpec.work_of,
    ProfileSpec.cv_of.
  destruct (String.eqb_spec (ExtractedData.document_type x) "transcript") as [E1|E1].
  { rewrite decide_True by done. rewrite E1. simpl. by rewrite app_nil_r. }
  rewrite (decide_False (P := _ = "transcript")) by done.
  destruct (decide (ExtractedData.document_type x ∈ ["a_levels"; "abitur"; "ib"]))
    as [E2|E2].
  { rewrite bool_decide_eq_true_2 by done.
    assert (ExtractedData.document_type x ≠ "work_certificate") as N1.
    { intros E. rewrite E in E2. revert E2. by_evaluation. }
    assert (ExtractedData.document_type x ≠ "cv") as N2.
    { intros E. rewrite E in E2. revert E2. by_evaluation. }
    rewrite !decide_False by done. simpl. by rewrite app_nil_r. }
  rewrite bool_decide_eq_false_2 by done.
  destruct (String.eqb_spec (ExtractedData.document_type x) "work_certificate") as [E3|E3].
  { rewrite (decide_True (P := _ = "work_certificate")) by done.
    rewrite decide_False by (rewrite E3; done). simpl. by rewrite app_nil_r. }
  rewrite (decide_False (P := _ = "work_certificate")) by done.
  destruct (String.eqb_spec (ExtractedData.document_type x) "cv") as [E4|E4].
  { rewrite decide_True by done. simpl. by rewrite !app_nil_r. }
  rewrite decide_False by done. simpl. by rewrite !app_nil_r.
Qed.

Lemma fold_add_extraction (xs : list ExtractedData.t) (target_program entity : string)
    (q : list Qualification) (we : list (gmap string json)) (pi : gmap string json) :
  fold_left add_extraction xs (Profile.mk target_program entity q we pi)
  = Profile.mk target_program entity
      (q ++ concat (map ProfileSpec.qualification_of xs))
      (we ++ concat (map ProfileSpec.work_of xs))
      (default pi (last (concat (map ProfileSpec.cv_of xs)))).
Proof.
  revert q we pi. induction xs as [|x xs IH]; intros q we pi.
  - simpl. by rewrite !app_nil_r.
  - cbn [fold_left]. rewrite add_extraction_spec, IH. cbn [map concat].
    rewrite <- !app_assoc. f_equal.
    rewrite last_app. destruct (last (concat (map ProfileSpec.cv_of xs))); [done|].
    reflexivity.
Qed.

Lemma build_applicant_profile_spec (state : ApplicationState.t) :
  _build_applicant_profile state = ProfileSpec.profile state.
Proof. unfold _build_applicant_profile. by rewrite fold_add_extraction. Qed.

(** X9.  The applicant profile is the grouping of the extracted
    records: the qualifications are the transcripts (as university
    degrees) and the A-level, Abitur and IB records (as secondary
    education tagged by subtype) in extraction order, each with its own
    data and confidence; the work experience is the data of the
    work_certificate records in order; the personal info is the data of
    the last cv record, or empty without one; records of any other
    category do not enter the profile. *)
Theorem build_applicant_profile_groups (state : ApplicationState.t) :
  _build_applicant_profile state
  = Profile.mk state.(ApplicationState.target_program) state.(ApplicationState.entity)
      (concat (map ProfileSpec.qualification_of state.(ApplicationState.extracted_data)))
      (concat (map ProfileSpec.work_of state.(ApplicationState.extracted_data)))
      (default ∅
         (last (concat (map ProfileSpec.cv_of state.(ApplicationState.extracted_data))))).
Proof. apply build_applicant_profile_spec. Qed.
End ProfileAndCheck.

(** ** The rule questions (admission_agent.py) *)

Section Queries.
Import AdmissionDecisionAgent.
Variable env : Env.

Lemma qualification_queries_length (target_program : string) (x : ExtractedData.t) :
  (length (concat (map (qualification_queries target_program)
                     (ProfileSpec.qualification_of x)))
   + length (ProfileSpec.work_of x) ≤ 2)%nat.
Proof.
  unfold ProfileSpec.qualification_of, ProfileSpec.work_of.
  destruct (decide (ExtractedData.document_type x = "transcript")) as [E|E].
  { rewrite E. simpl. lia. }
  destruct (decide (ExtractedData.document_type x ∈ ["a_levels"; "abitur"; "ib"]))
    as [E2|E2].
  - assert (ExtractedData.document_type x ≠ "work_certificate") as N1.
    { intros E3. rewrite E3 in E2. revert E2. by_evaluation. }
    rewrite (decide_False (P := _ = "work_certificate")) by done. simpl.
    destruct (bool_decide _); simpl; lia.
  - simpl. destruct (decide _); simpl; lia.
Qed.

Lemma queries_of_records_length (target_program : string) (xs : list ExtractedData.t) :
  (length (concat (map (qualification_queries target_program)
                     (concat (map ProfileSpec.qualification_of xs))))
   + length (concat (map ProfileSpec.work_of xs)) ≤ 2 * length xs)%nat.
Proof.
  induction xs as [|x xs IH]; [simpl; lia|].
  cbn [map concat]. rewrite map_app, concat_app, !length_app.
  pose proof (qualification_queries_length target_program x). simpl length. lia.
Qed.

Lemma build_queries_length (state : ApplicationState.t) :
  (length (build_queries state.(ApplicationState.target_program)
             (_build_applicant_profile state))
   ≤ 1 + 2 * length state.(ApplicationState.extracted_data))%nat.
Proof.
  rewrite build_applicant_profile_spec.
  unfold build_queries, ProfileSpec.profile. cbn [Profile.qualifications Profile.work_experience].
  pose proof (queries_of_records_length state.(ApplicationState.target_program)
                state.(ApplicationState.extracted_data)) as Hlen.
  rewrite !length_app. cbn [length].
  destruct (concat (map ProfileSpec.work_of _)) as [|we wes]; simpl in *; lia.
Qed.

(** X10.  The questions built for an application start with the
    admission-requirements question for the target program, and there are
    at most one plus twice the number of extracted records of them. *)
Theorem build_queries_bounded (state : ApplicationState.t) :
  let queries :=
    build_queries state.(ApplicationState.target_program)
      (_build_applicant_profile state) in
  head queries
  = Some ("What are the admission requirements for "
            +:+ state.(ApplicationState.target_program) +:+ "?")
  ∧ (length queries ≤ 1 + 2 * length state.(ApplicationState.extracted_data))%nat.
Proof.
  intros queries. split; [reflexivity | apply build_queries_length].
Qed.

Lemma run_queries_detail (queries : list string) (w : World) :
  ∃ results,
    (∀ all_rules,
       run_queries env queries all_rules w
       = (Ok (all_rules ++ results), w ++ map RAGQuery queries))
    ∧ (length results ≤ length queries)%nat
    ∧ ((∀ w0 q, ∃ e, rag env w0 q = Raise e) → results = [])
    ∧ ((∀ w0 q, ∃ r, rag env w0 q = Ok r) → length results = length queries).
Proof.
  revert w. induction queries as [|query rest IH]; intros w.
  - exists []. split; [|by repeat split].
    intros acc. simpl. unfold ret. by rewrite !app_nil_r.
  - destruct (IH (w ++ [RAGQuery query])) as (results & Hrun & Hlen & Hnone & Hall).
    destruct (rag env w query) as [r|e] eqn:Hrag.
    + exists (r :: results). split; [|split; [|split]].
      * intros acc. simpl. unfold bind at 1. unfold try_except, bind, call_rag, ret.
        rewrite Hrag, Hrun. by rewrite <- !app_assoc.
      * simpl. lia.
      * intros Hfail. destruct (Hfail w query) as [e He]. congruence.
      * intros Hok. simpl. by rewrite Hall.
    + exists results. split; [|split; [|split]].
      * intros acc. simpl. unfold bind at 1. unfold try_except, bind, call_rag, ret.
        rewrite Hrag, Hrun. by rewrite <- !app_assoc.
      * simpl. lia.
      * exact Hnone.
      * intros Hok. destruct (Hok w query) as [r Hr]. congruence.
Qed.

Lemma query_admission_rules_effect (target_program : string) (profile : Profile.t)
    (w : World) :
  ∃ results,
    _query_admission_rules env target_program profile w
    = (Ok (HandbookRules.mk (build_queries target_program profile) results),
       w ++ map RAGQuery (build_queries target_program profile))
    ∧ (length results ≤ length (build_queries target_program profile))%nat
    ∧ ((∀ w0 q, ∃ e, rag env w0 q = Raise e) → results = [])
    ∧ ((∀ w0 q, ∃ r, rag env w0 q = Ok r) →
       length results = length (build_queries target_program profile)).
Proof.
  destruct (run_queries_detail (build_queries target_program profile) w)
    as (results & Hrun & Hrest).
  exists results. split; [|exact Hrest].
  unfold _query_admission_rules, bind. by rewrite Hrun.
Qed.

(** X11.  [_query_admission_rules] always returns.  It sends every
    question to the retriever once, in order, also after a question
    failed; it lists all the questions, and its results are at most as
    many: none when every question fails, as many as the questions when
    none fails. *)
Theorem query_admission_rules_accounting (target_program : string) (profile : Profile.t)
    (w : World) :
  ∃ results,
    _query_admission_rules env target_program profile w
    = (Ok (HandbookRules.mk (build_queries target_program profile) results),
       w ++ map RAGQuery (build_queries target_program profile))
    ∧ (length results ≤ length (build_queries target_program profile))%nat
    ∧ ((∀ w0 q, ∃ e, rag env w0 q = Raise e) → results = [])
    ∧ ((∀ w0 q, ∃ r, rag env w0 q = Ok r) →
       length results = length (build_queries target_program profile)).
Proof. apply query_admission_rules_effect. Qed.
End Queries.

(** ** The calls of the decision stage *)

Section Silent.

Lemma silent_ret {A} (a : A) : silent (ret a).
Proof. by intros w. Qed.

Lemma silent_raise {A} (e : exn) : silent (@raise A e).
Proof. by intros w. Qed.

Lemma silent_lift {A} (r : result A) : silent (lift r).
Proof. by intros w. Qed.

Lemma silent_bind {A B} (m : M A) (k : A → M B) :
  silent m → (∀ a, silent (k a)) → silent (bind m k).
Proof.
  intros Hm Hk w. unfold bind. specialize (Hm w).
  destruct (m w) as [[a|e] w1]; simpl in *; subst w1; [apply Hk | done].
Qed.

Lemma silent_try_except_JSONDecodeError {A} (body handler : M A) :
  silent body → silent handler → silent (try_except_JSONDecodeError body handler).
Proof.
  intros Hb Hh w. unfold try_except_JSONDecodeError. specialize (Hb w).
  destruct (body w) as [[a|e] w1]; simpl in *; subst w1; [done|].
  destruct e; done || apply Hh.
Qed.

Lemma silent_try_except {A} (body : M A) (handler : exn → M A) :
  silent body → (∀ e, silent (handler e)) → silent (try_except body handler).
Proof.
  intros Hb Hh w. unfold try_except. specialize (Hb w).
  destruct (body w) as [[a|e] w1]; simpl in *; subst w1; [done | apply Hh].
Qed.

Lemma silent_loads (env : Env) (text : string) : silent (loads env text).
Proof. unfold loads. destruct (json_loads env text); [apply silent_ret | apply silent_raise]. Qed.
End Silent.

Ltac silence :=
  repeat first
    [ apply silent_ret | apply silent_raise | apply silent_lift | apply silent_loads
    | apply silent_try_except_JSONDecodeError | apply silent_try_except
    | apply silent_bind | intro ].

Section DecisionCalls.
Import AdmissionDecisionAgent.
Variable env : Env.

(** The decision synthesis makes its one model call and nothing else. *)
Lemma apply_decision_logic_world (profile : Profile.t) (handbook_rules : HandbookRules.t)
    (state : ApplicationState.t) (w : World) :
  (_apply_decision_logic env profile handbook_rules state w).2
  = w ++ [LLMCall (DecisionPrompt profile handbook_rules
                     state.(ApplicationState.target_program)
                     state.(ApplicationState.entity))].
Proof.
  unfold _apply_decision_logic, bind at 1, call_llm.
  destruct (llm env w _) as [text|e]; [|reflexivity].
  match goal with |- (?m ?w1).2 = _ => assert (silent m) as Hs by silence; apply Hs end.
Qed.

Lemma decision_stage_effect (state : ApplicationState.t) (w : World) :
  ∃ s w',
    process env state w = (Ok s, w')
    ∧ ((_check_document_completeness state ≠ [] ∧ w' = w)
       ∨ (_check_document_completeness state = []
          ∧ ∃ results,
              (length results
               ≤ length (build_queries state.(ApplicationState.target_program)
                           (_build_applicant_profile state)))%nat
              ∧ ((∀ w0 q, ∃ e, rag env w0 q = Raise e) → results = [])
              ∧ w' = w
                     ++ map RAGQuery
                          (build_queries state.(ApplicationState.target_program)
                             (_build_applicant_profile state))
                     ++ [LLMCall (decision_prompt state results)])).
Proof.
  destruct (_check_document_completeness state) as [|d missing] eqn:Hcheck.
  - rewrite process_evaluates by done.
    set (state1 := ApplicationState.set_current_stage "making_decision" state).
    unfold _evaluate_admission, bind.
    destruct (query_admission_rules_effect env state1.(ApplicationState.target_program)
                (_build_applicant_profile state1) w) as (results & -> & Hlen & Hnone & _).
    pose proof (apply_decision_logic_world (_build_applicant_profile state1)
                  (HandbookRules.mk
                     (build_queries state1.(ApplicationState.target_program)
                        (_build_applicant_profile state1)) results)
                  state1
                  (w ++ map RAGQuery
                          (build_queries state1.(ApplicationState.target_program)
                             (_build_applicant_profile state1)))) as Hw.
    destruct (_apply_decision_logic env _ _ state1 _) as [[decision|e] w'];
      simpl in Hw; subst w'.
    + eexists _, _. split; [reflexivity|]. right. split; [done|].
      exists results. split; [exact Hlen|]. split; [exact Hnone|]. by rewrite <- app_assoc.
    + eexists _, _. split; [reflexivity|]. right. split; [done|].
      exists results. split; [exact Hlen|]. split; [exact Hnone|]. by rewrite <- app_assoc.
  - unfold process, try_except, bind.
    rewrite check_document_completeness_stage, Hcheck.
    eexists _, _. split; [reflexivity|]. left. by split.
Qed.

(** X12.  The decision stage always returns.  With a required document
    missing it makes no outbound call; otherwise it sends each rule
    question to the retriever once, in order, and then makes exactly one
    model call, the decision synthesis, whether or not that call or the
    questions succeed. *)
Theorem decision_stage_calls (state : ApplicationState.t) (w : World) :
  ∃ s w',
    process env state w = (Ok s, w')
    ∧ ((_check_document_completeness state ≠ [] ∧ w' = w)
       ∨ (_check_document_completeness state = []
          ∧ ∃ results,
              (length results
               ≤ length (build_queries state.(ApplicationState.target_program)
                           (_build_applicant_profile state)))%nat
              ∧ w' = w
                     ++ map RAGQuery
                          (build_queries state.(ApplicationState.target_program)
                             (_build_applicant_profile state))
                     ++ [LLMCall (decision_prompt state results)])).
Proof.
  destruct (decision_stage_effect state w) as (s & w' & Hp & Hw).
  exists s, w'. split; [exact Hp|].
  destruct Hw as [Hw | (Hc & results & Hlen & _ & Hw)]; [by left|].
  right. split; [exact Hc|]. by exists results.
Qed.
End DecisionCalls.

Section DecisionStatusNeeded.
Import AdmissionDecisionAgent.
Variable env : Env.

Lemma apply_decision_logic_needs_status (profile : Profile.t)
    (handbook_rules : HandbookRules.t) (state : ApplicationState.t) (w : World)
    (text : string) (data : json) :
  llm env w (DecisionPrompt profile handbook_rules
               state.(ApplicationState.target_program)
               state.(ApplicationState.entity)) = Ok text →
  json_loads env text = Some data →
  (∀ s, subscript data "status" ≠ Ok (JStr (status_str s))) →
  ∃ e w', _apply_decision_logic env profile handbook_rules state w = (Raise e, w').
Proof.
  intros Hllm Hjson Hstatus.
  destruct (_apply_decision_logic env profile handbook_rules state w)
    as [[decision|e] w'] eqn:Hrun; [|by eauto].
  apply apply_decision_logic_inv in Hrun as (_ & text' & Hllm' & Hcases).
  rewrite Hllm in Hllm'. injection Hllm' as <-.
  destruct Hcases as [[Hnone _]|(data' & st & c & Hjson' & Hsub & Hst & _)].
  - congruence.
  - rewrite Hjson in Hjson'. injection Hjson' as <-.
    apply as_status_inv in Hst. subst st. by destruct (Hstatus _ Hsub).
Qed.

(** X13.  When the documents are complete and every answer of the model
    to the decision synthesis decodes to a value whose ["status"] is not
    one of APPROVED, REJECTED, REVIEW_REQUIRED and MISSING_DOCS (or is
    absent), the decision stage makes no decision: it returns with stage
    error, an error message, and the decision it was given. *)
Theorem decision_needs_valid_status (state : ApplicationState.t) (w : World) :
  _check_document_completeness state = [] →
  (∀ w0 profile rules target_program entity text,
     llm env w0 (DecisionPrompt profile rules target_program entity) = Ok text →
     ∃ data, json_loads env text = Some data
             ∧ ∀ s, subscript data "status" ≠ Ok (JStr (status_str s))) →
  ∃ s w',
    process env state w = (Ok s, w')
    ∧ s.(ApplicationState.current_stage) = "error"
    ∧ is_Some s.(ApplicationState.error_message)
    ∧ s.(ApplicationState.admission_decision) = state.(ApplicationState.admission_decision).
Proof.
  intros Hcheck Hanswers. rewrite process_evaluates by done.
  set (state1 := ApplicationState.set_current_stage "making_decision" state).
  destruct (_evaluate_admission env state1 w) as [[decision|e] w'] eqn:Heval.
  - exfalso. unfold _evaluate_admission, bind in Heval.
    destruct (_query_admission_rules env _ _ w) as [[rules|e] w1]; [|discriminate].
    pose proof Heval as Hinv.
    apply apply_decision_logic_inv in Hinv as (_ & text & Hllm & _).
    destruct (Hanswers _ _ _ _ _ _ Hllm) as (data & Hjson & Hstatus).
    destruct (apply_decision_logic_needs_status _ _ _ _ _ _ Hllm Hjson Hstatus)
      as (e & w2 & Hraise).
    congruence.
  - eexists _, _. split; [reflexivity|]. by repeat split.
Qed.
End DecisionStatusNeeded.

(** ** The decision stage outside the requirements table *)

Section OutsideTableDecision.
Import AdmissionDecisionAgent Examples.
Variable env : Env.

(** C10, amended.  For an entity code other than DE, UK and CA the
    completeness check returns the empty list, so the decision stage
    never takes the short-circuit: it puts its questions to the
    retriever and makes the decision-synthesis call.  Either it ends in
    stage error with the decision it was given, or it has made a
    decision, and then that decision has status MISSING_DOCS if and only
    if the response to the decision-synthesis call of this very run
    decodes to a value whose ["status"] is "MISSING_DOCS". *)
Theorem no_requirements_outside_table (state : ApplicationState.t) (w : World) :
  state.(ApplicationState.entity) ∉ ["DE"; "UK"; "CA"] →
  _check_document_completeness state = []
  ∧ ∃ state' results,
      process env state w
      = (Ok state',
         (w ++ map RAGQuery
                 (build_queries state.(ApplicationState.target_program)
                    (_build_applicant_profile state)))
         ++ [LLMCall (decision_prompt state results)])
      ∧ ((state'.(ApplicationState.current_stage) = "error"
          ∧ state'.(ApplicationState.admission_decision)
            = state.(ApplicationState.admission_decision))
         ∨ (state'.(ApplicationState.current_stage) = "decision_made"
            ∧ ∃ decision,
                state'.(ApplicationState.admission_decision) = Some decision
                ∧ (decision.(AdmissionDecision.status) = MISSING_DOCS
                   ↔ ∃ text data,
                       llm env
                         (w ++ map RAGQuery
                                 (build_queries state.(ApplicationState.target_program)
                                    (_build_applicant_profile state)))
                         (decision_prompt state results)
                       = Ok text
                       ∧ json_loads env text = Some data
                       ∧ subscript data "status" = Ok (JStr "MISSING_DOCS")))).
Proof.
  intros Hentity.
  assert (_check_document_completeness state = []) as Hcheck.
  { unfold _check_document_completeness.
    by rewrite required_docs_outside_table. }
  split; [exact Hcheck|].
  rewrite process_evaluates by done.
  set (state1 := ApplicationState.set_current_stage "making_decision" state).
  unfold _evaluate_admission, bind.
  destruct (query_admission_rules_effect env state1.(ApplicationState.target_program)
              (_build_applicant_profile state1) w) as (results & -> & _).
  pose proof (apply_decision_logic_world env (_build_applicant_profile state1)
                (HandbookRules.mk
                   (build_queries state1.(ApplicationState.target_program)
                      (_build_applicant_profile state1)) results)
                state1
                (w ++ map RAGQuery
                        (build_queries state1.(ApplicationState.target_program)
                           (_build_applicant_profile state1)))) as Hw.
  destruct (_apply_decision_logic env _ _ state1 _) as [[decision|e] w'] eqn:Happly;
    cbn [snd] in Hw; subst w'; eexists; exists results; (split; [reflexivity|]).
  - right. split; [reflexivity|]. exists decision. split; [reflexivity|].
    apply apply_decision_logic_inv in Happly as (_ & text & Hllm & Hcases).
    split.
    + intros Hstatus.
      destruct Hcases as [[_ ->]|(data & status & c & Hjson & Hsub & Hst & _)];
        [discriminate|].
      rewrite Hstatus in Hst. apply as_status_inv in Hst. subst status.
      by exists text, data.
    + intros (text' & data & Hllm' & Hjson & Hsub).
      assert (Ok text' = Ok text) as [= ->] by exact (eq_trans (eq_sym Hllm') Hllm).
      destruct Hcases as [[Hnone _]|(data' & status & c & Hjson' & Hsub' & Hst & _)];
        [congruence|].
      assert (data' = data) as -> by congruence.
      assert (status = JStr "MISSING_DOCS") as -> by congruence.
      simpl in Hst. congruence.
  - left. by split.
Qed.

End OutsideTableDecision.

Section OutsideTableInstance.
Import AdmissionDecisionAgent Examples.

(** A French application with its transcript, for which the model
    answers MISSING_DOCS: no short-circuit, and the status of the
    decision is the one the response carries. *)
Lemma no_requirements_outside_table_witness :
  ("FR" ∉ ["DE"; "UK"; "CA"])
  ∧ _check_document_completeness (with_transcript "FR") = []
  ∧ ∃ state' results decision text data,
      process (scripted_env None None (Some model_missing_docs)) (with_transcript "FR") []
      = (Ok state',
         map RAGQuery
           (build_queries "BSc Computer Science"
              (_build_applicant_profile (with_transcript "FR")))
         ++ [LLMCall (decision_prompt (with_transcript "FR") results)])
      ∧ state'.(ApplicationState.current_stage) = "decision_made"
      ∧ state'.(ApplicationState.admission_decision) = Some decision
      ∧ decision.(AdmissionDecision.status) = MISSING_DOCS
      ∧ llm (scripted_env None None (Some model_missing_docs))
          (map RAGQuery
             (build_queries "BSc Computer Science"
                (_build_applicant_profile (with_transcript "FR"))))
          (decision_prompt (with_transcript "FR") results)
        = Ok text
      ∧ json_loads (scripted_env None None (Some model_missing_docs)) text = Some data
      ∧ subscript data "status" = Ok (JStr "MISSING_DOCS").
Proof.
  assert ("FR" ∉ ["DE"; "UK"; "CA"]) as Hentity by by_evaluation.
  split; [exact Hentity|].
  destruct (no_requirements_outside_table
              (scripted_env None None (Some model_missing_docs))
              (with_transcript "FR") [] Hentity)
    as (Hcheck & state' & results & Hrun & Hcases).
  split; [exact Hcheck|].
  destruct missing_docs_proposal_run as (s & w' & d & Hs & Hstage & Hd & Hstatus).
  assert (state' = s) as -> by congruence.
  destruct Hcases as [[Herror _]|(_ & decision & Hdecision & Hiff)]; [congruence|].
  assert (decision = d) as -> by congruence.
  destruct (proj1 Hiff Hstatus) as (text & data & Hllm & Hjson & Hsub).
  by exists s, results, d, text, data.
Defined.
End OutsideTableInstance.

(** ** What a node does to the state (workflow.py) *)

Section NodeEffects.
Import AdmissionWorkflow.
Variable env : Env.

Lemma later_state_of_refl (s : ApplicationState.t) : later_state_of s s.
Proof. by repeat split. Qed.

Lemma later_state_of_trans (s0 s1 s2 : ApplicationState.t) :
  later_state_of s0 s1 → later_state_of s1 s2 → later_state_of s0 s2.
Proof.
  intros (A1 & A2 & A3 & A4 & A5 & A6) (B1 & B2 & B3 & B4 & B5 & B6).
  repeat split; try congruence. by etrans.
Qed.

Lemma classify_node_effect (P : ClassifiedDocument.t → Prop) (state : ApplicationState.t)
    (w : World) :
  (∀ file w0 doc w',
     DocumentClassifierAgent._classify_single_document env file w0 = (Ok doc, w') → P doc) →
  ∃ logs docs,
    _classify_documents_node env state w
    = (Ok (ApplicationState.mk
             state.(ApplicationState.application_id)
             state.(ApplicationState.applicant_id)
             state.(ApplicationState.target_program)
             state.(ApplicationState.entity)
             state.(ApplicationState.uploaded_files)
             docs
             state.(ApplicationState.extracted_data)
             state.(ApplicationState.admission_decision)
             "documents_classified"
             state.(ApplicationState.error_message)
             (state.(ApplicationState.agent_logs) ++ logs)),
       w ++ map (λ f, LLMCall (classification_prompt env f))
              state.(ApplicationState.uploaded_files))
    ∧ (length docs ≤ length state.(ApplicationState.uploaded_files))%nat
    ∧ Forall P docs.
Proof.
  intros HP.
  destruct (classifier_effect env P state w HP) as (logs & docs & Hp & _ & Hsub & HPd & _).
  exists logs, docs. split; [|split; [|exact HPd]].
  - unfold _classify_documents_node, bind. by rewrite Hp.
  - apply sublist_length in Hsub. by rewrite length_map in Hsub.
Qed.

Lemma extract_node_effect (state : ApplicationState.t) (w : World) :
  ∃ logs xs,
    _extract_data_node env state w
    = (Ok (ApplicationState.mk
             state.(ApplicationState.application_id)
             state.(ApplicationState.applicant_id)
             state.(ApplicationState.target_program)
             state.(ApplicationState.entity)
             state.(ApplicationState.uploaded_files)
             state.(ApplicationState.classified_documents)
             xs
             state.(ApplicationState.admission_decision)
             "data_extracted"
             state.(ApplicationState.error_message)
             (state.(ApplicationState.agent_logs) ++ logs)),
       w ++ map (λ d, LLMCall (extraction_prompt env d))
              state.(ApplicationState.classified_documents))
    ∧ (length xs ≤ length state.(ApplicationState.classified_documents))%nat.
Proof.
  destruct (extractor_effect env state w) as (logs & xs & Hp & _ & Hsub & _).
  exists logs, xs. split.
  - unfold _extract_data_node, bind. by rewrite Hp.
  - apply sublist_length in Hsub. by rewrite !length_map in Hsub.
Qed.

Lemma decision_node_effect (state : ApplicationState.t) (w : World) :
  ∃ s w',
    _make_decision_node env state w = (Ok s, w')
    ∧ later_state_of state s
    ∧ ((s.(ApplicationState.current_stage) = "decision_made"
        ∧ is_Some s.(ApplicationState.admission_decision))
       ∨ (s.(ApplicationState.current_stage) = "error"
          ∧ is_Some s.(ApplicationState.error_message)
          ∧ s.(ApplicationState.admission_decision)
            = state.(ApplicationState.admission_decision))).
Proof.
  unfold _make_decision_node, bind, AdmissionDecisionAgent.process, try_except, bind.
  destruct (AdmissionDecisionAgent._check_document_completeness _) as [|d missing].
  - destruct (AdmissionDecisionAgent._evaluate_admission env _ w) as [[decision|e] w'].
    + eexists _, _. split; [reflexivity|]. split.
      * repeat split. by apply prefix_app_r.
      * left. by split.
    + eexists _, _. split; [reflexivity|]. split.
      * repeat split. by apply prefix_app_r.
      * right. by repeat split.
  - eexists _, _. split; [reflexivity|]. split.
    + repeat split. by apply prefix_app_r.
    + left. by split.
Qed.

Lemma handle_error_effect (state : ApplicationState.t) :
  later_state_of state (_handle_error_node state)
  ∧ (_handle_error_node state).(ApplicationState.current_stage) = "error_handled"
  ∧ (_handle_error_node state).(ApplicationState.admission_decision)
    = state.(ApplicationState.admission_decision)
  ∧ (_handle_error_node state).(ApplicationState.error_message)
    = state.(ApplicationState.error_message).
Proof. repeat split. by apply prefix_app_r. Qed.

(** An edge function changes nothing but the error message. *)
Lemma edge_effect (n : node) (s : ApplicationState.t) :
  (edge n s).2 = s ∨ ∃ msg, (edge n s).2 = ApplicationState.set_error_message (Some msg) s.
Proof.
  destruct n; simpl; try by left.
  - unfold _should_continue_after_classification.
    destruct (has_error_message s); [by left|].
    destruct (ApplicationState.classified_documents s) as [|d l]; [right; by eexists|].
    destruct (List.filter _ (d :: l)); [right; by eexists | by left].
  - unfold _should_continue_after_extraction.
    destruct (has_error_message s); [by left|].
    destruct (ApplicationState.extracted_data s) as [|d l]; [right; by eexists|].
    destruct (List.filter _ (d :: l)); [right; by eexists | by left].
Qed.

Lemma edge_state (n : node) (s : ApplicationState.t) :
  let s' := if edge_writes_kept env then (edge n s).2 else s in
  later_state_of s s'
  ∧ s'.(ApplicationState.current_stage) = s.(ApplicationState.current_stage)
  ∧ s'.(ApplicationState.admission_decision) = s.(ApplicationState.admission_decision)
  ∧ s'.(ApplicationState.classified_documents) = s.(ApplicationState.classified_documents)
  ∧ s'.(ApplicationState.extracted_data) = s.(ApplicationState.extracted_data).
Proof.
  intros s'. unfold s'. destruct (edge_writes_kept env); [|by repeat split].
  destruct (edge_effect n s) as [-> | [msg ->]]; by repeat split.
Qed.
End NodeEffects.

(** ** Invariants of a run of the workflow *)

Section RunInvariants.
Import AdmissionWorkflow.
Variable env : Env.

Lemma node_facts (n : node) (state : ApplicationState.t) (w : World) :
  ∃ s w',
    node_function env n state w = (Ok s, w')
    ∧ later_state_of state s
    ∧ match n with
      | make_decision =>
          (s.(ApplicationState.current_stage) = "decision_made"
           ∧ is_Some s.(ApplicationState.admission_decision))
          ∨ (s.(ApplicationState.current_stage) = "error"
             ∧ is_Some s.(ApplicationState.error_message)
             ∧ s.(ApplicationState.admission_decision)
               = state.(ApplicationState.admission_decision))
      | handle_error =>
          s.(ApplicationState.current_stage) = "error_handled"
          ∧ s.(ApplicationState.admission_decision)
            = state.(ApplicationState.admission_decision)
      | _ =>
          s.(ApplicationState.admission_decision)
          = state.(ApplicationState.admission_decision)
      end.
Proof.
  destruct n; simpl.
  - destruct (classify_node_effect env (λ _, True) state w) as (logs & docs & -> & _);
      [done|].
    eexists _, _. split; [reflexivity|]. split; [|done].
    repeat split. by apply prefix_app_r.
  - destruct (extract_node_effect env state w) as (logs & xs & -> & _).
    eexists _, _. split; [reflexivity|]. split; [|done].
    repeat split. by apply prefix_app_r.
  - destruct (decision_node_effect env state w) as (s & w' & -> & Hlater & Hs).
    by eexists _, _.
  - destruct (handle_error_effect state) as (Hlater & Hstage & Hdec & _).
    by eexists _, _.
Qed.

Lemma run_facts (steps : nat) (n : node) (state : ApplicationState.t) (w : World)
    (s : ApplicationState.t) (w' : World) :
  run env steps n state w = (Ok s, w') →
  later_state_of state s
  ∧ (state.(ApplicationState.admission_decision) = None →
     (is_Some s.(ApplicationState.admission_decision)
      ↔ s.(ApplicationState.current_stage) = "decision_made")).
Proof.
  revert n state w. induction steps as [|steps IH]; intros n state w; [discriminate|].
  rewrite run_step.
  destruct (node_facts n state w) as (s1 & w1 & -> & Hlater & Hn).
  pose proof (edge_state env n s1) as Hedge. cbv zeta in Hedge.
  destruct Hedge as (Hl2 & Hst2 & Hd2 & _).
  pose proof (edge_end n s1) as Hend.
  destruct n.
  - destruct Hend as [-> | ->]; intros Hrun; apply IH in Hrun as [Hl3 Hiff].
    + split; [by eauto using later_state_of_trans|].
      intros Hnone. apply Hiff. by rewrite Hd2, Hn.
    + split; [by eauto using later_state_of_trans|].
      intros Hnone. apply Hiff. by rewrite Hd2, Hn.
  - destruct Hend as [-> | ->]; intros Hrun; apply IH in Hrun as [Hl3 Hiff].
    + split; [by eauto using later_state_of_trans|].
      intros Hnone. apply Hiff. by rewrite Hd2, Hn.
    + split; [by eauto using later_state_of_trans|].
      intros Hnone. apply Hiff. by rewrite Hd2, Hn.
  - rewrite Hend. simpl. clear Hl2 Hst2 Hd2. intros [= <- <-].
    assert ((if edge_writes_kept env then s1 else s1) = s1) as ->
      by (by destruct (edge_writes_kept env)).
    split; [exact Hlater|]. intros Hnone.
    destruct Hn as [[-> Hsome] | (-> & _ & ->)]; [done|].
    rewrite Hnone. split; [by intros [? ?] | discriminate].
  - rewrite Hend. simpl. clear Hl2 Hst2 Hd2. intros [= <- <-].
    assert ((if edge_writes_kept env then s1 else s1) = s1) as ->
      by (by destruct (edge_writes_kept env)).
    split; [exact Hlater|]. intros Hnone. destruct Hn as [-> ->].
    rewrite Hnone. split; [by intros [? ?] | discriminate].
Qed.

Lemma invoke_returns (state : ApplicationState.t) (w : World) :
  ∃ s w',
    invoke env state w = (Ok s, w')
    ∧ process_application env state w = (Ok s, w')
    ∧ ((s.(ApplicationState.current_stage) = "decision_made"
        ∧ is_Some s.(ApplicationState.admission_decision))
       ∨ s.(ApplicationState.current_stage) = "error_handled"
       ∨ (s.(ApplicationState.current_stage) = "error"
          ∧ is_Some s.(ApplicationState.error_message))).
Proof.
  destruct (process_application_returns env state w) as (s & w' & Hrun & Hstage).
  exists s, w'. split; [|by split].
  unfold process_application, try_except in Hrun.
  destruct (invoke env state w) as [[s0|e] w0]; [exact Hrun|].
  injection Hrun as <- <-. simpl in Hstage.
  destruct Hstage as [[? _] | [? | [? _]]]; discriminate.
Qed.

(** X14.  Every run of the workflow returns a state and never raises.
    The state is the one the graph itself returns: the bound on the
    steps of the graph is not reached and the stage workflow_error is
    never set.  The stage marker is decision_made with a decision,
    error_handled, or error with an error message. *)
Theorem workflow_always_returns (state : ApplicationState.t) (w : World) :
  ∃ s w',
    invoke env state w = (Ok s, w')
    ∧ process_application env state w = (Ok s, w')
    ∧ ((s.(ApplicationState.current_stage) = "decision_made"
        ∧ is_Some s.(ApplicationState.admission_decision))
       ∨ s.(ApplicationState.current_stage) = "error_handled"
       ∨ (s.(ApplicationState.current_stage) = "error"
          ∧ is_Some s.(ApplicationState.error_message))).
Proof. apply invoke_returns. Qed.

(** X15.  A run of the workflow keeps the application: the state it
    returns has the identifiers, the target program, the entity and the
    uploaded files it was given, and its log starts with the log it was
    given (entries are only appended). *)
Theorem workflow_keeps_application (state : ApplicationState.t) (w : World) :
  ∃ s w',
    process_application env state w = (Ok s, w')
    ∧ s.(ApplicationState.application_id) = state.(ApplicationState.application_id)
    ∧ s.(ApplicationState.applicant_id) = state.(ApplicationState.applicant_id)
    ∧ s.(ApplicationState.target_program) = state.(ApplicationState.target_program)
    ∧ s.(ApplicationState.entity) = state.(ApplicationState.entity)
    ∧ s.(ApplicationState.uploaded_files) = state.(ApplicationState.uploaded_files)
    ∧ state.(ApplicationState.agent_logs) `prefix_of` s.(ApplicationState.agent_logs).
Proof.
  destruct (invoke_returns state w) as (s & w' & Hinvoke & Hrun & _).
  exists s, w'. split; [exact Hrun|].
  apply run_facts in Hinvoke as [Hlater _]. exact Hlater.
Qed.

(** X16.  For a new application, the state the workflow returns has a
    decision if and only if its stage is decision_made. *)
Theorem decision_iff_decision_made
    (application_id applicant_id target_program entity : string)
    (uploaded_files : list DocumentFile.t) (w : World) :
  ∃ s w',
    process_admission_application env application_id applicant_id target_program entity
      uploaded_files w
    = (Ok s, w')
    ∧ (is_Some s.(ApplicationState.admission_decision)
       ↔ s.(ApplicationState.current_stage) = "decision_made").
Proof.
  unfold process_admission_application.
  destruct (invoke_returns
              (ApplicationState.initial application_id applicant_id target_program entity
                 uploaded_files) w) as (s & w' & Hinvoke & Hrun & _).
  exists s, w'. split; [exact Hrun|].
  apply run_facts in Hinvoke as [_ Hiff]. by apply Hiff.
Qed.
End RunInvariants.

(** ** The gates (workflow.py) *)

Section Gates.
Import AdmissionWorkflow.
Local Open Scope Q_scope.

(** X17.  With no error message set before, the edge after extraction
    leads to the decision node if and only if some extracted record has a
    confidence strictly above 0.1; otherwise it leads to the error node,
    and the message left in the state is "No data extracted with
    sufficient confidence" when there are records and "No data was
    successfully extracted" when there are none. *)
Theorem extraction_gate (state : ApplicationState.t) :
  has_error_message state = false →
  ∃ r state',
    _should_continue_after_extraction state = (r, state')
    ∧ (r = continue
       ↔ ∃ x, x ∈ state.(ApplicationState.extracted_data)
              ∧ 1#10 < x.(ExtractedData.confidence))
    ∧ (r = continue →
       state' = state ∧ edge extract_data state = (To make_decision, state))
    ∧ (r = error →
       edge extract_data state = (To handle_error, state')
       ∧ state'.(ApplicationState.error_message)
         = Some (match state.(ApplicationState.extracted_data) with
                 | [] => "No data was successfully extracted"
                 | _ => "No data extracted with sufficient confidence"
                 end)).
Proof.
  intros Hmsg.
  pose proof (filter_nonempty
                (λ x, Qgtb x.(ExtractedData.confidence) (1#10))
                state.(ApplicationState.extracted_data)) as Hfilter.
  setoid_rewrite Qgtb_true in Hfilter.
  unfold edge, _should_continue_after_extraction. rewrite Hmsg.
  destruct state.(ApplicationState.extracted_data) as [|x xs] eqn:Hxs.
  - eexists _, _. split; [reflexivity|]. repeat split; try done.
    intros (d & Hd & _). by apply elem_of_nil in Hd.
  - destruct (List.filter _ (x :: xs)) as [|c cs] eqn:Hconf.
    + eexists _, _. split; [reflexivity|]. repeat split; try done.
      intros Hex. apply Hfilter in Hex. done.
    + eexists _, _. split; [reflexivity|]. repeat split; try done.
      intros _. by apply Hfilter.
Qed.

(** X18.  When the state already carries a non-empty error message,
    both gates lead to the error node whatever was classified or
    extracted, and leave the state, the message included, as it is. *)
Theorem gates_respect_error_message (state : ApplicationState.t) (msg : string) :
  state.(ApplicationState.error_message) = Some msg →
  msg ≠ "" →
  edge classify_documents state = (To handle_error, state)
  ∧ edge extract_data state = (To handle_error, state).
Proof.
  intros Hmsg Hne.
  assert (has_error_message state = true) as Hhas.
  { unfold has_error_message. rewrite Hmsg.
    destruct (String.eqb_spec msg ""); [done | reflexivity]. }
  unfold edge, _should_continue_after_classification, _should_continue_after_extraction.
  by rewrite Hhas.
Qed.
End Gates.

(** ** Runs that stop after classification *)

Section StopsAfterClassification.
Import AdmissionWorkflow.
Local Open Scope Q_scope.
Variable env : Env.

(** X19.  An application without uploaded files makes no outbound call
    at all: the workflow returns with stage error_handled, no classified
    document, no decision, and a log that holds the entry of the
    error-handling node only; when the graph keeps what the gate wrote,
    the error message is "No documents were successfully classified". *)
Theorem no_files_no_calls (application_id applicant_id target_program entity : string)
    (w : World) :
  ∃ s,
    process_admission_application env application_id applicant_id target_program entity [] w
    = (Ok s, w)
    ∧ s.(ApplicationState.current_stage) = "error_handled"
    ∧ s.(ApplicationState.classified_documents) = []
    ∧ s.(ApplicationState.admission_decision) = None
    ∧ map LogEntry.action s.(ApplicationState.agent_logs) = ["handle_error"]
    ∧ (edge_writes_kept env = true →
       s.(ApplicationState.error_message)
       = Some "No documents were successfully classified").
Proof.
  unfold process_admission_application, process_application, try_except, invoke,
    recursion_limit, entry_point.
  rewrite run_step. cbn -[run]. rewrite run_step. cbn -[run].
  destruct (edge_writes_kept env); cbn; eexists; (split; [reflexivity|]);
    by repeat split.
Qed.

Lemma filter_all_false {A} (f : A → bool) (l : list A) :
  Forall (λ x, f x = false) l → List.filter f l = [].
Proof.
  induction 1 as [|x l Hx _ IH]; [done|]. simpl. by rewrite Hx.
Qed.

(** A batch in which every confidence is 0.1 does not pass the gate. *)
Lemma gate_rejects_fallbacks (s : ApplicationState.t) :
  Forall (λ d, d.(ClassifiedDocument.confidence) = 1#10)
    s.(ApplicationState.classified_documents) →
  (edge classify_documents s).1 = To handle_error.
Proof.
  intros Hall. simpl. unfold _should_continue_after_classification.
  destruct (has_error_message s); [done|].
  destruct (ApplicationState.classified_documents s) as [|d l] eqn:E; [done|].
  rewrite filter_all_false; [done|].
  eapply Forall_impl; [exact Hall|]. intros x ->. reflexivity.
Qed.

Lemma classify_malformed (file : DocumentFile.t) (w : World) (doc : ClassifiedDocument.t)
    (w' : World) :
  (∀ w0 f text,
     llm env w0 (classification_prompt env f) = Ok text → json_loads env text = None) →
  DocumentClassifierAgent._classify_single_document env file w = (Ok doc, w') →
  doc.(ClassifiedDocument.document_type) = "other"
  ∧ doc.(ClassifiedDocument.confidence) = 1#10.
Proof.
  intros Hbad. unfold DocumentClassifierAgent._classify_single_document, bind, call_llm.
  fold (classification_prompt env file).
  destruct (llm env w (classification_prompt env file)) as [text|e] eqn:Hllm;
    [|discriminate].
  unfold try_except, bind, loads. rewrite (Hbad _ _ _ Hllm). simpl.
  by intros [= <- <-].
Qed.

(** X20.  When no answer of the model to a classification call is
    JSON, the workflow stops after classification: it returns with stage
    error_handled, the decision and the extracted data it was given, and
    classified documents that are all "other" with confidence 0.1; the
    only outbound calls are the classification calls, one per file. *)
Theorem malformed_classification_stops (state : ApplicationState.t) (w : World) :
  (∀ w0 f text,
     llm env w0 (classification_prompt env f) = Ok text → json_loads env text = None) →
  ∃ s,
    process_application env state w
    = (Ok s,
       w ++ map (λ f, LLMCall (classification_prompt env f))
              state.(ApplicationState.uploaded_files))
    ∧ s.(ApplicationState.current_stage) = "error_handled"
    ∧ s.(ApplicationState.admission_decision) = state.(ApplicationState.admission_decision)
    ∧ s.(ApplicationState.extracted_data) = state.(ApplicationState.extracted_data)
    ∧ Forall (λ d, d.(ClassifiedDocument.document_type) = "other"
                   ∧ d.(ClassifiedDocument.confidence) = 1#10)
        s.(ApplicationState.classified_documents).
Proof.
  intros Hbad.
  destruct (classify_node_effect env
              (λ d, d.(ClassifiedDocument.document_type) = "other"
                    ∧ d.(ClassifiedDocument.confidence) = 1#10) state w)
    as (logs & docs & Hnode & _ & Hall).
  { intros file w0 doc w' Hrun. by eapply classify_malformed. }
  unfold process_application, try_except, invoke, recursion_limit, entry_point.
  rewrite run_step. cbn [node_function]. rewrite Hnode.
  set (s1 := ApplicationState.mk _ _ _ _ _ docs _ _ _ _ _).
  rewrite (gate_rejects_fallbacks s1) by (eapply Forall_impl; [exact Hall|]; by intros ? [_ ?]).
  rewrite run_step. cbn [node_function]. unfold ret.
  pose proof (edge_state env classify_documents s1) as Hedge. cbv zeta in Hedge.
  destruct Hedge as (_ & _ & Hdec & Hdocs & Hxs).
  set (s2 := if edge_writes_kept env then (edge classify_documents s1).2 else s1) in *.
  cbn [edge fst snd].
  eexists. split; [reflexivity|].
  destruct (edge_writes_kept env) eqn:Hkept; simpl; rewrite ?Hdec, ?Hdocs, ?Hxs;
    by repeat split.
Qed.
End StopsAfterClassification.

(** ** The gate after classification in a run *)

Section ClassificationGateInRun.
Import AdmissionWorkflow.
Local Open Scope Q_scope.
Variable env : Env.

End ClassificationGateInRun.

Section ClassificationGateInstance.
Import AdmissionWorkflow Examples.
Local Open Scope Q_scope.

End ClassificationGateInstance.

(** ** The number of outbound calls of a run *)

Section CallBound.
Import AdmissionWorkflow.
Variable env : Env.

Lemma llm_calls_app (a b : World) : llm_calls (a ++ b) = (llm_calls a + llm_calls b)%nat.
Proof. unfold llm_calls. by rewrite List.filter_app, length_app. Qed.

Lemma rag_calls_app (a b : World) : rag_calls (a ++ b) = (rag_calls a + rag_calls b)%nat.
Proof. unfold rag_calls. by rewrite List.filter_app, length_app. Qed.

Lemma llm_calls_map_llm {A} (f : A → prompt) (l : list A) :
  llm_calls (map (λ x, LLMCall (f x)) l) = length l
  ∧ rag_calls (map (λ x, LLMCall (f x)) l) = 0%nat.
Proof.
  unfold llm_calls, rag_calls. induction l as [|x l [IH1 IH2]]; [done|].
  simpl. by rewrite IH1, IH2.
Qed.

Lemma calls_map_rag (l : list string) :
  llm_calls (map RAGQuery l) = 0%nat ∧ rag_calls (map RAGQuery l) = length l.
Proof.
  unfold llm_calls, rag_calls. induction l as [|x l [IH1 IH2]]; [done|].
  simpl. by rewrite IH1, IH2.
Qed.

Lemma calls_single (p : prompt) :
  llm_calls [LLMCall p] = 1%nat ∧ rag_calls [LLMCall p] = 0%nat.
Proof. by split. Qed.

Lemma decision_node_calls (state : ApplicationState.t) (w : World) :
  ∃ s new,
    _make_decision_node env state w = (Ok s, w ++ new)
    ∧ (llm_calls new ≤ 1)%nat
    ∧ (rag_calls new ≤ 1 + 2 * length state.(ApplicationState.extracted_data))%nat.
Proof.
  destruct (decision_stage_effect env state w) as (s & w' & Hp & Hw).
  unfold _make_decision_node, bind. rewrite Hp.
  destruct Hw as [[_ ->] | (_ & results & _ & _ & ->)].
  - eexists _, []. rewrite app_nil_r. split; [reflexivity|].
    unfold llm_calls, rag_calls. simpl. split; lia.
  - eexists _, _. split; [reflexivity|].
    rewrite llm_calls_app, rag_calls_app.
    destruct (calls_map_rag
                (AdmissionDecisionAgent.build_queries state.(ApplicationState.target_program)
                   (AdmissionDecisionAgent._build_applicant_profile state))) as [-> ->].
    pose proof (build_queries_length state).
    destruct (calls_single (decision_prompt state results)) as [-> ->]. split; lia.
Qed.

Lemma workflow_calls (state : ApplicationState.t) (w : World) :
  ∃ s new,
    process_application env state w = (Ok s, w ++ new)
    ∧ (llm_calls new ≤ 2 * length state.(ApplicationState.uploaded_files) + 1)%nat
    ∧ (rag_calls new ≤ 1 + 2 * length state.(ApplicationState.uploaded_files))%nat.
Proof.
  destruct (classify_node_effect env (λ _, True) state w)
    as (logs & docs & Hnode & Hdocs & _); [done|].
  unfold process_application, try_except, invoke, recursion_limit, entry_point.
  rewrite run_step. cbn [node_function]. rewrite Hnode.
  set (files := state.(ApplicationState.uploaded_files)) in *.
  set (C := map (λ f, LLMCall (classification_prompt env f)) files).
  destruct (llm_calls_map_llm (classification_prompt env) files) as [HC1 HC2].
  fold C in HC1, HC2.
  set (s1 := ApplicationState.mk _ _ _ _ _ docs _ _ _ _ _).
  pose proof (edge_state env classify_documents s1) as Hedge1. cbv zeta in Hedge1.
  destruct Hedge1 as (_ & _ & _ & Hcd1 & _).
  set (s1' := if edge_writes_kept env then (edge classify_documents s1).2 else s1) in *.
  destruct (edge_end classify_documents s1) as [-> | ->].
  - rewrite run_step. cbn [node_function].
    destruct (extract_node_effect env s1' (w ++ C)) as (logs2 & xs & -> & Hxs).
    rewrite Hcd1 in *. cbn [ApplicationState.classified_documents s1] in *.
    set (E := map (λ d, LLMCall (extraction_prompt env d)) docs).
    destruct (llm_calls_map_llm (extraction_prompt env) docs) as [HE1 HE2].
    fold E in HE1, HE2.
    set (s2 := ApplicationState.mk _ _ _ _ _ _ xs _ _ _ _).
    pose proof (edge_state env extract_data s2) as Hedge2. cbv zeta in Hedge2.
    destruct Hedge2 as (_ & _ & _ & _ & Hxd2).
    set (s2' := if edge_writes_kept env then (edge extract_data s2).2 else s2) in *.
    destruct (edge_end extract_data s2) as [-> | ->].
    + rewrite run_step. cbn [node_function].
      destruct (decision_node_calls s2' ((w ++ C) ++ E)) as (s3 & D & -> & HD1 & HD2).
      rewrite Hxd2 in HD2. cbn [ApplicationState.extracted_data s2] in HD2.
      cbn [edge fst snd].
      exists (if edge_writes_kept env then s3 else s3), (C ++ E ++ D).
      split; [by rewrite !app_assoc|].
      rewrite !llm_calls_app, !rag_calls_app, HC1, HC2, HE1, HE2. split; lia.
    + rewrite run_step. cbn [node_function edge fst snd]. unfold ret.
      eexists _, (C ++ E). split; [by rewrite !app_assoc|].
      rewrite !llm_calls_app, !rag_calls_app, HC1, HC2, HE1, HE2. split; lia.
  - rewrite run_step. cbn [node_function edge fst snd]. unfold ret.
    eexists _, C. split; [reflexivity|]. rewrite HC1, HC2. split; lia.
Qed.

(** X21.  A run of the workflow makes at most twice as many model
    calls as there are uploaded files, plus one, and puts at most one
    plus twice as many questions to the retriever as there are uploaded
    files. *)
Theorem workflow_call_bound (state : ApplicationState.t) (w : World) :
  ∃ s new,
    process_application env state w = (Ok s, w ++ new)
    ∧ (llm_calls new ≤ 2 * length state.(ApplicationState.uploaded_files) + 1)%nat
    ∧ (rag_calls new ≤ 1 + 2 * length state.(ApplicationState.uploaded_files))%nat.
Proof. apply workflow_calls. Qed.
End CallBound.

(** ** Loading and chunking the handbook (rag/handbook_loader.py) *)

Section Handbook.
Import HandbookLoader.
Variable pdf_path : string.
Variable split_text : string → list string.
Variable strip : string → string.

Lemma elem_of_concat_map {A B} (f : A → list B) (l : list A) (x : B) :
  x ∈ concat (map f l) ↔ ∃ y, y ∈ l ∧ x ∈ f y.
Proof.
  induction l as [|a l IH]; simpl.
  - split; [by intros ?%elem_of_nil | by intros (y & ?%elem_of_nil & _)].
  - rewrite elem_of_app, IH. split.
    + intros [Hx | (y & Hy & Hx)]; [exists a; split; [left | done] | exists y; split; [by right | done]].
    + intros (y & Hy & Hx). apply elem_of_cons in Hy as [-> | Hy]; [by left | right; by exists y].
Qed.

Lemma imap_content (f : nat → string → Document.t) (l : list string) :
  (∀ i x, Document.page_content (f i x) = x) →
  map Document.page_content (imap f l) = l.
Proof.
  revert f. induction l as [|x l IH]; intros f Hf; [done|].
  rewrite imap_cons. cbn [map]. rewrite Hf, IH; [done|]. intros i y. apply Hf.
Qed.

Lemma imap_page_content (doc : Document.t) (n : nat) (l : list string) :
  map Document.page_content (imap (chunk_document doc n) l) = l.
Proof. by apply imap_content. Qed.

(** X22.  Chunking keeps the text and the attribution of every page:
    the chunk texts are the pieces of the splitter, page after page, in
    order; and every chunk is piece number [i] of some page, carries
    chunk_index [i] and chunk_total the number of pieces of that page, so
    that the index is below the total, and has every other metadata key
    of its page unchanged. *)
Theorem chunk_documents_attribution (documents : list Document.t) :
  map Document.page_content (chunk_documents split_text documents)
  = concat (map (λ doc, split_text doc.(Document.page_content)) documents)
  ∧ ∀ chunk, chunk ∈ chunk_documents split_text documents →
      ∃ doc i,
        doc ∈ documents
        ∧ split_text doc.(Document.page_content) !! i = Some chunk.(Document.page_content)
        ∧ chunk.(Document.metadata) !! "chunk_index" = Some (JInt i)
        ∧ chunk.(Document.metadata) !! "chunk_total"
          = Some (JInt (length (split_text doc.(Document.page_content))))
        ∧ (i < length (split_text doc.(Document.page_content)))%nat
        ∧ ∀ key, key ≠ "chunk_index" → key ≠ "chunk_total" →
                 chunk.(Document.metadata) !! key = doc.(Document.metadata) !! key.
Proof.
  split.
  - unfold chunk_documents. induction documents as [|doc docs IH]; [done|].
    cbn [map concat]. rewrite map_app, IH. f_equal.
    apply imap_page_content.
  - intros chunk Hin. unfold chunk_documents in Hin.
    apply elem_of_concat_map in Hin as (doc & Hdoc & Hchunk).
    unfold chunks_of in Hchunk.
    apply elem_of_lookup_imap in Hchunk as (i & text & -> & Hi).
    exists doc, i. split; [exact Hdoc|]. split; [exact Hi|]. simpl.
    split; [by rewrite lookup_insert_ne, lookup_insert_eq|].
    split; [by rewrite lookup_insert_eq|].
    split; [by eapply lookup_lt_Some|].
    intros key H1 H2. by rewrite !lookup_insert_ne.
Qed.

Lemma elem_of_pages_from (total_pages start : nat) (pages : list string)
    (doc : Document.t) :
  doc ∈ pages_from pdf_path strip total_pages start pages
  ↔ ∃ i text,
      pages !! i = Some text
      ∧ strip text ≠ ""
      ∧ doc = page_document pdf_path total_pages (start + i) text.
Proof.
  revert start. induction pages as [|text rest IH]; intros start.
  - simpl. split; [by intros ?%elem_of_nil | by intros (i & t & ? & _)].
  - cbn [pages_from]. rewrite elem_of_app, IH. split.
    + intros [Hhere | (i & t & Hi & Hne & ->)].
      * destruct (String.eqb_spec (strip text) ""); [by apply elem_of_nil in Hhere|].
        apply list_elem_of_singleton in Hhere as ->.
        exists 0%nat, text. by rewrite Nat.add_0_r.
      * exists (S i), t. by rewrite Nat.add_succ_r.
    + intros ([|i] & t & Hi & Hne & ->).
      * left. injection Hi as ->. rewrite Nat.add_0_r.
        destruct (String.eqb_spec (strip t) ""); [done|]. by apply list_elem_of_singleton.
      * right. exists i, t. by rewrite Nat.add_succ_r.
Qed.

Lemma pages_from_content (total_pages start : nat) (pages : list string) :
  map Document.page_content (pages_from pdf_path strip total_pages start pages)
  = List.filter (λ text, negb (String.eqb (strip text) "")) pages.
Proof.
  revert start. induction pages as [|text rest IH]; intros start; [done|].
  cbn [pages_from List.filter]. rewrite map_app, IH.
  by destruct (String.eqb (strip text) "").
Qed.

(** X23.  [load_pdf] on a readable PDF returns one document per page
    whose text is not blank, in page order and with the text of the page;
    each document carries the path as source, the number of pages of the
    PDF, blank ones included, as total_pages, and as page the position of
    its page in the PDF counted from 1, blank pages included. *)
Theorem load_pdf_page_numbers (pages : list string) :
  ∃ documents,
    load_pdf pdf_path strip (Some (Ok pages)) = Ok documents
    ∧ map Document.page_content documents
      = List.filter (λ text, negb (String.eqb (strip text) "")) pages
    ∧ ∀ doc, doc ∈ documents →
        ∃ page,
          (1 ≤ page ≤ length pages)%nat
          ∧ pages !! (page - 1)%nat = Some doc.(Document.page_content)
          ∧ doc.(Document.metadata) !! "page" = Some (JInt page)
          ∧ doc.(Document.metadata) !! "total_pages" = Some (JInt (length pages))
          ∧ doc.(Document.metadata) !! "source" = Some (JStr pdf_path).
Proof.
  eexists. split; [reflexivity|]. split; [apply pages_from_content|].
  intros doc Hdoc. apply elem_of_pages_from in Hdoc as (i & text & Hi & Hne & ->).
  exists (1 + i)%nat. pose proof (lookup_lt_Some _ _ _ Hi) as Hlt.
  cbn [Document.page_content page_document].
  split; [lia|]. split.
  { replace (1 + i - 1)%nat with i by lia. exact Hi. }
  unfold page_document. cbn [Document.metadata Document.page_content].
  split; [by rewrite lookup_insert_ne, lookup_insert_eq|].
  split; [by rewrite !lookup_insert_ne by done; rewrite lookup_insert_eq|].
  by rewrite lookup_insert_eq.
Qed.

(** X24.  Every chunk [process_handbook] returns is attributed to the
    page it was cut from: its page metadata is the position, counted from
    1, of a page of the PDF, its source is the path, and its text is one
    of the pieces the splitter makes of the text of that page. *)
Theorem process_handbook_attribution (pages : list string) :
  ∃ chunks,
    process_handbook pdf_path split_text strip (Some (Ok pages)) = Ok chunks
    ∧ ∀ chunk, chunk ∈ chunks →
        ∃ page text,
          (1 ≤ page)%nat
          ∧ pages !! (page - 1)%nat = Some text
          ∧ chunk.(Document.metadata) !! "page" = Some (JInt page)
          ∧ chunk.(Document.metadata) !! "source" = Some (JStr pdf_path)
          ∧ chunk.(Document.page_content) ∈ split_text text.
Proof.
  eexists. split; [reflexivity|]. intros chunk Hin.
  unfold chunk_documents in Hin.
  apply elem_of_concat_map in Hin as (doc & Hdoc & Hchunk).
  apply elem_of_pages_from in Hdoc as (i & text & Hi & Hne & ->).
  unfold chunks_of in Hchunk.
  apply elem_of_lookup_imap in Hchunk as (j & piece & -> & Hj).
  exists (1 + i)%nat, text. split; [lia|]. split.
  { replace (1 + i - 1)%nat with i by lia. exact Hi. }
  unfold chunk_document, page_document. cbn [Document.metadata Document.page_content].
  split; [by rewrite !lookup_insert_ne by done; rewrite lookup_insert_eq|].
  split; [by rewrite !lookup_insert_ne by done; rewrite lookup_insert_eq|].
  by eapply list_elem_of_lookup_2.
Qed.
End Handbook.

(** ** The vector store and the retriever (rag/vector_store.py, rag/retriever.py) *)

Section Store.
Variable Index : Type.
Variable backend : Rag.Backend Index.

(** X25.  Whenever [create_or_load_index] returns an index, the store
    holds exactly that index afterwards, and the index was either loaded
    from the persisted directory and answered the probe query, or built
    from documents and persisted; the handbook is read at most once and
    an index is built at most once. *)
Theorem create_or_load_index_store (documents : option (list Document.t))
    (vector_store : option Index) :
  match Rag.create_or_load_index Index backend documents vector_store with
  | (r, vector_store', events) =>
      (length (List.filter (λ ev, match ev with Rag.ReadHandbook => true | _ => false end)
                 events) ≤ 1)%nat
      ∧ (length (List.filter (λ ev, match ev with Rag.BuildIndex _ => true | _ => false end)
                   events) ≤ 1)%nat
      ∧ ∀ index, r = Ok index →
          vector_store' = Some index
          ∧ ((Rag.load Index backend = Ok index
              ∧ (∃ found, Rag.similarity_search Index backend index "test" 1 None = Ok found)
              ∧ events = [Rag.LoadIndex; Rag.Search "test" 1])
             ∨ (∃ docs, Rag.from_documents Index backend docs = Ok index
                        ∧ Rag.persist Index backend index = Ok ()
                        ∧ (Rag.BuildIndex docs ∈ events)
                        ∧ (Rag.PersistIndex ∈ events)))
  end.
Proof.
  assert (∀ docs vs,
            match Rag.build Index backend docs vs with
            | (r, vs', events) =>
                events = [Rag.BuildIndex docs]
                ∨ events = [Rag.BuildIndex docs; Rag.PersistIndex]
            end
            ∧ ∀ index, (Rag.build Index backend docs vs).1.1 = Ok index →
                (Rag.build Index backend docs vs).1.2 = Some index
                ∧ Rag.from_documents Index backend docs = Ok index
                ∧ Rag.persist Index backend index = Ok ()
                ∧ (Rag.build Index backend docs vs).2
                  = [Rag.BuildIndex docs; Rag.PersistIndex]) as Hbuild.
  { intros docs vs. unfold Rag.build.
    destruct (Rag.from_documents Index backend docs) as [index|e]; simpl.
    - destruct (Rag.persist Index backend index) as [[]|e] eqn:Hp; simpl.
      + split; [by right|]. by intros ? [= <-].
      + split; [by right|]. discriminate.
    - split; [by left|]. discriminate. }
  assert (∀ vs,
            match Rag.rebuild Index backend vs with
            | (r, vs', events) =>
                (length (List.filter
                           (λ ev, match ev with Rag.ReadHandbook => true | _ => false end)
                           events) ≤ 1)%nat
                ∧ (length (List.filter
                             (λ ev, match ev with Rag.BuildIndex _ => true | _ => false end)
                             events) ≤ 1)%nat
                ∧ (Rag.LoadIndex ∉ events)
                ∧ ∀ index, r = Ok index →
                    vs' = Some index
                    ∧ ∃ docs, Rag.from_documents Index backend docs = Ok index
                              ∧ Rag.persist Index backend index = Ok ()
                              ∧ (Rag.BuildIndex docs ∈ events)
                              ∧ (Rag.PersistIndex ∈ events)
            end) as Hrebuild.
  { intros vs. unfold Rag.rebuild.
    destruct (Rag.read_handbook Index backend) as [chunks|e].
    - destruct (Hbuild chunks vs) as [Hev Hok].
      destruct (Rag.build Index backend chunks vs) as [[r vs'] events]. simpl in *.
      split; [destruct Hev as [-> | ->]; simpl; lia|].
      split; [destruct Hev as [-> | ->]; simpl; lia|].
      split.
      { destruct Hev as [-> | ->]; rewrite ?elem_of_cons, elem_of_nil; intros H;
          repeat destruct H as [H|H]; done. }
      intros index ->. destruct (Hok index eq_refl) as (-> & Hf & Hp & ->).
      split; [done|]. exists chunks. rewrite !elem_of_cons. tauto.
    - simpl. split; [lia|]. split; [lia|]. split; [|discriminate].
      rewrite elem_of_cons, elem_of_nil. intros [?|?]; done. }
  assert (∀ vs,
            match Rag.rebuild Index backend vs with
            | (r, vs', events) =>
                (length (List.filter
                           (λ ev, match ev with Rag.ReadHandbook => true | _ => false end)
                           events) ≤ 1)%nat
                ∧ (length (List.filter
                             (λ ev, match ev with Rag.BuildIndex _ => true | _ => false end)
                             events) ≤ 1)%nat
                ∧ ∀ index, r = Ok index →
                    vs' = Some index
                    ∧ ((Rag.load Index backend = Ok index
                        ∧ (∃ found, Rag.similarity_search Index backend index "test" 1 None
                                    = Ok found)
                        ∧ events = [Rag.LoadIndex; Rag.Search "test" 1])
                       ∨ (∃ docs, Rag.from_documents Index backend docs = Ok index
                                  ∧ Rag.persist Index backend index = Ok ()
                                  ∧ (Rag.BuildIndex docs ∈ events)
                                  ∧ (Rag.PersistIndex ∈ events)))
            end) as Hrebuild'.
  { intros vs. specialize (Hrebuild vs).
    destruct (Rag.rebuild Index backend vs) as [[r vs'] events].
    destruct Hrebuild as (H1 & H2 & _ & H4). split; [done|]. split; [done|].
    intros index Hr. destruct (H4 index Hr) as [-> Hb]. split; [done|]. by right. }
  unfold Rag.create_or_load_index.
  destruct documents as [[|d ds]|].
  2:{ destruct (Hbuild (d :: ds) vector_store) as [Hev Hok].
      destruct (Rag.build Index backend (d :: ds) vector_store) as [[r vs'] events].
      simpl in *.
      split; [destruct Hev as [-> | ->]; simpl; lia|].
      split; [destruct Hev as [-> | ->]; simpl; lia|].
      intros index ->. destruct (Hok index eq_refl) as (-> & Hf & Hp & ->).
      split; [done|]. right. exists (d :: ds). rewrite !elem_of_cons. tauto. }
  all: destruct (Rag.path_exists Index backend); [|apply Hrebuild'].
  all: destruct (Rag.load Index backend) as [index|e] eqn:Hload.
  all: try (specialize (Hrebuild vector_store);
            destruct (Rag.rebuild Index backend vector_store) as [[r vs'] events];
            destruct Hrebuild as (H1 & H2 & _ & H4); simpl;
            split; [done|]; split; [done|];
            intros index0 Hr; destruct (H4 index0 Hr) as [-> (docs & ? & ? & ? & ?)];
            split; [done|]; right; exists docs; rewrite !elem_of_cons; tauto).
  all: destruct (Rag.similarity_search Index backend index "test" 1 None) as [found|e]
         eqn:Hprobe.
  all: try (simpl; split; [lia|]; split; [lia|]; intros ? [= <-]; split; [done|]; left;
            split; [done|]; split; [by exists found | done]).
  all: specialize (Hrebuild (Some index));
       destruct (Rag.rebuild Index backend (Some index)) as [[r vs'] events];
       destruct Hrebuild as (H1 & H2 & _ & H4); simpl;
       split; [done|]; split; [done|];
       intros index0 Hr; destruct (H4 index0 Hr) as [-> (docs & ? & ? & ? & ?)];
       split; [done|]; right; exists docs; rewrite !elem_of_cons; tauto.
Qed.
End Store.

Section Retriever.
Variable Index : Type.
Variable backend : Rag.Backend Index.

(** X26.  The load path heals itself: when the handbook can be read
    and an index can be built from its chunks and persisted,
    [create_or_load_index] without documents returns an index and leaves
    it in the store, whether or not a persisted directory exists, can be
    loaded, or answers the probe query.  The index returned is the
    rebuilt one unless the persisted one loaded and answered the probe. *)
Theorem create_or_load_index_heals (chunks : list Document.t) (rebuilt : Index)
    (vector_store : option Index) :
  Rag.read_handbook Index backend = Ok chunks →
  Rag.from_documents Index backend chunks = Ok rebuilt →
  Rag.persist Index backend rebuilt = Ok () →
  ∃ index events,
    Rag.create_or_load_index Index backend None vector_store = (Ok index, Some index, events)
    ∧ (index = rebuilt
       ∨ (Rag.load Index backend = Ok index
          ∧ ∃ found, Rag.similarity_search Index backend index "test" 1 None = Ok found)).
Proof.
  intros Hread Hbuild Hpersist.
  assert (∀ vs, Rag.rebuild Index backend vs
                = (Ok rebuilt, Some rebuilt,
                   [Rag.ReadHandbook; Rag.BuildIndex chunks; Rag.PersistIndex])) as Hrebuild.
  { intros vs. unfold Rag.rebuild, Rag.build. by rewrite Hread, Hbuild, Hpersist. }
  unfold Rag.create_or_load_index.
  destruct (Rag.path_exists Index backend).
  - destruct (Rag.load Index backend) as [index|e].
    + destruct (Rag.similarity_search Index backend index "test" 1 None) as [found|e]
        eqn:Hprobe.
      * eexists _, _. split; [reflexivity|]. right. split; [done | by exists found].
      * rewrite Hrebuild. eexists _, _. split; [reflexivity | by left].
    + rewrite Hrebuild. eexists _, _. split; [reflexivity | by left].
  - rewrite Hrebuild. eexists _, _. split; [reflexivity | by left].
Qed.

End Retriever.

Section Sources.




End Sources.

Section Wiring.
Variable Index : Type.
Variable backend : Rag.Backend Index.
Variable env : Env.

(** X29.  A decision agent whose retriever was created and never
    initialized - [AdmissionDecisionAgent.__init__] creates it so, and
    neither the agent nor the workflow initializes it - gets no rule
    answer: every question it puts fails, and when the documents are
    complete the decision synthesis is called on a prompt without any
    rule result. *)
Theorem uninitialized_retriever_gives_no_rules (state : ApplicationState.t) (w : World) :
  rag env = Rag.rag_of Index backend (Rag.new_store Index) →
  AdmissionDecisionAgent._check_document_completeness state = [] →
  (∀ w0 question,
     rag env w0 question
     = Raise (ExternalError "RAG system not initialized. Call initialize() first."))
  ∧ ∃ s,
      AdmissionDecisionAgent.process env state w
      = (Ok s,
         w ++ map RAGQuery
                (AdmissionDecisionAgent.build_queries state.(ApplicationState.target_program)
                   (AdmissionDecisionAgent._build_applicant_profile state))
           ++ [LLMCall (decision_prompt state [])]).
Proof.
  intros Hrag Hcheck.
  assert (∀ w0 question,
            rag env w0 question
            = Raise (ExternalError "RAG system not initialized. Call initialize() first."))
    as Hfail by (intros w0 question; by rewrite Hrag).
  split; [exact Hfail|].
  destruct (decision_stage_effect env state w) as (s & w' & Hp & Hw).
  exists s. rewrite Hp. f_equal.
  destruct Hw as [[Hne _] | (_ & results & _ & Hnone & ->)]; [done|].
  rewrite Hnone; [done|]. intros w0 q. eexists. apply Hfail.
Qed.
End Wiring.

(** ** A batch of answers that are not JSON *)

Section SentinelBatch.
Import DataExtractionAgent AdmissionWorkflow.
Local Open Scope Q_scope.
Variable env : Env.

Lemma extract_loop_with (P : ExtractedData.t → Prop) (docs : list ClassifiedDocument.t)
    (w : World) :
  (∀ d w0 x w', _extract_from_document env d w0 = (Ok x, w') → P x) →
  ∃ logs xs,
    (∀ state extracted_data,
       extract_loop env docs state extracted_data w
       = (Ok (ApplicationState.set_agent_logs
                (state.(ApplicationState.agent_logs) ++ logs) state,
              extracted_data ++ xs),
          w ++ map (λ d, LLMCall (extraction_prompt env d)) docs))
    ∧ Forall P xs.
Proof.
  intros HP. revert w. induction docs as [|d rest IH]; intros w.
  - exists [], []. split; [|constructor].
    intros state acc. simpl. unfold ret.
    by rewrite set_agent_logs_nil, !app_nil_r.
  - pose proof (extract_outcome env d w) as Hd.
    pose proof (HP d w) as HPd.
    destruct (_extract_from_document env d w) as [r w1] eqn:Hrun.
    destruct (IH w1) as (logs & xs & Hrest & Hall).
    exists (extraction_log d r :: logs), (extracted_of r ++ xs).
    assert (w1 = w ++ [LLMCall (extraction_prompt env d)]) as Hw.
    { destruct r; tauto. }
    split.
    + intros state acc. rewrite extract_loop_cons, Hrun, Hrest.
      rewrite set_agent_logs_app, <- app_assoc. subst w1.
      by rewrite <- app_assoc.
    + destruct r as [x|e]; simpl; [|exact Hall].
      constructor; [by eapply HPd | exact Hall].
Qed.

Lemma extract_malformed (d : ClassifiedDocument.t) (w : World) (x : ExtractedData.t)
    (w' : World) :
  (∀ w0 d0 text,
     llm env w0 (extraction_prompt env d0) = Ok text → json_loads env text = None) →
  _extract_from_document env d w = (Ok x, w') →
  x = extraction_sentinel d.
Proof.
  intros Hbad Hrun.
  unfold _extract_from_document, bind, call_llm in Hrun.
  fold (extraction_prompt env d) in Hrun.
  destruct (llm env w (extraction_prompt env d)) as [text|e] eqn:Hllm; [|discriminate].
  unfold try_except_JSONDecodeError, bind, loads in Hrun.
  rewrite (Hbad _ _ _ Hllm) in Hrun. simpl in Hrun. by injection Hrun as <- _.
Qed.

(** A batch in which every confidence is 0 does not pass the gate. *)
Lemma gate_rejects_zero (s : ApplicationState.t) :
  Forall (λ x, x.(ExtractedData.confidence) = 0) s.(ApplicationState.extracted_data) →
  (edge extract_data s).1 = To handle_error.
Proof.
  intros Hall. simpl. unfold _should_continue_after_extraction.
  destruct (has_error_message s); [done|].
  destruct (ApplicationState.extracted_data s) as [|x l] eqn:E; [done|].
  rewrite filter_all_false; [done|].
  eapply Forall_impl; [exact Hall|]. intros y ->. reflexivity.
Qed.

(** X30.  When no answer of the model to an extraction call is JSON,
    the extraction stage still returns, every record it extracts has
    confidence 0.0 and the sentinel data with the key "error", and the
    gate after extraction leads to the error node. *)
Theorem malformed_extraction_is_rejected (state : ApplicationState.t) (w : World) :
  (∀ w0 d text,
     llm env w0 (extraction_prompt env d) = Ok text → json_loads env text = None) →
  ∃ s w',
    DataExtractionAgent.process env state w = (Ok s, w')
    ∧ Forall (λ x, x.(ExtractedData.confidence) = 0
                   ∧ is_Some (x.(ExtractedData.data) !! "error"))
        s.(ApplicationState.extracted_data)
    ∧ (edge extract_data s).1 = To handle_error.
Proof.
  intros Hbad.
  destruct (extract_loop_with
              (λ x, x.(ExtractedData.confidence) = 0
                    ∧ is_Some (x.(ExtractedData.data) !! "error"))
              state.(ApplicationState.classified_documents) w)
    as (logs & xs & Hloop & Hall).
  { intros d w0 x w' Hrun. rewrite (extract_malformed d w0 x w' Hbad Hrun).
    split; [reflexivity|]. simpl. by rewrite lookup_singleton_eq. }
  eexists _, _. split.
  { unfold DataExtractionAgent.process, bind. simpl. rewrite Hloop. reflexivity. }
  split; [exact Hall|].
  apply gate_rejects_zero. simpl.
  eapply Forall_impl; [exact Hall|]. by intros y [-> _].
Qed.
End SentinelBatch.

(** ** The further properties at concrete inputs *)

Section MoreInstances.
Import Examples MoreExamples.
Local Open Scope Q_scope.

Lemma extraction_parse_failure_witness :
  DataExtractionAgent._extract_from_document (scripted_env None None None)
    classified_transcript []
  = (Ok (extraction_sentinel classified_transcript),
     [LLMCall (extraction_prompt (scripted_env None None None) classified_transcript)]).
Proof.
  exact (proj1 (extraction_parse_failure (scripted_env None None None)
                  classified_transcript [] "extraction answer" eq_refl eq_refl)).
Defined.

Lemma extraction_non_object_raises_witness :
  ∃ e,
    DataExtractionAgent._extract_from_document
      (scripted_env None (Some (JArr [JStr "IU"])) None) classified_transcript []
    = (Raise e,
       [LLMCall (extraction_prompt (scripted_env None (Some (JArr [JStr "IU"])) None)
                   classified_transcript)])
    ∧ (e = TypeError ∨ e = AttributeError ∨ e = ValidationError).
Proof.
  apply (extraction_non_object_raises (scripted_env None (Some (JArr [JStr "IU"])) None)
           classified_transcript [] "extraction answer" (JArr [JStr "IU"]));
    [reflexivity | reflexivity | discriminate].
Defined.

Lemma classification_covers_every_file_witness :
  ∃ s w',
    DocumentClassifierAgent.process (scripted_env None None None)
      (application "DE" [transcript_pdf; abitur_pdf]) []
    = (Ok s, w')
    ∧ map ClassifiedDocument.file s.(ApplicationState.classified_documents)
      = [transcript_pdf; abitur_pdf].
Proof.
  apply (classification_covers_every_file (scripted_env None None None)
           (application "DE" [transcript_pdf; abitur_pdf]) []).
  intros w0 f. by eexists.
Defined.

Lemma decision_needs_valid_status_witness :
  ∃ s w',
    AdmissionDecisionAgent.process (scripted_env None None (Some empty_object))
      (with_transcript "CA") []
    = (Ok s, w')
    ∧ s.(ApplicationState.current_stage) = "error"
    ∧ is_Some s.(ApplicationState.error_message)
    ∧ s.(ApplicationState.admission_decision) = None.
Proof.
  apply (decision_needs_valid_status (scripted_env None None (Some empty_object))
           (with_transcript "CA") []); [reflexivity|].
  intros w0 profile rules target_program entity text [= <-].
  exists empty_object. split; [reflexivity|]. intros s. discriminate.
Defined.

Lemma extraction_gate_witness :
  AdmissionWorkflow.has_error_message with_record = false
  ∧ AdmissionWorkflow.edge AdmissionWorkflow.extract_data with_record
    = (AdmissionWorkflow.To AdmissionWorkflow.make_decision, with_record).
Proof.
  split; [reflexivity|].
  destruct (extraction_gate with_record eq_refl) as (r & state' & Hr & Hiff & Hcontinue & _).
  apply Hcontinue. apply Hiff.
  exists transcript_record. split; [apply list_elem_of_here | by vm_compute].
Defined.

Lemma gates_respect_error_message_witness :
  AdmissionWorkflow.edge AdmissionWorkflow.classify_documents with_message
  = (AdmissionWorkflow.To AdmissionWorkflow.handle_error, with_message)
  ∧ AdmissionWorkflow.edge AdmissionWorkflow.extract_data with_message
    = (AdmissionWorkflow.To AdmissionWorkflow.handle_error, with_message).
Proof.
  apply (gates_respect_error_message with_message "upstream failure");
    [reflexivity | discriminate].
Defined.

Lemma malformed_classification_stops_witness :
  ∃ s,
    AdmissionWorkflow.process_application (scripted_env None None None)
      (application "DE" [transcript_pdf]) []
    = (Ok s,
       [LLMCall (classification_prompt (scripted_env None None None) transcript_pdf)])
    ∧ s.(ApplicationState.current_stage) = "error_handled".
Proof.
  destruct (malformed_classification_stops (scripted_env None None None)
              (application "DE" [transcript_pdf]) [])
    as (s & Hrun & Hstage & _).
  - intros w0 f text [= <-]. reflexivity.
  - exists s. split; [exact Hrun | exact Hstage].
Defined.

Lemma create_or_load_index_heals_witness :
  ∃ index events,
    Rag.create_or_load_index nat broken_store None None = (Ok index, Some index, events)
    ∧ index = 1%nat.
Proof.
  destruct (create_or_load_index_heals nat broken_store [handbook_chunk] 1%nat None
              eq_refl eq_refl eq_refl)
    as (index & events & Hrun & [Hindex | [Hload _]]).
  - by exists index, events.
  - discriminate Hload.
Defined.

Lemma uninitialized_retriever_gives_no_rules_witness :
  ∃ s,
    AdmissionDecisionAgent.process unwired_env (with_transcript "CA") []
    = (Ok s,
       [RAGQuery "What are the admission requirements for BSc Computer Science?";
        LLMCall (decision_prompt (with_transcript "CA") [])]).
Proof.
  exact (proj2 (uninitialized_retriever_gives_no_rules nat broken_store unwired_env
                  (with_transcript "CA") [] eq_refl eq_refl)).
Defined.
End MoreInstances.

Section SentinelInstance.
Import Examples.

Lemma malformed_extraction_is_rejected_witness :
  ∃ s w',
    DataExtractionAgent.process (scripted_env None None None) (with_transcript "CA") []
    = (Ok s, w')
    ∧ (AdmissionWorkflow.edge AdmissionWorkflow.extract_data s).1
      = AdmissionWorkflow.To AdmissionWorkflow.handle_error.
Proof.
  destruct (malformed_extraction_is_rejected (scripted_env None None None)
              (with_transcript "CA") [])
    as (s & w' & Hrun & _ & Hedge).
  - intros w0 d text [= <-]. reflexivity.
  - by exists s, w'.
Defined.
End SentinelInstance.
